(** * go-msi: the package manifest (package [manifest], file manifest/index.go)

    A shallow embedding of the manifest model of go-msi and of its
    operations: persistence ([Write], [Load]), identifier provisioning
    ([NeedGuid], [SetGuids]), path rewriting ([RewriteFilePaths]) and field
    normalisation ([Normalize]).

    Go strings are byte sequences and are modelled by [string]; slices are
    modelled by [list] (a nil slice and an empty slice both have length 0
    and are both the empty list); a method with a pointer receiver is a
    function that takes the manifest and returns the manifest it leaves
    behind; a Go [error] result is an [option error], [None] standing for
    [nil]. *)

From Stdlib Require Import String Ascii List ZArith Bool Lia DecimalString DecimalPos.
From stdpp Require Import base gmap strings.
Import ListNotations.

Local Open Scope string_scope.

(** stdpp keeps [simpl] from unfolding string concatenation; here it is
    computed with. *)
#[local] Arguments String.append !s1 s2 : simpl nomatch.

(** ** Errors *)

(** The operations only propagate the errors of their collaborators; the
    constructors name the collaborator an error comes from. *)
Inductive error : Type :=
| ErrNotExist (path : string)        (* os.Stat: no such file *)
| ErrIO (path : string)              (* ioutil.ReadFile / ioutil.WriteFile *)
| ErrSyntax                          (* json: the bytes are not a JSON text *)
| ErrUnmarshalType (field : string)  (* json: value of the wrong kind for a field *)
| ErrInvalidSemVer                   (* semver: the string is not a version *)
| ErrSegment (segment : string)      (* semver: a numeric segment overflows int64 *)
| ErrGuid (msg : string)             (* guid.Make *)
| ErrPath (msg : string).            (* filepath.Abs / filepath.Rel *)

(** ** Data model *)

Module WixFiles.
Record t : Type := mk { Guid : string; Items : list string }.
Definition zero : t := mk "" [].
Definition set_Guid (v : string) (x : t) : t := let 'mk _ b := x in mk v b.
Definition set_Items (v : list string) (x : t) : t := let 'mk a _ := x in mk a v.
End WixFiles.

Module WixEnv.
Record t : Type := mk {
  Name : string; Value : string; Permanent : string;
  System : string; Action : string; Part : string }.
Definition zero : t := mk "" "" "" "" "" "".
Definition set_Name (v : string) (x : t) : t := let 'mk _ b c d e f := x in mk v b c d e f.
Definition set_Value (v : string) (x : t) : t := let 'mk a _ c d e f := x in mk a v c d e f.
Definition set_Permanent (v : string) (x : t) : t := let 'mk a b _ d e f := x in mk a b v d e f.
Definition set_System (v : string) (x : t) : t := let 'mk a b c _ e f := x in mk a b c v e f.
Definition set_Action (v : string) (x : t) : t := let 'mk a b c d _ f := x in mk a b c d v f.
Definition set_Part (v : string) (x : t) : t := let 'mk a b c d e _ := x in mk a b c d e v.
End WixEnv.

Module WixEnvList.
Record t : Type := mk { Guid : string; Vars : list WixEnv.t }.
Definition zero : t := mk "" [].
Definition set_Guid (v : string) (x : t) : t := let 'mk _ b := x in mk v b.
Definition set_Vars (v : list WixEnv.t) (x : t) : t := let 'mk a _ := x in mk a v.
End WixEnvList.

Module WixShortcut.
Record t : Type := mk {
  Name : string; Description : string; Target : string;
  WDir : string; Arguments : string; Icon : string }.
Definition zero : t := mk "" "" "" "" "" "".
Definition set_Name (v : string) (x : t) : t := let 'mk _ b c d e f := x in mk v b c d e f.
Definition set_Description (v : string) (x : t) : t := let 'mk a _ c d e f := x in mk a v c d e f.
Definition set_Target (v : string) (x : t) : t := let 'mk a b _ d e f := x in mk a b v d e f.
Definition set_WDir (v : string) (x : t) : t := let 'mk a b c _ e f := x in mk a b c v e f.
Definition set_Arguments (v : string) (x : t) : t := let 'mk a b c d _ f := x in mk a b c d v f.
Definition set_Icon (v : string) (x : t) : t := let 'mk a b c d e _ := x in mk a b c d e v.
End WixShortcut.

Module WixShortcuts.
Record t : Type := mk { Guid : string; Items : list WixShortcut.t }.
Definition zero : t := mk "" [].
Definition set_Guid (v : string) (x : t) : t := let 'mk _ b := x in mk v b.
Definition set_Items (v : list WixShortcut.t) (x : t) : t := let 'mk a _ := x in mk a v.
End WixShortcuts.

Module ChocoSpec.
Record t : Type := mk {
  Id : string; Title : string; Authors : string; Owners : string;
  Description : string; ProjectUrl : string; Tags : string;
  LicenseUrl : string; IconUrl : string; RequireLicense : bool;
  MsiFile : string; BuildDir : string; ChangeLog : string }.
Definition zero : t := mk "" "" "" "" "" "" "" "" "" false "" "" "".
Definition set_Id (v : string) (x : t) : t :=
  let 'mk _ b c d e f g h i j k l m := x in mk v b c d e f g h i j k l m.
Definition set_Title (v : string) (x : t) : t :=
  let 'mk a _ c d e f g h i j k l m := x in mk a v c d e f g h i j k l m.
Definition set_Authors (v : string) (x : t) : t :=
  let 'mk a b _ d e f g h i j k l m := x in mk a b v d e f g h i j k l m.
Definition set_Owners (v : string) (x : t) : t :=
  let 'mk a b c _ e f g h i j k l m := x in mk a b c v e f g h i j k l m.
Definition set_Description (v : string) (x : t) : t :=
  let 'mk a b c d _ f g h i j k l m := x in mk a b c d v f g h i j k l m.
Definition set_ProjectUrl (v : string) (x : t) : t :=
  let 'mk a b c d e _ g h i j k l m := x in mk a b c d e v g h i j k l m.
Definition set_Tags (v : string) (x : t) : t :=
  let 'mk a b c d e f _ h i j k l m := x in mk a b c d e f v h i j k l m.
Definition set_LicenseUrl (v : string) (x : t) : t :=
  let 'mk a b c d e f g _ i j k l m := x in mk a b c d e f g v i j k l m.
Definition set_IconUrl (v : string) (x : t) : t :=
  let 'mk a b c d e f g h _ j k l m := x in mk a b c d e f g h v j k l m.
Definition set_RequireLicense (v : bool) (x : t) : t :=
  let 'mk a b c d e f g h i _ k l m := x in mk a b c d e f g h i v k l m.
Definition set_MsiFile (v : string) (x : t) : t :=
  let 'mk a b c d e f g h i j _ l m := x in mk a b c d e f g h i j v l m.
Definition set_BuildDir (v : string) (x : t) : t :=
  let 'mk a b c d e f g h i j k _ m := x in mk a b c d e f g h i j k v m.
Definition set_ChangeLog (v : string) (x : t) : t :=
  let 'mk a b c d e f g h i j k l _ := x in mk a b c d e f g h i j k l v.
End ChocoSpec.

Record WixManifest : Type := mkWixManifest {
  Product : string;
  Company : string;
  Version : string;
  VersionOk : string;
  License : string;
  UpgradeCode : string;
  Files : WixFiles.t;
  Directories : list string;
  RelDirs : list string;
  Env : WixEnvList.t;
  Shortcuts : WixShortcuts.t;
  Choco : ChocoSpec.t }.

(** The zero value of the struct, [WixManifest{}]. *)
Definition zero_manifest : WixManifest :=
  mkWixManifest "" "" "" "" "" "" WixFiles.zero [] []
                WixEnvList.zero WixShortcuts.zero ChocoSpec.zero.

Definition set_Product (v : string) (w : WixManifest) : WixManifest :=
  let 'mkWixManifest _ b c d e f g h i j k l := w in mkWixManifest v b c d e f g h i j k l.
Definition set_Company (v : string) (w : WixManifest) : WixManifest :=
  let 'mkWixManifest a _ c d e f g h i j k l := w in mkWixManifest a v c d e f g h i j k l.
Definition set_Version (v : string) (w : WixManifest) : WixManifest :=
  let 'mkWixManifest a b _ d e f g h i j k l := w in mkWixManifest a b v d e f g h i j k l.
Definition set_VersionOk (v : string) (w : WixManifest) : WixManifest :=
  let 'mkWixManifest a b c _ e f g h i j k l := w in mkWixManifest a b c v e f g h i j k l.
Definition set_License (v : string) (w : WixManifest) : WixManifest :=
  let 'mkWixManifest a b c d _ f g h i j k l := w in mkWixManifest a b c d v f g h i j k l.
Definition set_UpgradeCode (v : string) (w : WixManifest) : WixManifest :=
  let 'mkWixManifest a b c d e _ g h i j k l := w in mkWixManifest a b c d e v g h i j k l.
Definition set_Files (v : WixFiles.t) (w : WixManifest) : WixManifest :=
  let 'mkWixManifest a b c d e f _ h i j k l := w in mkWixManifest a b c d e f v h i j k l.
Definition set_Directories (v : list string) (w : WixManifest) : WixManifest :=
  let 'mkWixManifest a b c d e f g _ i j k l := w in mkWixManifest a b c d e f g v i j k l.
Definition set_RelDirs (v : list string) (w : WixManifest) : WixManifest :=
  let 'mkWixManifest a b c d e f g h _ j k l := w in mkWixManifest a b c d e f g h v j k l.
Definition set_Env (v : WixEnvList.t) (w : WixManifest) : WixManifest :=
  let 'mkWixManifest a b c d e f g h i _ k l := w in mkWixManifest a b c d e f g h i v k l.
Definition set_Shortcuts (v : WixShortcuts.t) (w : WixManifest) : WixManifest :=
  let 'mkWixManifest a b c d e f g h i j _ l := w in mkWixManifest a b c d e f g h i j v l.
Definition set_Choco (v : ChocoSpec.t) (w : WixManifest) : WixManifest :=
  let 'mkWixManifest a b c d e f g h i j k _ := w in mkWixManifest a b c d e f g h i j k v.

(** ** Identifier provisioning *)

(** [NeedGuid]: the function only reads the manifest and returns a boolean;
    its result type carries no manifest, as the Go body assigns to no field
    of the receiver. *)
Definition NeedGuid (wixFile : WixManifest) : bool :=
  let need := false in
  let need := if UpgradeCode wixFile =? "" then true else need in
  let need := if WixFiles.Guid (Files wixFile) =? "" then true else need in
  let need :=
    if (WixEnvList.Guid (Env wixFile) =? "")
       && (0 <? length (WixEnvList.Vars (Env wixFile)))%nat
    then true else need in
  let need :=
    if (WixShortcuts.Guid (Shortcuts wixFile) =? "")
       && (0 <? length (WixShortcuts.Items (Shortcuts wixFile)))%nat
    then true else need in
  need.

(** Control flow of a Go block inside a function with results
    [(bool, error)]: the block either falls through to the next block
    ([Next], with the current value of the local [updated]) or executes a
    [return] statement ([Ret]).  Both carry the manifest and the generator
    as the block leaves them. *)
Inductive flow (G : Type) : Type :=
| Next (updated : bool) (wixFile : WixManifest) (g : G)
| Ret (changed : bool) (err : option error) (wixFile : WixManifest) (g : G).
Arguments Next {G} updated wixFile g.
Arguments Ret {G} changed err wixFile g.

Notation "'do' ( u , w , g ) <- c ; k" :=
  (match c with
   | Next u w g => k
   | Ret b e w' g' => (b, e, w', g')
   end) (at level 10, u name, w name, g name, c at level 100, k at level 200,
         format "'[v' 'do'  ( u ,  w ,  g )  <-  c ; '/' k ']'").

Section Provisioning.

(** [guid.Make] belongs to package guid, outside manifest/index.go; it is
    a parameter here.  The generator draws on a source of entropy, so it
    has a state [G], and as every Go function of type
    [func() (string, error)] it hands back a string together with the
    error. *)
Variable G : Type.
Variable Make : G -> (string * option error) * G.

(** [SetGuids].  An assignment [x, err = guid.Make()] stores the returned
    string in [x] before [err] is looked at. *)
Definition SetGuids (wixFile : WixManifest) (g : G)
  : bool * option error * WixManifest * G :=
  let updated := false in
  do (updated, wixFile, g) <-
    (if UpgradeCode wixFile =? "" then
       let '((s, err), g) := Make g in
       let wixFile := set_UpgradeCode s wixFile in
       match err with
       | Some e => Ret false (Some e) wixFile g
       | None => Next true wixFile g
       end
     else Next updated wixFile g);
  do (updated, wixFile, g) <-
    (if WixFiles.Guid (Files wixFile) =? "" then
       let '((s, err), g) := Make g in
       let wixFile := set_Files (WixFiles.set_Guid s (Files wixFile)) wixFile in
       match err with
       | Some e => Ret false (Some e) wixFile g
       | None => Next true wixFile g
       end
     else Next updated wixFile g);
  do (updated, wixFile, g) <-
    (if (WixEnvList.Guid (Env wixFile) =? "")
        && (0 <? length (WixEnvList.Vars (Env wixFile)))%nat then
       let '((s, err), g) := Make g in
       let wixFile := set_Env (WixEnvList.set_Guid s (Env wixFile)) wixFile in
       match err with
       | Some e => Ret false (Some e) wixFile g
       | None => Next true wixFile g
       end
     else Next updated wixFile g);
  do (updated, wixFile, g) <-
    (if (WixShortcuts.Guid (Shortcuts wixFile) =? "")
        && (0 <? length (WixShortcuts.Items (Shortcuts wixFile)))%nat then
       let '((s, err), g) := Make g in
       let wixFile := set_Shortcuts (WixShortcuts.set_Guid s (Shortcuts wixFile)) wixFile in
       match err with
       | Some e => Ret false (Some e) wixFile g
       | None => Next true wixFile g
       end
     else Next updated wixFile g);
  (updated, None, wixFile, g).

(** The generator seen from outside: its state after [k] calls, and what
    call number [k] (counted from 0) hands back. *)
Fixpoint gen_state (k : nat) (g : G) : G :=
  match k with
  | O => g
  | S k' => gen_state k' (snd (Make g))
  end.

Definition gen_out (k : nat) (g : G) : string * option error :=
  fst (Make (gen_state k g)).

End Provisioning.

(** The four identifier slots, in the order [SetGuids] visits them. *)
Inductive slot : Type := SlotUpgrade | SlotFiles | SlotEnv | SlotShortcuts.

Definition slot_index (s : slot) : nat :=
  match s with
  | SlotUpgrade => 0 | SlotFiles => 1 | SlotEnv => 2 | SlotShortcuts => 3
  end.

Definition slot_value (s : slot) (w : WixManifest) : string :=
  match s with
  | SlotUpgrade => UpgradeCode w
  | SlotFiles => WixFiles.Guid (Files w)
  | SlotEnv => WixEnvList.Guid (Env w)
  | SlotShortcuts => WixShortcuts.Guid (Shortcuts w)
  end.

(** The condition of the [if] that guards a slot in [SetGuids] and in
    [NeedGuid]. *)
Definition slot_missing (s : slot) (w : WixManifest) : bool :=
  match s with
  | SlotUpgrade => UpgradeCode w =? ""
  | SlotFiles => WixFiles.Guid (Files w) =? ""
  | SlotEnv =>
      (WixEnvList.Guid (Env w) =? "") && (0 <? length (WixEnvList.Vars (Env w)))%nat
  | SlotShortcuts =>
      (WixShortcuts.Guid (Shortcuts w) =? "")
      && (0 <? length (WixShortcuts.Items (Shortcuts w)))%nat
  end.

Definition all_slots : list slot := [SlotUpgrade; SlotFiles; SlotEnv; SlotShortcuts].

(** Number of generator calls [SetGuids] has made when it reaches slot [s]
    without having failed: the missing slots that come before [s]. *)
Definition calls_before (s : slot) (w : WixManifest) : nat :=
  length (List.filter
            (fun s' => (slot_index s' <? slot_index s)%nat && slot_missing s' w)
            all_slots).

(** Everything of a manifest but its four identifier slots. *)
Definition clear_slots (w : WixManifest) : WixManifest :=
  set_UpgradeCode ""
    (set_Files (WixFiles.set_Guid "" (Files w))
       (set_Env (WixEnvList.set_Guid "" (Env w))
          (set_Shortcuts (WixShortcuts.set_Guid "" (Shortcuts w)) w))).

(** What a call of [SetGuids] that got past slot [s] has left in it: the
    string of the generator call made for it, without error, when the slot
    was missing; what it held otherwise. *)
Definition provisioned (G : Type) (Make : G -> (string * option error) * G)
           (w : WixManifest) (g : G) (s : slot) (w' : WixManifest) : Prop :=
  if slot_missing s w
  then gen_out G Make (calls_before s w) g = (slot_value s w', None)
  else slot_value s w' = slot_value s w.

(** ** Path rewriting *)

Section Paths.

(** [filepath.Abs] (which reads the working directory of the process) and
    [filepath.Rel] are parameters; each hands back a string together with
    the error. *)
Variable Abs : string -> string * option error.
Variable Rel : string -> string -> string * option error.

(** First loop, [for i, file := range wixFile.Files.Items]: [items] is what
    is left of the ranged slice and [i] the index of its head.  The
    assignment [wixFile.Files.Items[i], err = filepath.Rel(out, file)]
    stores the string before [err] is tested. *)
Fixpoint rewrite_files (out : string) (i : nat) (items : list string)
         (wixFile : WixManifest) : WixManifest * option error :=
  match items with
  | [] => (wixFile, None)
  | file :: items' =>
      let '(file, err) := Abs file in
      match err with
      | Some e => (wixFile, Some e)
      | None =>
          let '(r, err) := Rel out file in
          let wixFile :=
            set_Files (WixFiles.set_Items (<[i := r]> (WixFiles.Items (Files wixFile)))
                                          (Files wixFile)) wixFile in
          match err with
          | Some e => (wixFile, Some e)
          | None => rewrite_files out (S i) items' wixFile
          end
      end
  end.

(** Second loop, [for _, d := range wixFile.Directories]. *)
Fixpoint rewrite_dirs (out : string) (dirs : list string)
         (wixFile : WixManifest) : WixManifest * option error :=
  match dirs with
  | [] => (wixFile, None)
  | d :: dirs' =>
      let '(d, err) := Abs d in
      match err with
      | Some e => (wixFile, Some e)
      | None =>
          let '(r, err) := Rel out d in
          match err with
          | Some e => (wixFile, Some e)
          | None =>
              let wixFile := set_RelDirs (RelDirs wixFile ++ [r]) wixFile in
              rewrite_dirs out dirs' wixFile
          end
      end
  end.

(** Third loop, [for i, s := range wixFile.Shortcuts.Items]. *)
Fixpoint rewrite_icons (out : string) (i : nat) (items : list WixShortcut.t)
         (wixFile : WixManifest) : WixManifest * option error :=
  match items with
  | [] => (wixFile, None)
  | s :: items' =>
      if negb (WixShortcut.Icon s =? "") then
        let '(file, err) := Abs (WixShortcut.Icon s) in
        match err with
        | Some e => (wixFile, Some e)
        | None =>
            let '(r, err) := Rel out file in
            let wixFile :=
              set_Shortcuts
                (WixShortcuts.set_Items
                   (alter (WixShortcut.set_Icon r) i
                          (WixShortcuts.Items (Shortcuts wixFile)))
                   (Shortcuts wixFile)) wixFile in
            match err with
            | Some e => (wixFile, Some e)
            | None => rewrite_icons out (S i) items' wixFile
            end
        end
      else rewrite_icons out (S i) items' wixFile
  end.

Definition RewriteFilePaths (out : string) (wixFile : WixManifest)
  : WixManifest * option error :=
  match rewrite_files out 0 (WixFiles.Items (Files wixFile)) wixFile with
  | (wixFile, Some e) => (wixFile, Some e)
  | (wixFile, None) =>
      match rewrite_dirs out (Directories wixFile) wixFile with
      | (wixFile, Some e) => (wixFile, Some e)
      | (wixFile, None) =>
          match rewrite_icons out 0 (WixShortcuts.Items (Shortcuts wixFile)) wixFile with
          | (wixFile, Some e) => (wixFile, Some e)
          | (wixFile, None) => (wixFile, None)
          end
      end
  end.

(** [r] is the output-relative form of [d]: both path calls succeed. *)
Definition relativized (out d r : string) : Prop :=
  exists a, Abs d = (a, None) /\ Rel out a = (r, None).

(** The path calls fail on [d] with [e]: [filepath.Abs] does, or it does
    not and [filepath.Rel] does. *)
Definition path_error (out d : string) (e : error) : Prop :=
  snd (Abs d) = Some e \/ exists a, Abs d = (a, None) /\ snd (Rel out a) = Some e.

(** [s'] is the shortcut [s] with its icon, when it has one, in
    output-relative form. *)
Definition icon_relativized (out : string) (s s' : WixShortcut.t) : Prop :=
  if WixShortcut.Icon s =? "" then s' = s
  else exists r, relativized out (WixShortcut.Icon s) r
                 /\ s' = WixShortcut.set_Icon r s.

End Paths.

(** The paths [RewriteFilePaths] hands to the path calls, in the order of
    the calls: the files, the directories, the icons that are not empty. *)
Definition rewritten_paths (wixFile : WixManifest) : list string :=
  (WixFiles.Items (Files wixFile) ++ Directories wixFile
   ++ List.filter (fun p => negb (p =? ""))
        (map WixShortcut.Icon (WixShortcuts.Items (Shortcuts wixFile))))%list.

(** ** Field normalisation *)

(** The two functions of package strconv that are used, in base 10. *)
Module strconv.

Definition is_digit (c : ascii) : bool :=
  ((48 <=? N_of_ascii c) && (N_of_ascii c <=? 57))%N.

Fixpoint digits_value (acc : Z) (s : string) : option Z :=
  match s with
  | EmptyString => Some acc
  | String c s' =>
      if is_digit c
      then digits_value (10 * acc + (Z.of_N (N_of_ascii c) - 48))%Z s'
      else None
  end.

(** [strconv.ParseInt(s, 10, 64)]: an optional sign, then one decimal
    digit or more; the value has to fit in an int64. *)
Definition ParseInt (s : string) : Z + error :=
  let '(neg, body) :=
    match s with
    | String "+"%char s' => (false, s')
    | String "-"%char s' => (true, s')
    | _ => (false, s)
    end in
  match body with
  | EmptyString => inr (ErrSegment s)
  | _ =>
      match digits_value 0 body with
      | None => inr (ErrSegment s)
      | Some n =>
          let v := if neg then (- n)%Z else n in
          if ((- 2 ^ 63 <=? v) && (v <=? 2 ^ 63 - 1))%Z then inl v
          else inr (ErrSegment s)
      end
  end.

(** [strconv.FormatInt(i, 10)]. *)
Definition FormatInt (i : Z) : string := NilZero.string_of_int (Z.to_int i).

End strconv.

(** The version parser, [semver.NewVersion] of Masterminds/semver (release
    line 1, whose accessors return int64).  A string is a version when the
    whole of it matches the pattern of the package,

      version ::= [v] digits [. digits] [. digits] [- idents] [+ idents]
      idents  ::= ident { . ident }
      ident   ::= one character or more among 0-9, A-Z, a-z and -

    (square brackets: optional; braces: repeated), and its numeric segments
    fit in an int64.  No two branches of the pattern can start on the same
    character, so the match is computed from left to right. *)
Module semver.

Record Version : Type := mkVersion {
  Major : Z; Minor : Z; Patch : Z;
  Prerelease : string; Metadata : string; Original : string }.

(** The longest prefix of characters satisfying [p], and the rest. *)
Fixpoint span (p : ascii -> bool) (s : string) : string * string :=
  match s with
  | EmptyString => ("", "")
  | String c s' =>
      if p c then let '(a, b) := span p s' in (String c a, b) else ("", s)
  end.

(** A character of an identifier: a digit, a letter or a hyphen. *)
Definition is_ident (c : ascii) : bool :=
  let n := N_of_ascii c in
  (((48 <=? n) && (n <=? 57)) || ((65 <=? n) && (n <=? 90))
   || ((97 <=? n) && (n <=? 122)) || (n =? 45))%N.

(** The optional group [. digits]: its digits (empty when the group does
    not take part in the match) and the rest. *)
Definition numeric_group (s : string) : string * string :=
  match s with
  | String "."%char s' =>
      let '(ds, rest) := span strconv.is_digit s' in
      if ds =? "" then ("", s) else (ds, rest)
  | _ => ("", s)
  end.

(** The repeated group [{ . ident }]. *)
Fixpoint dotted (fuel : nat) (s : string) : string * string :=
  match fuel with
  | O => ("", s)
  | S fuel' =>
      match s with
      | String "."%char s' =>
          let '(a, rest) := span is_ident s' in
          if a =? "" then ("", s)
          else let '(m, rest') := dotted fuel' rest in
               (String "."%char (a ++ m), rest')
      | _ => ("", s)
      end
  end.

(** The optional group [c idents] for the leading character [c]: the text
    of [idents] and the rest. *)
Definition suffix_group (c : ascii) (s : string) : string * string :=
  match s with
  | String c' s' =>
      if Ascii.eqb c' c then
        let '(a, rest) := span is_ident s' in
        if a =? "" then ("", s)
        else let '(m, rest') := dotted (String.length rest) rest in
             (a ++ m, rest')
      else ("", s)
  | EmptyString => ("", s)
  end.

Definition NewVersion (v : string) : Version + error :=
  let s := match v with String "v"%char s' => s' | _ => v end in
  let '(m1, s) := span strconv.is_digit s in
  if m1 =? "" then inr ErrInvalidSemVer else
  let '(m2, s) := numeric_group s in
  let '(m3, s) := numeric_group s in
  let '(m5, s) := suffix_group "-"%char s in
  let '(m8, s) := suffix_group "+"%char s in
  if negb (s =? "") then inr ErrInvalidSemVer else
  match strconv.ParseInt m1 with
  | inr e => inr e
  | inl major =>
      match (if m2 =? "" then inl 0%Z else strconv.ParseInt m2) with
      | inr e => inr e
      | inl minor =>
          match (if m3 =? "" then inl 0%Z else strconv.ParseInt m3) with
          | inr e => inr e
          | inl patch => inl (mkVersion major minor patch m5 m8 v)
          end
      end
  end.

End semver.

(** [Normalize]. *)
Definition Normalize (wixFile : WixManifest) : WixManifest * option error :=
  let wixFile := set_VersionOk (Version wixFile) wixFile in
  match semver.NewVersion (Version wixFile) with
  | inr err => (wixFile, Some err)
  | inl v =>
      let okVersion := "" in
      let okVersion := okVersion ++ strconv.FormatInt (semver.Major v) in
      let okVersion := okVersion ++ "." ++ strconv.FormatInt (semver.Minor v) in
      let okVersion := okVersion ++ "." ++ strconv.FormatInt (semver.Patch v) in
      let wixFile := set_VersionOk okVersion wixFile in
      let choco := Choco wixFile in
      let choco :=
        if ChocoSpec.Id choco =? "" then ChocoSpec.set_Id (Product wixFile) choco
        else choco in
      let choco :=
        if ChocoSpec.Title choco =? "" then ChocoSpec.set_Title (Product wixFile) choco
        else choco in
      let choco :=
        if ChocoSpec.Authors choco =? "" then ChocoSpec.set_Authors (Company wixFile) choco
        else choco in
      let choco :=
        if ChocoSpec.Owners choco =? "" then ChocoSpec.set_Owners (Company wixFile) choco
        else choco in
      let choco :=
        if ChocoSpec.Description choco =? ""
        then ChocoSpec.set_Description (Product wixFile) choco
        else choco in
      let choco := ChocoSpec.set_Tags (ChocoSpec.Tags choco ++ " admin") choco in
      (set_Choco choco wixFile, None)
  end.

(** ** Persistence *)

(** Package unicode/utf8, as far as encoding/json calls it. *)
Module utf8.

Definition between (lo hi : N) (c : ascii) : bool :=
  ((lo <=? N_of_ascii c) && (N_of_ascii c <=? hi))%N.

(** [utf8.DecodeRuneInString], its second result: the number of bytes of
    the encoding at the head of [s], when it is well formed; [None] stands
    for the result [(RuneError, 1)] on a byte that starts no well-formed
    encoding, and for the empty string.  The first byte gives the length
    and the range of the second byte (bytes 128 to 193 and 245 to 255 start
    nothing; no overlong form, no surrogate, nothing past U+10FFFF); the
    other bytes are continuation bytes, 128 to 191. *)
Definition DecodeRuneInString (s : string) : option nat :=
  match s with
  | EmptyString => None
  | String c0 s1 =>
      let n := N_of_ascii c0 in
      if (n <? 128)%N then Some 1%nat
      else if (n <? 194)%N then None
      else if (n <? 224)%N then
        match s1 with
        | String c1 _ => if between 128 191 c1 then Some 2%nat else None
        | _ => None
        end
      else if (n <? 240)%N then
        let lo := if (n =? 224)%N then 160%N else 128%N in
        let hi := if (n =? 237)%N then 159%N else 191%N in
        match s1 with
        | String c1 (String c2 _) =>
            if between lo hi c1 && between 128 191 c2 then Some 3%nat else None
        | _ => None
        end
      else if (n <? 245)%N then
        let lo := if (n =? 240)%N then 144%N else 128%N in
        let hi := if (n =? 244)%N then 143%N else 191%N in
        match s1 with
        | String c1 (String c2 (String c3 _)) =>
            if between lo hi c1 && between 128 191 c2 && between 128 191 c3
            then Some 4%nat else None
        | _ => None
        end
      else None
  end.

(** U+FFFD, the replacement character, in UTF-8: bytes EF BF BD. *)
Definition RuneError : string :=
  String (ascii_of_N 239) (String (ascii_of_N 191) (String (ascii_of_N 189) EmptyString)).

End utf8.

(** Package encoding/json, as far as [Write] and [Load] exercise it.  A
    document is a JSON value: the value [Unmarshal] reads from the text of
    the document; the text itself (indentation, escapes) is left to the
    package.  What is modelled is which members [Marshal] writes for a
    struct with the tags of this package, what it makes of a string, and
    what [Unmarshal] does to a variable that already holds a value. *)
Module json.

#[local] Unset Elimination Schemes.
Inductive value : Type :=
| Null
| Bool (b : bool)
| Number (literal : string)
| Str (s : string)
| Arr (elems : list value)
| Obj (members : list (string * value)).
#[local] Set Elimination Schemes.

(** *** Marshal *)

(** A string is written coerced to valid UTF-8: the encoder goes through
    it rune by rune and writes the escape of U+FFFD for every byte on which
    [utf8.DecodeRuneInString] answers [(RuneError, 1)]; every other rune is
    written so that it is read back as it was.  [coerced_from skip s] is
    what is read back of [s], whose first [skip] bytes are the rest of a
    rune already seen. *)
Fixpoint coerced_from (skip : nat) (s : string) : string :=
  match s with
  | EmptyString => EmptyString
  | String c s' =>
      match skip with
      | S skip' => String c (coerced_from skip' s')
      | O =>
          match utf8.DecodeRuneInString s with
          | Some size => String c (coerced_from (size - 1) s')
          | None => utf8.RuneError ++ coerced_from 0 s'
          end
      end
  end.

Definition coerced (s : string) : string := coerced_from 0 s.

Definition str (s : string) : value := Str (coerced s).

(** A field tagged [omitempty] is left out when it holds [false], an
    empty string or a slice of length 0.  A struct is never empty in that
    sense: on a field of struct type the tag has no effect. *)
Definition omitempty_string (key s : string) : list (string * value) :=
  if s =? "" then [] else [(key, str s)].

Definition omitempty_bool (key : string) (b : bool) : list (string * value) :=
  if b then [(key, Bool b)] else [].

(** A slice of length 0 is taken to be the nil slice, as in the zero
    value of the struct; [Marshal] writes a nil slice as [null]. *)
Definition slice {A : Type} (enc : A -> value) (l : list A) : value :=
  match l with
  | [] => Null
  | _ => Arr (map enc l)
  end.

Definition omitempty_slice {A : Type} (key : string) (enc : A -> value) (l : list A)
  : list (string * value) :=
  match l with
  | [] => []
  | _ => [(key, slice enc l)]
  end.

(** *** Unmarshal *)

(** [Unmarshal] goes on after a value of the wrong kind, leaves the
    variable concerned as it is and reports the earliest such error. *)
Definition first_error (e1 e2 : option error) : option error :=
  match e1 with Some _ => e1 | None => e2 end.

(** A decoder stores a JSON value into a variable of type [A]: it gets
    the value and the variable's content and gives the new content. *)
Definition decoder (A : Type) : Type := value -> A -> A * option error.

Definition into_string (field : string) : decoder string :=
  fun v old =>
    match v with
    | Str s => (s, None)
    | Null => (old, None)
    | _ => (old, Some (ErrUnmarshalType field))
    end.

Definition into_bool (field : string) : decoder bool :=
  fun v old =>
    match v with
    | Bool b => (b, None)
    | Null => (old, None)
    | _ => (old, Some (ErrUnmarshalType field))
    end.

(** Into a slice: [null] sets it to nil; an array gives a slice with one
    element per array element.  The decoder reuses the slice it is given:
    element [i] is decoded into the element the slice holds at [i], and
    into a zero element past its length (the capacity of a slice beyond
    its length is not modelled). *)
Definition into_slice {A : Type} (zero : A) (elem : decoder A) (field : string)
  : decoder (list A) :=
  fun v old =>
    match v with
    | Null => ([], None)
    | Arr elems =>
        fold_left
          (fun acc x =>
             let '(l, e) := acc in
             let '(y, e') := elem x (nth (length l) old zero) in
             ((l ++ [y])%list, first_error e e'))
          elems ([], None)
    | _ => (old, Some (ErrUnmarshalType field))
    end.

(** Member names are matched to field names exactly or, failing that,
    under Unicode simple case folding.  Against the ASCII names of this
    package that is: ASCII letters without regard to case, U+017F (long
    s, bytes C5 BF) for s and U+212A (Kelvin sign, bytes E2 84 AA) for
    k. *)
Fixpoint foldName (s : string) : string :=
  match s with
  | EmptyString => EmptyString
  | String c s' =>
      let n := N_of_ascii c in
      if ((65 <=? n) && (n <=? 90))%N then String (ascii_of_N (n + 32)) (foldName s')
      else
        match s' with
        | String c1 s1 =>
            if ((n =? 197) && (N_of_ascii c1 =? 191))%N
            then String "s"%char (foldName s1)
            else
              match s1 with
              | String c2 s2 =>
                  if ((n =? 226) && (N_of_ascii c1 =? 132) && (N_of_ascii c2 =? 170))%N
                  then String "k"%char (foldName s2)
                  else String c (foldName s')
              | EmptyString => String c (foldName s')
              end
        | EmptyString => String c EmptyString
        end
  end.

(** A field of a struct [A] as [Unmarshal] sees it: its name in the
    document and the decoder into that field. *)
Definition field (A : Type) : Type := string * decoder A.

Definition mk_field {A B : Type} (name : string) (into : string -> decoder B)
           (get : A -> B) (set : B -> A -> A) : field A :=
  (name,
   fun v x => let '(y, e) := into name v (get x) in (set y x, e)).

Definition find_field {A : Type} (fields : list (field A)) (key : string)
  : option (field A) :=
  match find (fun f => fst f =? key) fields with
  | Some f => Some f
  | None => find (fun f => foldName (fst f) =? foldName key) fields
  end.

(** One member of an object, stored into the struct [x] beside the
    earliest error [e] met so far. *)
Definition assign {A : Type} (fields : list (field A))
           (acc : A * option error) (kv : string * value) : A * option error :=
  let '(x, e) := acc in
  match find_field fields (fst kv) with
  | Some f => let '(x', e') := snd f (snd kv) x in (x', first_error e e')
  | None => (x, e)
  end.

(** Into a struct: [null] has no effect; the members of an object are
    taken in the order of the document, a member that matches no field
    is skipped, a field matched by no member keeps its content. *)
Definition into_struct {A : Type} (fields : list (field A)) (name : string)
  : decoder A :=
  fun v old =>
    match v with
    | Null => (old, None)
    | Obj members => fold_left (assign fields) members (old, None)
    | _ => (old, Some (ErrUnmarshalType name))
    end.

(** *** Reading a document *)

Definition keys (v : value) : list string :=
  match v with
  | Obj members => map fst members
  | _ => []
  end.


(** A member name [key] is matched to the field called [name]. *)
Definition addresses (name key : string) : bool :=
  foldName key =? foldName name.

(** The field reached by [path] (the names of the sections, then the name
    of the field) is absent from a document: no member is matched to it,
    in no copy of the sections it lies in. *)
Fixpoint absent (path : list string) (v : value) : bool :=
  match path with
  | [] => false
  | name :: path' =>
      match v with
      | Obj members =>
          forallb (fun kv => if addresses name (fst kv) then absent path' (snd kv) else true)
                  members
      | _ => true
      end
  end.

End json.

(** The struct tags of the package: what is written for each struct, and
    the fields [Unmarshal] can reach.  Fields tagged [json:"-"] appear in
    neither. *)

Definition encode_WixFiles (x : WixFiles.t) : json.value :=
  json.Obj [("guid", json.str (WixFiles.Guid x));
            ("items", json.slice json.str (WixFiles.Items x))].

Definition encode_WixEnv (x : WixEnv.t) : json.value :=
  json.Obj [("name", json.str (WixEnv.Name x));
            ("value", json.str (WixEnv.Value x));
            ("permanent", json.str (WixEnv.Permanent x));
            ("system", json.str (WixEnv.System x));
            ("action", json.str (WixEnv.Action x));
            ("part", json.str (WixEnv.Part x))].

Definition encode_WixEnvList (x : WixEnvList.t) : json.value :=
  json.Obj [("guid", json.str (WixEnvList.Guid x));
            ("vars", json.slice encode_WixEnv (WixEnvList.Vars x))].

Definition encode_WixShortcut (x : WixShortcut.t) : json.value :=
  json.Obj [("name", json.str (WixShortcut.Name x));
            ("description", json.str (WixShortcut.Description x));
            ("target", json.str (WixShortcut.Target x));
            ("wdir", json.str (WixShortcut.WDir x));
            ("arguments", json.str (WixShortcut.Arguments x));
            ("icon", json.str (WixShortcut.Icon x))].

Definition encode_WixShortcuts (x : WixShortcuts.t) : json.value :=
  json.Obj (json.omitempty_string "guid" (WixShortcuts.Guid x)
            ++ json.omitempty_slice "items" encode_WixShortcut (WixShortcuts.Items x)).

Definition encode_ChocoSpec (x : ChocoSpec.t) : json.value :=
  json.Obj (json.omitempty_string "id" (ChocoSpec.Id x)
            ++ json.omitempty_string "title" (ChocoSpec.Title x)
            ++ json.omitempty_string "authors" (ChocoSpec.Authors x)
            ++ json.omitempty_string "owners" (ChocoSpec.Owners x)
            ++ json.omitempty_string "description" (ChocoSpec.Description x)
            ++ json.omitempty_string "project-url" (ChocoSpec.ProjectUrl x)
            ++ json.omitempty_string "tags" (ChocoSpec.Tags x)
            ++ json.omitempty_string "license-url" (ChocoSpec.LicenseUrl x)
            ++ json.omitempty_string "icon-url" (ChocoSpec.IconUrl x)
            ++ json.omitempty_bool "require-license" (ChocoSpec.RequireLicense x)).

(** [Files], [Env], [Shortcuts] and [Choco] carry [omitempty] but are of
    struct type: their members are always written. *)
Definition encode_WixManifest (w : WixManifest) : json.value :=
  json.Obj ([("product", json.str (Product w));
             ("company", json.str (Company w))]
            ++ json.omitempty_string "version" (Version w)
            ++ json.omitempty_string "license" (License w)
            ++ [("upgrade-code", json.str (UpgradeCode w));
                ("files", encode_WixFiles (Files w))]
            ++ json.omitempty_slice "directories" json.str (Directories w)
            ++ [("env", encode_WixEnvList (Env w));
                ("shortcuts", encode_WixShortcuts (Shortcuts w));
                ("choco", encode_ChocoSpec (Choco w))]).

Definition fields_WixFiles : list (json.field WixFiles.t) :=
  [json.mk_field "guid" json.into_string WixFiles.Guid WixFiles.set_Guid;
   json.mk_field "items" (json.into_slice "" (json.into_string "items"))
                 WixFiles.Items WixFiles.set_Items].

Definition fields_WixEnv : list (json.field WixEnv.t) :=
  [json.mk_field "name" json.into_string WixEnv.Name WixEnv.set_Name;
   json.mk_field "value" json.into_string WixEnv.Value WixEnv.set_Value;
   json.mk_field "permanent" json.into_string WixEnv.Permanent WixEnv.set_Permanent;
   json.mk_field "system" json.into_string WixEnv.System WixEnv.set_System;
   json.mk_field "action" json.into_string WixEnv.Action WixEnv.set_Action;
   json.mk_field "part" json.into_string WixEnv.Part WixEnv.set_Part].

Definition fields_WixEnvList : list (json.field WixEnvList.t) :=
  [json.mk_field "guid" json.into_string WixEnvList.Guid WixEnvList.set_Guid;
   json.mk_field "vars"
     (json.into_slice WixEnv.zero (json.into_struct fields_WixEnv "vars"))
     WixEnvList.Vars WixEnvList.set_Vars].

Definition fields_WixShortcut : list (json.field WixShortcut.t) :=
  [json.mk_field "name" json.into_string WixShortcut.Name WixShortcut.set_Name;
   json.mk_field "description" json.into_string
                 WixShortcut.Description WixShortcut.set_Description;
   json.mk_field "target" json.into_string WixShortcut.Target WixShortcut.set_Target;
   json.mk_field "wdir" json.into_string WixShortcut.WDir WixShortcut.set_WDir;
   json.mk_field "arguments" json.into_string
                 WixShortcut.Arguments WixShortcut.set_Arguments;
   json.mk_field "icon" json.into_string WixShortcut.Icon WixShortcut.set_Icon].

Definition fields_WixShortcuts : list (json.field WixShortcuts.t) :=
  [json.mk_field "guid" json.into_string WixShortcuts.Guid WixShortcuts.set_Guid;
   json.mk_field "items"
     (json.into_slice WixShortcut.zero (json.into_struct fields_WixShortcut "items"))
     WixShortcuts.Items WixShortcuts.set_Items].

Definition fields_ChocoSpec : list (json.field ChocoSpec.t) :=
  [json.mk_field "id" json.into_string ChocoSpec.Id ChocoSpec.set_Id;
   json.mk_field "title" json.into_string ChocoSpec.Title ChocoSpec.set_Title;
   json.mk_field "authors" json.into_string ChocoSpec.Authors ChocoSpec.set_Authors;
   json.mk_field "owners" json.into_string ChocoSpec.Owners ChocoSpec.set_Owners;
   json.mk_field "description" json.into_string
                 ChocoSpec.Description ChocoSpec.set_Description;
   json.mk_field "project-url" json.into_string
                 ChocoSpec.ProjectUrl ChocoSpec.set_ProjectUrl;
   json.mk_field "tags" json.into_string ChocoSpec.Tags ChocoSpec.set_Tags;
   json.mk_field "license-url" json.into_string
                 ChocoSpec.LicenseUrl ChocoSpec.set_LicenseUrl;
   json.mk_field "icon-url" json.into_string ChocoSpec.IconUrl ChocoSpec.set_IconUrl;
   json.mk_field "require-license" json.into_bool
                 ChocoSpec.RequireLicense ChocoSpec.set_RequireLicense].

Definition fields_WixManifest : list (json.field WixManifest) :=
  [json.mk_field "product" json.into_string Product set_Product;
   json.mk_field "company" json.into_string Company set_Company;
   json.mk_field "version" json.into_string Version set_Version;
   json.mk_field "license" json.into_string License set_License;
   json.mk_field "upgrade-code" json.into_string UpgradeCode set_UpgradeCode;
   json.mk_field "files" (json.into_struct fields_WixFiles) Files set_Files;
   json.mk_field "directories" (json.into_slice "" (json.into_string "directories"))
                 Directories set_Directories;
   json.mk_field "env" (json.into_struct fields_WixEnvList) Env set_Env;
   json.mk_field "shortcuts" (json.into_struct fields_WixShortcuts)
                 Shortcuts set_Shortcuts;
   json.mk_field "choco" (json.into_struct fields_ChocoSpec) Choco set_Choco].

(** The content of a file: the text of a JSON value, or bytes that are not
    a JSON text. *)
Inductive filedata : Type :=
| JSONText (doc : json.value)
| NotJSON (raw : string).

(** The operating system as [Write] and [Load] call it: the state of the
    file system and the three calls they make.  Nothing is assumed of the
    calls: which file a path names, who may read it or write it, and what
    a write that fails leaves behind are the system's own.  [os.Stat] and
    [ioutil.ReadFile] answer from the state and leave it as it is. *)
Record System : Type := mkSystem {
  FS : Type;
  Stat : string -> FS -> option error;
  ReadFile : string -> FS -> filedata + error;
  WriteFile : string -> filedata -> FS -> option error * FS }.

(** [os.IsNotExist]. *)
Definition IsNotExist (err : option error) : bool :=
  match err with
  | Some (ErrNotExist _) => true
  | _ => false
  end.

(** [json.MarshalIndent(wixFile, "", "  ")]: no field of the manifest is of
    a type that [Marshal] refuses. *)
Definition MarshalIndent (wixFile : WixManifest) : filedata * option error :=
  (JSONText (encode_WixManifest wixFile), None).

(** [json.Unmarshal(dat, &wixFile)]: the receiver is not nil, so the
    document is decoded into the manifest the receiver points to. *)
Definition Unmarshal (dat : filedata) (wixFile : WixManifest)
  : WixManifest * option error :=
  match dat with
  | NotJSON _ => (wixFile, Some ErrSyntax)
  | JSONText doc => json.into_struct fields_WixManifest "WixManifest" doc wixFile
  end.

(** [Write]. *)
Definition Write (sys : System) (p : string) (wixFile : WixManifest) (fs : FS sys)
  : option error * FS sys :=
  let p := if p =? "" then "wix.json" else p in
  let '(byt, err) := MarshalIndent wixFile in
  match err with
  | Some e => (Some e, fs)
  | None =>
      let '(err, fs) := WriteFile sys p byt fs in
      match err with
      | Some e => (Some e, fs)
      | None => (None, fs)
      end
  end.

(** [Load]. *)
Definition Load (sys : System) (p : string) (wixFile : WixManifest) (fs : FS sys)
  : WixManifest * option error :=
  let p := if p =? "" then "wix.json" else p in
  let err := Stat sys p fs in
  if IsNotExist err then (wixFile, err)
  else
    match ReadFile sys p fs with
    | inr e => (wixFile, Some e)
    | inl dat =>
        let '(wixFile, err) := Unmarshal dat wixFile in
        match err with
        | Some e => (wixFile, Some e)
        | None => (wixFile, None)
        end
    end.

(** The path [Write] and [Load] use for the argument [p]. *)
Definition default_path (p : string) : string := if p =? "" then "wix.json" else p.

(** The document [ioutil.ReadFile] finds at the path [Load] uses for
    [p]. *)
Definition document_at (sys : System) (p : string) (fs : FS sys) : option json.value :=
  match ReadFile sys (default_path p) fs with
  | inl (JSONText doc) => Some doc
  | _ => None
  end.

(** The file at [p] is found by [os.Stat] and read by [ioutil.ReadFile],
    and holds [dat]. *)
Definition reads_back (sys : System) (p : string) (dat : filedata) (fs : FS sys) : Prop :=
  IsNotExist (Stat sys p fs) = false /\ ReadFile sys p fs = inl dat.

(** The system gives back what was written at [p]: the content with which
    a successful [ioutil.WriteFile] at [p] took the file system from [fs]
    to [fs'] is found and read at [p] in [fs']. *)
Definition gives_back (sys : System) (p : string) (fs fs' : FS sys) : Prop :=
  forall dat, WriteFile sys p dat fs = (None, fs') -> reads_back sys p dat fs'.

(** The outcome of a decoder: no error, or a value of the wrong kind for
    the field it names. *)
Definition type_error (e : option error) : Prop :=
  match e with
  | None | Some (ErrUnmarshalType _) => True
  | Some _ => False
  end.


(** *** What is persisted

    The fields of the manifest that have a name in the document, that is,
    all but [VersionOk], [RelDirs] and the [MsiFile], [BuildDir] and
    [ChangeLog] of the packaging metadata, which are tagged [json:"-"]. *)

(** A struct as it is read back from the document written for it: every
    persisted string coerced to valid UTF-8. *)
Definition coerced_WixFiles (x : WixFiles.t) : WixFiles.t :=
  WixFiles.mk (json.coerced (WixFiles.Guid x)) (map json.coerced (WixFiles.Items x)).

Definition coerced_WixEnv (x : WixEnv.t) : WixEnv.t :=
  WixEnv.mk (json.coerced (WixEnv.Name x)) (json.coerced (WixEnv.Value x))
    (json.coerced (WixEnv.Permanent x)) (json.coerced (WixEnv.System x))
    (json.coerced (WixEnv.Action x)) (json.coerced (WixEnv.Part x)).

Definition coerced_WixEnvList (x : WixEnvList.t) : WixEnvList.t :=
  WixEnvList.mk (json.coerced (WixEnvList.Guid x)) (map coerced_WixEnv (WixEnvList.Vars x)).

Definition coerced_WixShortcut (x : WixShortcut.t) : WixShortcut.t :=
  WixShortcut.mk (json.coerced (WixShortcut.Name x))
    (json.coerced (WixShortcut.Description x)) (json.coerced (WixShortcut.Target x))
    (json.coerced (WixShortcut.WDir x)) (json.coerced (WixShortcut.Arguments x))
    (json.coerced (WixShortcut.Icon x)).

Definition coerced_WixShortcuts (x : WixShortcuts.t) : WixShortcuts.t :=
  WixShortcuts.mk (json.coerced (WixShortcuts.Guid x))
    (map coerced_WixShortcut (WixShortcuts.Items x)).

Definition coerced_ChocoSpec (c : ChocoSpec.t) : ChocoSpec.t :=
  ChocoSpec.mk
    (json.coerced (ChocoSpec.Id c)) (json.coerced (ChocoSpec.Title c))
    (json.coerced (ChocoSpec.Authors c)) (json.coerced (ChocoSpec.Owners c))
    (json.coerced (ChocoSpec.Description c)) (json.coerced (ChocoSpec.ProjectUrl c))
    (json.coerced (ChocoSpec.Tags c)) (json.coerced (ChocoSpec.LicenseUrl c))
    (json.coerced (ChocoSpec.IconUrl c)) (ChocoSpec.RequireLicense c)
    (ChocoSpec.MsiFile c) (ChocoSpec.BuildDir c) (ChocoSpec.ChangeLog c).

Definition coerced_WixManifest (w : WixManifest) : WixManifest :=
  mkWixManifest
    (json.coerced (Product w)) (json.coerced (Company w)) (json.coerced (Version w))
    (VersionOk w) (json.coerced (License w)) (json.coerced (UpgradeCode w))
    (coerced_WixFiles (Files w)) (map json.coerced (Directories w)) (RelDirs w)
    (coerced_WixEnvList (Env w)) (coerced_WixShortcuts (Shortcuts w))
    (coerced_ChocoSpec (Choco w)).

(** Every persisted string of the manifest is valid UTF-8: coercion
    changes nothing. *)
Definition valid_UTF8 (w : WixManifest) : Prop := coerced_WixManifest w = w.

(** A string of ASCII characters only. *)
Fixpoint ascii_only (s : string) : bool :=
  match s with
  | EmptyString => true
  | String c s' => (N_of_ascii c <? 128)%N && ascii_only s'
  end.

(** The persisted fields of [c], beside the fields of [old] that are not
    persisted. *)
Definition restore_ChocoSpec (c old : ChocoSpec.t) : ChocoSpec.t :=
  ChocoSpec.mk
    (ChocoSpec.Id c) (ChocoSpec.Title c) (ChocoSpec.Authors c) (ChocoSpec.Owners c)
    (ChocoSpec.Description c) (ChocoSpec.ProjectUrl c) (ChocoSpec.Tags c)
    (ChocoSpec.LicenseUrl c) (ChocoSpec.IconUrl c) (ChocoSpec.RequireLicense c)
    (ChocoSpec.MsiFile old) (ChocoSpec.BuildDir old) (ChocoSpec.ChangeLog old).

(** The persisted fields of [w], beside the fields of [old] that are not
    persisted. *)
Definition restore (w old : WixManifest) : WixManifest :=
  mkWixManifest
    (Product w) (Company w) (Version w) (VersionOk old) (License w) (UpgradeCode w)
    (Files w) (Directories w) (RelDirs old) (Env w) (Shortcuts w)
    (restore_ChocoSpec (Choco w) (Choco old)).

(** Two manifests are equal on all persisted fields. *)
Definition persisted_eq (w1 w2 : WixManifest) : Prop :=
  restore w1 zero_manifest = restore w2 zero_manifest.

(** Every field that [Marshal] leaves out of the document of [c], for being
    empty, is empty in [old] too. *)
Definition keeps_omitted_ChocoSpec (c old : ChocoSpec.t) : Prop :=
  (ChocoSpec.Id c = "" -> ChocoSpec.Id old = "")
  /\ (ChocoSpec.Title c = "" -> ChocoSpec.Title old = "")
  /\ (ChocoSpec.Authors c = "" -> ChocoSpec.Authors old = "")
  /\ (ChocoSpec.Owners c = "" -> ChocoSpec.Owners old = "")
  /\ (ChocoSpec.Description c = "" -> ChocoSpec.Description old = "")
  /\ (ChocoSpec.ProjectUrl c = "" -> ChocoSpec.ProjectUrl old = "")
  /\ (ChocoSpec.Tags c = "" -> ChocoSpec.Tags old = "")
  /\ (ChocoSpec.LicenseUrl c = "" -> ChocoSpec.LicenseUrl old = "")
  /\ (ChocoSpec.IconUrl c = "" -> ChocoSpec.IconUrl old = "")
  /\ (ChocoSpec.RequireLicense c = false -> ChocoSpec.RequireLicense old = false).

Definition keeps_omitted_WixShortcuts (x old : WixShortcuts.t) : Prop :=
  (WixShortcuts.Guid x = "" -> WixShortcuts.Guid old = "")
  /\ (WixShortcuts.Items x = [] -> WixShortcuts.Items old = []).

(** The same for a manifest: [old] is a manifest into which the document
    of [w] can be loaded without a field of [old] showing through.  The
    zero manifest is one, and so is [w] itself. *)
Definition keeps_omitted (w old : WixManifest) : Prop :=
  (Version w = "" -> Version old = "")
  /\ (License w = "" -> License old = "")
  /\ (Directories w = [] -> Directories old = [])
  /\ keeps_omitted_WixShortcuts (Shortcuts w) (Shortcuts old)
  /\ keeps_omitted_ChocoSpec (Choco w) (Choco old).

(** A persisted field: the names that lead to it in the document (the
    section, if any, then the field) and its content in a manifest. *)
Record pfield : Type := mk_pfield {
  path : list string;
  content_type : Type;
  content : WixManifest -> content_type }.

Definition persisted_fields : list pfield :=
  [mk_pfield ["product"] _ Product;
   mk_pfield ["company"] _ Company;
   mk_pfield ["version"] _ Version;
   mk_pfield ["license"] _ License;
   mk_pfield ["upgrade-code"] _ UpgradeCode;
   mk_pfield ["files"] _ Files;
   mk_pfield ["files"; "guid"] _ (fun w => WixFiles.Guid (Files w));
   mk_pfield ["files"; "items"] _ (fun w => WixFiles.Items (Files w));
   mk_pfield ["directories"] _ Directories;
   mk_pfield ["env"] _ Env;
   mk_pfield ["env"; "guid"] _ (fun w => WixEnvList.Guid (Env w));
   mk_pfield ["env"; "vars"] _ (fun w => WixEnvList.Vars (Env w));
   mk_pfield ["shortcuts"] _ Shortcuts;
   mk_pfield ["shortcuts"; "guid"] _ (fun w => WixShortcuts.Guid (Shortcuts w));
   mk_pfield ["shortcuts"; "items"] _ (fun w => WixShortcuts.Items (Shortcuts w));
   mk_pfield ["choco"] _ (fun w => restore_ChocoSpec (Choco w) ChocoSpec.zero);
   mk_pfield ["choco"; "id"] _ (fun w => ChocoSpec.Id (Choco w));
   mk_pfield ["choco"; "title"] _ (fun w => ChocoSpec.Title (Choco w));
   mk_pfield ["choco"; "authors"] _ (fun w => ChocoSpec.Authors (Choco w));
   mk_pfield ["choco"; "owners"] _ (fun w => ChocoSpec.Owners (Choco w));
   mk_pfield ["choco"; "description"] _ (fun w => ChocoSpec.Description (Choco w));
   mk_pfield ["choco"; "project-url"] _ (fun w => ChocoSpec.ProjectUrl (Choco w));
   mk_pfield ["choco"; "tags"] _ (fun w => ChocoSpec.Tags (Choco w));
   mk_pfield ["choco"; "license-url"] _ (fun w => ChocoSpec.LicenseUrl (Choco w));
   mk_pfield ["choco"; "icon-url"] _ (fun w => ChocoSpec.IconUrl (Choco w));
   mk_pfield ["choco"; "require-license"] _ (fun w => ChocoSpec.RequireLicense (Choco w))].








(** The name of a member that is left out when its field is empty. *)
Definition optional (empty : bool) (key : string) : list string :=
  if empty then [] else [key].

(** ** Sample collaborators

    Concrete generators, path functions and a file system, on which the
    operations are run in the examples below. *)

(** A generator whose first call succeeds and whose later calls fail. *)
Definition fail_second (n : nat) : (string * option error) * nat :=
  match n with
  | O => (("A", None), 1%nat)
  | S _ => (("", Some (ErrGuid "no entropy")), S n)
  end.

(** A generator that never fails and numbers its strings. *)
Definition counter_guid (n : nat) : (string * option error) * nat :=
  (("GUID-" ++ NilZero.string_of_uint (Nat.to_uint n), None), S n).

(** Path functions for a process whose working directory is [/work]:
    a path is absolute when it starts with a slash; the relative path from
    [out] to a path below it is what follows [out] and a slash, and the
    relative path from [out] to itself is a dot.  Other pairs of paths are
    refused. *)
Definition sample_Abs (path : string) : string * option error :=
  match path with
  | String "/"%char _ => (path, None)
  | _ => ("/work/" ++ path, None)
  end.

Fixpoint strip_prefix (prefix s : string) : option string :=
  match prefix, s with
  | EmptyString, _ => Some s
  | String a prefix', String b s' =>
      if Ascii.eqb a b then strip_prefix prefix' s' else None
  | String _ _, EmptyString => None
  end.

Definition sample_Rel (out target : string) : string * option error :=
  if target =? out then (".", None)
  else
    match strip_prefix (out ++ "/") target with
    | Some r => (r, None)
    | None => ("", Some (ErrPath target))
    end.

Definition sample_manifest : WixManifest :=
  mkWixManifest "App" "Acme" "1.2.3" "" "" ""
    (WixFiles.mk "" ["/build/out/sub/a.txt"; "/build/out/b.txt"])
    ["/build/out"; "/build/out/data"] []
    (WixEnvList.mk "" [WixEnv.mk "HOME" "" "no" "no" "set" "all"])
    (WixShortcuts.mk ""
       [WixShortcut.mk "App" "" "app.exe" "" "" "/build/out/app.ico";
        WixShortcut.mk "Doc" "" "doc.pdf" "" "" ""])
    ChocoSpec.zero.

(** A file system in memory: a file is a path with its content, every
    file can be read and every path can be written. *)
Definition memory : System :=
  mkSystem
    (gmap string filedata)
    (fun p fs => match fs !! p with
                 | None => Some (ErrNotExist p)
                 | Some _ => None
                 end)
    (fun p fs => match fs !! p with
                 | None => inr (ErrNotExist p)
                 | Some dat => inl dat
                 end)
    (fun p dat fs => (None, <[p := dat]> fs)).

Definition empty_fs : FS memory := ∅.

(** A file system whose [wix.json] holds a document with a product name
    and one field of packaging metadata, and nothing else. *)
Definition partial_doc : json.value :=
  json.Obj [("product", json.Str "Tool");
            ("choco", json.Obj [("id", json.Str "tool")])].

Definition partial_fs : FS memory := {[ "wix.json" := JSONText partial_doc ]}.

(** A product name that is not valid UTF-8: the one byte 255. *)
Definition invalid_name : string := String (ascii_of_N 255) EmptyString.

(** * Properties *)

(** ** Strings *)

Lemma eqb_empty_false (s : string) : (s =? "") = false <-> s <> "".
Proof. destruct s; simpl; split; congruence. Qed.

Lemma eqb_empty_true (s : string) : (s =? "") = true <-> s = "".
Proof. destruct s; simpl; split; congruence. Qed.

Lemma append_assoc (a b c : string) : (a ++ b) ++ c = a ++ b ++ c.
Proof. induction a as [|x a IH]; simpl; [reflexivity | f_equal; exact IH]. Qed.

Lemma length_pos_false {A : Type} (l : list A) : (0 <? length l)%nat = false <-> l = [].
Proof. destruct l; cbn; split; congruence. Qed.

(** ** Identifier provisioning *)

(** [NeedGuid] is the disjunction of the four guards. *)
Lemma NeedGuid_slots (w : WixManifest) :
  NeedGuid w = existsb (fun s => slot_missing s w) all_slots.
Proof.
  unfold NeedGuid; simpl.
  destruct (UpgradeCode w =? ""), (WixFiles.Guid (Files w) =? ""),
    ((WixEnvList.Guid (Env w) =? "") && (0 <? length (WixEnvList.Vars (Env w)))%nat),
    ((WixShortcuts.Guid (Shortcuts w) =? "")
     && (0 <? length (WixShortcuts.Items (Shortcuts w)))%nat); reflexivity.
Qed.

(** C1. [NeedGuid] answers false exactly when the upgrade identifier and the
    identifier of the files section are non-empty, the environment section
    has an identifier or no variable, and the shortcuts section has an
    identifier or no shortcut.  The function maps a manifest to a boolean
    and nothing else: there is no manifest for it to hand back changed. *)
Theorem NeedGuid_false_iff (w : WixManifest) :
  NeedGuid w = false <->
  UpgradeCode w <> ""
  /\ WixFiles.Guid (Files w) <> ""
  /\ (WixEnvList.Guid (Env w) <> "" \/ WixEnvList.Vars (Env w) = [])
  /\ (WixShortcuts.Guid (Shortcuts w) <> "" \/ WixShortcuts.Items (Shortcuts w) = []).
Proof.
  rewrite NeedGuid_slots; simpl.
  rewrite !orb_false_iff, !andb_false_iff, !eqb_empty_false, !length_pos_false.
  tauto.
Qed.

Section ProvisioningFacts.

Variable G : Type.
Variable Make : G -> (string * option error) * G.

Ltac slot_facts :=
  unfold provisioned, gen_out, calls_before; simpl;
  repeat match goal with
    | H : _ = _ |- _ => rewrite H; simpl
    end;
  try reflexivity; try congruence.

Ltac some_slot tac :=
  first [ exists SlotUpgrade; solve [tac] | exists SlotFiles; solve [tac]
        | exists SlotEnv; solve [tac] | exists SlotShortcuts; solve [tac] ].

(** What [SetGuids] returns and leaves behind, in full.  Nothing but the
    four slots changes.  Without error, [changed] tells whether a slot
    was missing, and every slot is provisioned.  With an error, [changed]
    is false; the error is that of the generator call made for some
    missing slot [s], which holds the string that came with the error;
    the slots before [s] are provisioned and those after [s] are as they
    were. *)
Lemma SetGuids_outcome (w : WixManifest) (g : G) :
  let '(changed, err, w', g') := SetGuids G Make w g in
  clear_slots w' = clear_slots w
  /\ match err with
     | None =>
         (changed = true <-> exists s, slot_missing s w = true)
         /\ (forall s, provisioned G Make w g s w')
         /\ g' = gen_state G Make
                            (length (List.filter (fun s => slot_missing s w) all_slots)) g
     | Some e =>
         changed = false
         /\ exists s,
             slot_missing s w = true
             /\ gen_out G Make (calls_before s w) g = (slot_value s w', Some e)
             /\ (forall s', (slot_index s' < slot_index s)%nat ->
                            provisioned G Make w g s' w')
             /\ (forall s', (slot_index s < slot_index s')%nat ->
                            slot_value s' w' = slot_value s' w)
     end.
Proof.
  destruct w as [? ? ? ? ? up [fg fi] ? ? [eg ev] [sg si] ?].
  unfold SetGuids; simpl.
  destruct (up =? "") eqn:Hu;
    destruct (fg =? "") eqn:Hf;
    destruct ((eg =? "") && (0 <? length ev)%nat) eqn:He;
    destruct ((sg =? "") && (0 <? length si)%nat) eqn:Hs.
  all: do 5 (simpl; rewrite ?Hu, ?Hf, ?He, ?Hs; simpl;
             try match goal with
                 | |- context [Make ?g] => destruct (Make g) as [[? [?|]] ?] eqn:?
                 end).
  all: simpl; (split; [reflexivity|]).
  all: try (split; [reflexivity|];
            some_slot ltac:(repeat split;
                            [ slot_facts | slot_facts
                            | intros s' Hlt; destruct s'; simpl in Hlt; try lia; slot_facts
                            | intros s' Hlt; destruct s'; simpl in Hlt; try lia; reflexivity ])).
  all: split;
    [ split;
      [ first [ discriminate | intros _; some_slot ltac:(slot_facts) ]
      | first [ reflexivity | intros [s' Hs']; destruct s'; simpl in Hs'; congruence ] ]
    | split; [ intros s'; destruct s'; slot_facts | slot_facts ] ].
Qed.

(** Once no slot is missing, [SetGuids] calls no generator and changes
    nothing. *)
Lemma SetGuids_filled (w : WixManifest) (g : G) :
  (forall s, slot_missing s w = false) ->
  SetGuids G Make w g = (false, None, w, g).
Proof.
  intros H.
  pose proof (H SlotUpgrade) as Hu; pose proof (H SlotFiles) as Hf;
    pose proof (H SlotEnv) as He; pose proof (H SlotShortcuts) as Hs.
  simpl in Hu, Hf, He, Hs.
  unfold SetGuids. rewrite Hu, Hf, He, Hs. reflexivity.
Qed.

End ProvisioningFacts.

(** Whether a slot is missing is read off the slot and the rest of the
    manifest. *)
Lemma slot_missing_after (s : slot) (w w' : WixManifest) :
  clear_slots w' = clear_slots w ->
  slot_value s w' <> "" \/ (slot_value s w' = slot_value s w /\ slot_missing s w = false) ->
  slot_missing s w' = false.
Proof.
  destruct w as [? ? ? ? ? up [fg fi] ? ? [eg ev] [sg si] ?].
  destruct w' as [? ? ? ? ? up' [fg' fi'] ? ? [eg' ev'] [sg' si'] ?].
  intros Hc; simpl in Hc; injection Hc as -> -> -> -> -> -> -> -> -> ->.
  intros [Hne | [Heq Hm]]; destruct s; simpl in *;
    try (apply eqb_empty_false in Hne; rewrite Hne; reflexivity);
    subst; assumption.
Qed.

(** C2 (as amended). In a call without error, every missing slot is
    filled with the string of its generator call, and [changed] is true
    exactly when a slot was missing, that is, when a slot was filled.  A
    call that ends in an error of the generator returns [changed = false],
    also when slots were filled before; it stops at the missing slot [s]
    whose generator call failed, which holds the string that came with the
    error: the slots before [s] keep what the call has given them (no
    rollback), and the slots after [s] are as before the call. *)
Theorem SetGuids_changed_and_partial
        (G : Type) (Make : G -> (string * option error) * G)
        (w : WixManifest) (g : G) :
  let '(changed, err, w', _) := SetGuids G Make w g in
  match err with
  | None =>
      (changed = true <-> exists s, slot_missing s w = true)
      /\ (forall s, provisioned G Make w g s w')
  | Some e =>
      changed = false
      /\ exists s,
          slot_missing s w = true
          /\ gen_out G Make (calls_before s w) g = (slot_value s w', Some e)
          /\ (forall s', (slot_index s' < slot_index s)%nat ->
                         provisioned G Make w g s' w')
          /\ (forall s', (slot_index s < slot_index s')%nat ->
                         slot_value s' w' = slot_value s' w)
  end.
Proof.
  pose proof (SetGuids_outcome G Make w g) as H.
  destruct (SetGuids G Make w g) as [[[changed err] w'] g'].
  destruct H as [_ H]. destruct err as [e|].
  - exact H.
  - destruct H as (Hchanged & Hall & _). split; assumption.
Qed.

(** C2 (as stated) fails: the first generator call fills the upgrade
    identifier, the second one fails, and the call returns [changed = false]
    while the upgrade identifier stays set. *)
Lemma SetGuids_error_after_fill :
  let '(changed, err, w', _) := SetGuids nat fail_second zero_manifest 0%nat in
  slot_missing SlotUpgrade zero_manifest = true
  /\ UpgradeCode w' = "A"
  /\ err = Some (ErrGuid "no entropy")
  /\ changed = false.
Proof. vm_compute. repeat split. Qed.

(** C3. With a generator that never fails and hands back identifiers (a
    token that is globally unique is not the empty string, which is what
    [SetGuids] takes for a missing identifier), a second call of
    [SetGuids] right after a first one returns [changed = false] and leaves
    the manifest, its four slots included, as the first call left it. *)
Theorem SetGuids_twice
        (G : Type) (Make : G -> (string * option error) * G)
        (Hok : forall g, snd (fst (Make g)) = None)
        (Hne : forall g, fst (fst (Make g)) <> "")
        (w : WixManifest) (g : G) :
  let '(_, _, w1, g1) := SetGuids G Make w g in
  SetGuids G Make w1 g1 = (false, None, w1, g1).
Proof.
  pose proof (SetGuids_outcome G Make w g) as H.
  destruct (SetGuids G Make w g) as [[[changed err] w1] g1].
  destruct H as [Hc H]. destruct err as [e|].
  - destruct H as [_ [s [_ [Hgen _]]]]. unfold gen_out in Hgen.
    specialize (Hok (gen_state G Make (calls_before s w) g)).
    rewrite Hgen in Hok. discriminate.
  - destruct H as [_ [Hp _]].
    apply SetGuids_filled. intros s.
    apply slot_missing_after with (w := w); [assumption|].
    specialize (Hp s). unfold provisioned, gen_out in Hp.
    destruct (slot_missing s w) eqn:E.
    + left. intros Hv.
      apply (Hne (gen_state G Make (calls_before s w) g)).
      rewrite Hp. exact Hv.
    + right. split; [assumption | reflexivity].
Qed.

Lemma SetGuids_twice_witness :
  let '(_, _, w1, g1) := SetGuids nat counter_guid zero_manifest 0%nat in
  SetGuids nat counter_guid w1 g1 = (false, None, w1, g1).
Proof.
  apply (SetGuids_twice nat counter_guid).
  - intros g. reflexivity.
  - intros g. simpl. discriminate.
Defined.

(** ** Field normalisation *)

(** The version the three numbers of a parsed version are written as. *)
Lemma Normalize_success (w : WixManifest) (v : semver.Version) :
  semver.NewVersion (Version w) = inl v ->
  snd (Normalize w) = None
  /\ Version (fst (Normalize w)) = Version w
  /\ VersionOk (fst (Normalize w))
     = strconv.FormatInt (semver.Major v) ++ "." ++ strconv.FormatInt (semver.Minor v)
       ++ "." ++ strconv.FormatInt (semver.Patch v)
  /\ ChocoSpec.Tags (Choco (fst (Normalize w))) = ChocoSpec.Tags (Choco w) ++ " admin".
Proof.
  intros Hv. unfold Normalize.
  destruct w as [? ? ver ? ? ? ? ? ? ? ? [id title authors owners descr ? tags ? ? ? ? ? ?]].
  simpl in *. rewrite Hv. simpl.
  split; [reflexivity|]. split; [reflexivity|]. split.
  - rewrite !append_assoc. reflexivity.
  - destruct (id =? ""); simpl; destruct (title =? ""); simpl;
      destruct (authors =? ""); simpl; destruct (owners =? ""); simpl;
      destruct (descr =? ""); reflexivity.
Qed.

Lemma Normalize_error (w : WixManifest) (e : error) :
  semver.NewVersion (Version w) = inr e ->
  Normalize w = (set_VersionOk (Version w) w, Some e).
Proof.
  intros Hv. unfold Normalize. destruct w; simpl in *. rewrite Hv. reflexivity.
Qed.

Example NewVersion_plain :
  semver.NewVersion "1.2.3" = inl (semver.mkVersion 1 2 3 "" "" "1.2.3").
Proof. reflexivity. Qed.

Example NewVersion_full :
  semver.NewVersion "v10.20.3-beta.1+001.x"
  = inl (semver.mkVersion 10 20 3 "beta.1" "001.x" "v10.20.3-beta.1+001.x").
Proof. reflexivity. Qed.

Example NewVersion_short :
  semver.NewVersion "7" = inl (semver.mkVersion 7 0 0 "" "" "7").
Proof. reflexivity. Qed.

Example NewVersion_rejects :
  map semver.NewVersion ["";  "1."; "1.2.3.4"; "1.2.3-"; "1.2.3-a..b"; "abc"; "1.2.3 "]
  = repeat (inr ErrInvalidSemVer) 7.
Proof. reflexivity. Qed.

Example NewVersion_overflow :
  semver.NewVersion "9223372036854775808.0.0" = inr (ErrSegment "9223372036854775808").
Proof. reflexivity. Qed.

(** C5. When the version string parses, [Normalize] succeeds, sets
    [VersionOk] to the major, minor and patch numbers of the parsed version
    joined by dots (nothing of a pre-release or build suffix enters it) and
    leaves [Version] as it was.  The strings 1.2.3, 1.2.3-beta+001 and
    1.2.3-rc1 all give 1.2.3. *)
Theorem Normalize_VersionOk :
  (forall (w : WixManifest) (v : semver.Version),
      semver.NewVersion (Version w) = inl v ->
      snd (Normalize w) = None
      /\ VersionOk (fst (Normalize w))
         = strconv.FormatInt (semver.Major v) ++ "." ++ strconv.FormatInt (semver.Minor v)
           ++ "." ++ strconv.FormatInt (semver.Patch v)
      /\ Version (fst (Normalize w)) = Version w)
  /\ (forall w : WixManifest,
         In (Version w) ["1.2.3"; "1.2.3-beta+001"; "1.2.3-rc1"] ->
         snd (Normalize w) = None
         /\ VersionOk (fst (Normalize w)) = "1.2.3"
         /\ Version (fst (Normalize w)) = Version w).
Proof.
  split.
  - intros w v Hv. destruct (Normalize_success w v Hv) as (H1 & H2 & H3 & _). auto.
  - intros w Hin.
    assert (exists v, semver.NewVersion (Version w) = inl v
                      /\ semver.Major v = 1%Z /\ semver.Minor v = 2%Z
                      /\ semver.Patch v = 3%Z) as (v & Hv & Ha & Hb & Hc).
    { simpl in Hin. destruct Hin as [<- | [<- | [<- | []]]];
        eexists; (split; [reflexivity | repeat split]). }
    destruct (Normalize_success w v Hv) as (H1 & H2 & H3 & _).
    rewrite H3, Ha, Hb, Hc. auto.
Qed.

(** C7 (as amended). [Normalize] fails exactly when the version string does
    not parse, with the error of the parser; the manifest it leaves behind
    is the one it was given with [VersionOk] set to the version string, and
    no other field is changed. *)
Theorem Normalize_failure (w : WixManifest) :
  match semver.NewVersion (Version w) with
  | inr e => Normalize w = (set_VersionOk (Version w) w, Some e)
  | inl _ => snd (Normalize w) = None
  end.
Proof.
  destruct (semver.NewVersion (Version w)) as [v | e] eqn:Hv.
  - exact (proj1 (Normalize_success w v Hv)).
  - exact (Normalize_error w e Hv).
Qed.

(** C7 (as stated) fails: on a version string that does not parse, the
    failing call has overwritten an empty [VersionOk]. *)
Lemma Normalize_failure_sets_VersionOk :
  let w := set_Version "not-a-version" zero_manifest in
  let '(w', err) := Normalize w in
  err = Some ErrInvalidSemVer
  /\ VersionOk w = ""
  /\ VersionOk w' = "not-a-version"
  /\ w' <> w.
Proof. vm_compute. repeat split. discriminate. Qed.

(** C9. A call of [Normalize] that returns no error has appended the token
    [" admin"] to the tags; a second call on the manifest it left succeeds
    too and appends the token once more. *)
Theorem Normalize_appends_admin (w w' : WixManifest) :
  Normalize w = (w', None) ->
  ChocoSpec.Tags (Choco w') = ChocoSpec.Tags (Choco w) ++ " admin"
  /\ exists w'',
      Normalize w' = (w'', None)
      /\ ChocoSpec.Tags (Choco w'') = (ChocoSpec.Tags (Choco w) ++ " admin") ++ " admin".
Proof.
  intros H.
  destruct (semver.NewVersion (Version w)) as [v | e] eqn:Hv.
  2: { rewrite (Normalize_error w e Hv) in H. discriminate. }
  destruct (Normalize_success w v Hv) as (_ & Hver & _ & Htags).
  rewrite H in Hver, Htags; simpl in Hver, Htags.
  split; [exact Htags|].
  rewrite <- Hver in Hv.
  destruct (Normalize_success w' v Hv) as (Hnone & _ & _ & Htags').
  exists (fst (Normalize w')). split.
  - destruct (Normalize w') as [w'' err]; simpl in *. subst. reflexivity.
  - rewrite Htags', Htags. reflexivity.
Qed.

Lemma Normalize_appends_admin_witness :
  let w := set_Version "1.2.3" zero_manifest in
  ChocoSpec.Tags (Choco (fst (Normalize w))) = ChocoSpec.Tags (Choco w) ++ " admin"
  /\ exists w'',
      Normalize (fst (Normalize w)) = (w'', None)
      /\ ChocoSpec.Tags (Choco w'') = (ChocoSpec.Tags (Choco w) ++ " admin") ++ " admin".
Proof.
  apply (Normalize_appends_admin (set_Version "1.2.3" zero_manifest)).
  vm_compute. reflexivity.
Defined.

Example Normalize_twice_tags :
  ChocoSpec.Tags
    (Choco (fst (Normalize (fst (Normalize (set_Version "1.2.3-rc1" zero_manifest))))))
  = " admin admin".
Proof. reflexivity. Qed.

(** ** Path rewriting *)

Section PathFacts.

Variable Abs : string -> string * option error.
Variable Rel : string -> string -> string * option error.

(** The loops over the files and over the shortcuts leave the directories
    and the derived list alone, whether they fail or not. *)
Lemma rewrite_files_frame (out : string) (items : list string) :
  forall (i : nat) (w : WixManifest),
    Directories (fst (rewrite_files Abs Rel out i items w)) = Directories w
    /\ RelDirs (fst (rewrite_files Abs Rel out i items w)) = RelDirs w.
Proof.
  induction items as [|file items IH]; intros i w; simpl; [auto|].
  destruct (Abs file) as [a [e|]]; [auto|].
  destruct (Rel out a) as [r [e|]].
  - destruct w; auto.
  - destruct (IH (S i)
                 (set_Files (WixFiles.set_Items (<[i:=r]> (WixFiles.Items (Files w)))
                                                (Files w)) w)) as [H1 H2].
    rewrite H1, H2. destruct w; auto.
Qed.

Lemma rewrite_icons_frame (out : string) (items : list WixShortcut.t) :
  forall (i : nat) (w : WixManifest),
    Directories (fst (rewrite_icons Abs Rel out i items w)) = Directories w
    /\ RelDirs (fst (rewrite_icons Abs Rel out i items w)) = RelDirs w.
Proof.
  induction items as [|s items IH]; intros i w; simpl; [auto|].
  destruct (negb (WixShortcut.Icon s =? "")); [|apply IH].
  destruct (Abs (WixShortcut.Icon s)) as [a [e|]]; [auto|].
  destruct (Rel out a) as [r [e|]].
  - destruct w; auto.
  - match goal with
    | |- context [rewrite_icons _ _ _ _ _ ?w1] => destruct (IH (S i) w1) as [H1 H2]
    end.
    rewrite H1, H2. destruct w; auto.
Qed.

(** The loop over the directories, when it does not fail, appends the
    relativized form of each directory, in order. *)
Lemma rewrite_dirs_appends (out : string) (dirs : list string) :
  forall (w w' : WixManifest),
    rewrite_dirs Abs Rel out dirs w = (w', None) ->
    Directories w' = Directories w
    /\ exists rs, RelDirs w' = (RelDirs w ++ rs)%list
                  /\ Forall2 (relativized Abs Rel out) dirs rs.
Proof.
  induction dirs as [|d dirs IH]; intros w w' H; simpl in H.
  - injection H as <-. split; [reflexivity|]. exists []. split.
    + symmetry. apply app_nil_r.
    + constructor.
  - destruct (Abs d) as [a [e|]] eqn:Ha; [discriminate|].
    destruct (Rel out a) as [r [e|]] eqn:Hr; [discriminate|].
    apply IH in H. destruct H as [Hd (rs & Hrs & Hall)].
    split; [rewrite Hd; destruct w; reflexivity|].
    exists (r :: rs). split.
    + rewrite Hrs. destruct w; simpl. rewrite <- app_assoc. reflexivity.
    + constructor; [|assumption]. exists a. auto.
Qed.

(** One successful call. *)
Lemma RewriteFilePaths_once (out : string) (w w' : WixManifest) :
  RewriteFilePaths Abs Rel out w = (w', None) ->
  Directories w' = Directories w
  /\ exists rs, RelDirs w' = (RelDirs w ++ rs)%list
                /\ Forall2 (relativized Abs Rel out) (Directories w) rs.
Proof.
  unfold RewriteFilePaths. intros H.
  pose proof (rewrite_files_frame out (WixFiles.Items (Files w)) 0 w) as [Hd1 Hr1].
  destruct (rewrite_files Abs Rel out 0 (WixFiles.Items (Files w)) w) as [w1 [e|]];
    [discriminate|]. simpl in Hd1, Hr1.
  destruct (rewrite_dirs Abs Rel out (Directories w1) w1) as [w2 [e|]] eqn:H2;
    [discriminate|].
  apply rewrite_dirs_appends in H2. destruct H2 as [Hd2 (rs & Hrs & Hall)].
  pose proof (rewrite_icons_frame out (WixShortcuts.Items (Shortcuts w2)) 0 w2)
    as [Hd3 Hr3].
  destruct (rewrite_icons Abs Rel out 0 (WixShortcuts.Items (Shortcuts w2)) w2)
    as [w3 [e|]]; [discriminate|]. simpl in Hd3, Hr3.
  injection H as <-.
  split; [congruence|].
  exists rs. split; [congruence|]. rewrite <- Hd1. assumption.
Qed.

End PathFacts.

(** C10. A successful call of [RewriteFilePaths] leaves [Directories] as it
    was and appends to [RelDirs], which it never clears, the relativized
    form of each directory, one entry per directory and in order.  After a
    second successful call (the working directory and the output directory
    may have changed in between) [RelDirs] holds what it held at first, then
    an entry per directory from the first call, then an entry per directory
    from the second call. *)
Theorem RewriteFilePaths_RelDirs
        (Abs : string -> string * option error)
        (Rel : string -> string -> string * option error)
        (out : string) (w w' : WixManifest) :
  RewriteFilePaths Abs Rel out w = (w', None) ->
  Directories w' = Directories w
  /\ (exists rs, RelDirs w' = (RelDirs w ++ rs)%list
                 /\ Forall2 (relativized Abs Rel out) (Directories w) rs)
  /\ (forall Abs2 Rel2 out2 w'',
         RewriteFilePaths Abs2 Rel2 out2 w' = (w'', None) ->
         Directories w'' = Directories w
         /\ exists rs1 rs2,
             RelDirs w'' = (RelDirs w ++ rs1 ++ rs2)%list
             /\ Forall2 (relativized Abs Rel out) (Directories w) rs1
             /\ Forall2 (relativized Abs2 Rel2 out2) (Directories w) rs2).
Proof.
  intros H1.
  destruct (RewriteFilePaths_once Abs Rel out w w' H1) as [Hd (rs1 & Hrs1 & Hall1)].
  split; [assumption|]. split; [exists rs1; auto|].
  intros Abs2 Rel2 out2 w'' H2.
  destruct (RewriteFilePaths_once Abs2 Rel2 out2 w' w'' H2) as [Hd' (rs2 & Hrs2 & Hall2)].
  split; [congruence|].
  exists rs1, rs2. split.
  - rewrite Hrs2, Hrs1. symmetry. apply app_assoc.
  - split; [assumption|]. rewrite <- Hd. assumption.
Qed.

Lemma RewriteFilePaths_RelDirs_witness :
  let w' := fst (RewriteFilePaths sample_Abs sample_Rel "/build/out" sample_manifest) in
  Directories w' = Directories sample_manifest
  /\ (exists rs, RelDirs w' = (RelDirs sample_manifest ++ rs)%list
                 /\ Forall2 (relativized sample_Abs sample_Rel "/build/out")
                            (Directories sample_manifest) rs)
  /\ (forall Abs2 Rel2 out2 w'',
         RewriteFilePaths Abs2 Rel2 out2 w' = (w'', None) ->
         Directories w'' = Directories sample_manifest
         /\ exists rs1 rs2,
             RelDirs w'' = (RelDirs sample_manifest ++ rs1 ++ rs2)%list
             /\ Forall2 (relativized sample_Abs sample_Rel "/build/out")
                        (Directories sample_manifest) rs1
             /\ Forall2 (relativized Abs2 Rel2 out2) (Directories sample_manifest) rs2).
Proof.
  apply (RewriteFilePaths_RelDirs sample_Abs sample_Rel "/build/out" sample_manifest).
  vm_compute. reflexivity.
Defined.

Example RewriteFilePaths_sample :
  RewriteFilePaths sample_Abs sample_Rel "/build/out" sample_manifest
  = (set_Files (WixFiles.mk "" ["sub/a.txt"; "b.txt"])
       (set_RelDirs ["."; "data"]
          (set_Shortcuts
             (WixShortcuts.mk ""
                [WixShortcut.mk "App" "" "app.exe" "" "" "app.ico";
                 WixShortcut.mk "Doc" "" "doc.pdf" "" "" ""])
             sample_manifest)),
     None).
Proof. vm_compute. reflexivity. Qed.

(** A failing call keeps what it has rewritten so far: the second file is
    outside the output directory, the first one is already relative, and
    the string that came with the error stands in place of the second. *)
Example RewriteFilePaths_partial :
  let w := set_Files (WixFiles.mk "" ["/build/out/sub/a.txt"; "b.txt"]) sample_manifest in
  let '(w', err) := RewriteFilePaths sample_Abs sample_Rel "/build/out" w in
  WixFiles.Items (Files w') = ["sub/a.txt"; ""]
  /\ RelDirs w' = []
  /\ err = Some (ErrPath "/work/b.txt").
Proof. vm_compute. repeat split. Qed.

(** ** Persistence *)

(** *** One member after the other *)

Lemma first_error_None_r (e : option error) : json.first_error e None = e.
Proof. destruct e; reflexivity. Qed.

(** A member whose name is that of a field and whose value the decoder of
    the field accepts is stored in the field. *)
Lemma assign_member {A B : Type} (F : list (json.field A)) (key : string)
      (into : string -> json.decoder B) (get : A -> B) (set : B -> A -> A)
      (v : json.value) (x : A) (e : option error)
      (rest : list (string * json.value)) (y : B) :
  json.find_field F key = Some (json.mk_field key into get set) ->
  into key v (get x) = (y, None) ->
  fold_left (json.assign F) ((key, v) :: rest) (x, e)
  = fold_left (json.assign F) rest (set y x, e).
Proof.
  intros Hf Hd. cbn [fold_left json.assign fst snd]. rewrite Hf.
  unfold json.mk_field; cbn [fst snd]. rewrite Hd, first_error_None_r. reflexivity.
Qed.

Lemma assign_omitempty_string {A : Type} (F : list (json.field A)) (key : string)
      (get : A -> string) (set : string -> A -> A) (s : string) (x : A)
      (e : option error) (rest : list (string * json.value)) :
  json.find_field F key = Some (json.mk_field key json.into_string get set) ->
  (s = "" -> set "" x = x) ->
  fold_left (json.assign F) (json.omitempty_string key s ++ rest) (x, e)
  = fold_left (json.assign F) rest (set (json.coerced s) x, e).
Proof.
  intros Hf Hz. destruct s as [|c s].
  - cbn [json.omitempty_string String.eqb app].
    change (json.coerced "") with "". rewrite Hz; reflexivity.
  - cbn [json.omitempty_string String.eqb app].
    apply (assign_member F key json.into_string get set); [assumption | reflexivity].
Qed.

Lemma assign_omitempty_bool {A : Type} (F : list (json.field A)) (key : string)
      (get : A -> bool) (set : bool -> A -> A) (b : bool) (x : A)
      (e : option error) (rest : list (string * json.value)) :
  json.find_field F key = Some (json.mk_field key json.into_bool get set) ->
  (b = false -> set false x = x) ->
  fold_left (json.assign F) (json.omitempty_bool key b ++ rest) (x, e)
  = fold_left (json.assign F) rest (set b x, e).
Proof.
  intros Hf Hz. destruct b.
  - cbn [json.omitempty_bool app].
    apply (assign_member F key json.into_bool get set); [assumption | reflexivity].
  - cbn [json.omitempty_bool app]. rewrite Hz; reflexivity.
Qed.

(** A slice written by [Marshal] is read back by [Unmarshal] when each of
    its elements is, whatever the slice and its elements held before. *)
Lemma into_slice_slice {A : Type} (zero : A) (enc : A -> json.value) (back : A -> A)
      (elem : json.decoder A) (field : string) (l old : list A) :
  (forall x o, elem (enc x) o = (back x, None)) ->
  json.into_slice zero elem field (json.slice enc l) old = (map back l, None).
Proof.
  intros Helem.
  assert (forall l acc,
             fold_left
               (fun (acc : list A * option error) (x : json.value) =>
                  let '(l, e) := acc in
                  let '(y, e') := elem x (nth (length l) old zero) in
                  ((l ++ [y])%list, json.first_error e e'))
               (map enc l) (acc, None)
             = ((acc ++ map back l)%list, None)) as Hfold.
  { clear l. induction l as [|a l IH]; intros acc; simpl.
    - rewrite app_nil_r. reflexivity.
    - rewrite Helem. simpl. rewrite IH, <- app_assoc. reflexivity. }
  destruct l as [|a l]; [reflexivity|].
  unfold json.slice, json.into_slice. apply (Hfold (a :: l) []).
Qed.

Lemma assign_omitempty_slice {A B : Type} (F : list (json.field A)) (key : string)
      (zero : B) (enc : B -> json.value) (back : B -> B) (elem : json.decoder B)
      (get : A -> list B) (set : list B -> A -> A) (l : list B) (x : A)
      (e : option error) (rest : list (string * json.value)) :
  json.find_field F key
  = Some (json.mk_field key (json.into_slice zero elem) get set) ->
  (forall y o, elem (enc y) o = (back y, None)) ->
  (l = [] -> set [] x = x) ->
  fold_left (json.assign F) (json.omitempty_slice key enc l ++ rest) (x, e)
  = fold_left (json.assign F) rest (set (map back l) x, e).
Proof.
  intros Hf Helem Hz. destruct l as [|a l].
  - cbn [json.omitempty_slice app map]. rewrite Hz; reflexivity.
  - cbn [json.omitempty_slice app].
    apply (assign_member F key (json.into_slice zero elem) get set); [assumption|].
    apply into_slice_slice. assumption.
Qed.

(** *** Each struct read back from what was written for it *)

Lemma into_string_Str (field s old : string) :
  json.into_string field (json.Str s) old = (s, None).
Proof. reflexivity. Qed.

Lemma into_string_str (field s old : string) :
  json.into_string field (json.str s) old = (json.coerced s, None).
Proof. reflexivity. Qed.

Lemma decode_WixEnv (name : string) (x old : WixEnv.t) :
  json.into_struct fields_WixEnv name (encode_WixEnv x) old = (coerced_WixEnv x, None).
Proof. destruct x, old. reflexivity. Qed.

Lemma decode_WixShortcut (name : string) (x old : WixShortcut.t) :
  json.into_struct fields_WixShortcut name (encode_WixShortcut x) old
  = (coerced_WixShortcut x, None).
Proof. destruct x, old. reflexivity. Qed.

Lemma decode_WixFiles (name : string) (x old : WixFiles.t) :
  json.into_struct fields_WixFiles name (encode_WixFiles x) old
  = (coerced_WixFiles x, None).
Proof.
  destruct x as [g items], old as [g' items'].
  unfold encode_WixFiles, json.into_struct, coerced_WixFiles;
    cbn [WixFiles.Guid WixFiles.Items].
  rewrite (assign_member fields_WixFiles "guid" json.into_string
             WixFiles.Guid WixFiles.set_Guid _ _ _ _ (json.coerced g)); [|reflexivity..].
  rewrite (assign_member fields_WixFiles "items" (json.into_slice "" (json.into_string "items"))
             WixFiles.Items WixFiles.set_Items _ _ _ _ (map json.coerced items));
    [reflexivity | reflexivity |].
  apply into_slice_slice. intros y o. reflexivity.
Qed.

Lemma decode_WixEnvList (name : string) (x old : WixEnvList.t) :
  json.into_struct fields_WixEnvList name (encode_WixEnvList x) old
  = (coerced_WixEnvList x, None).
Proof.
  destruct x as [g vars], old as [g' vars'].
  unfold encode_WixEnvList, json.into_struct, coerced_WixEnvList;
    cbn [WixEnvList.Guid WixEnvList.Vars].
  rewrite (assign_member fields_WixEnvList "guid" json.into_string
             WixEnvList.Guid WixEnvList.set_Guid _ _ _ _ (json.coerced g));
    [|reflexivity..].
  rewrite (assign_member fields_WixEnvList "vars"
             (json.into_slice WixEnv.zero (json.into_struct fields_WixEnv "vars"))
             WixEnvList.Vars WixEnvList.set_Vars _ _ _ _ (map coerced_WixEnv vars));
    [reflexivity | reflexivity |].
  apply into_slice_slice. intros y o. apply decode_WixEnv.
Qed.

(** The side condition of an omitted member: the field is empty in the
    struct it is not assigned to. *)
Ltac omitted_is_empty :=
  let Hb := fresh "Hb" in
  intros Hb;
  repeat match goal with
    | H : _ -> _ |- _ => specialize (H Hb)
    end;
  subst; reflexivity.

Lemma decode_WixShortcuts (name : string) (x old : WixShortcuts.t) :
  keeps_omitted_WixShortcuts x old ->
  json.into_struct fields_WixShortcuts name (encode_WixShortcuts x) old
  = (coerced_WixShortcuts x, None).
Proof.
  destruct x as [g items], old as [g' items']. intros [Hg Hi]; simpl in Hg, Hi.
  unfold encode_WixShortcuts, json.into_struct, coerced_WixShortcuts;
    cbn [WixShortcuts.Guid WixShortcuts.Items].
  rewrite (assign_omitempty_string fields_WixShortcuts "guid"
             WixShortcuts.Guid WixShortcuts.set_Guid);
    [|reflexivity | omitted_is_empty].
  rewrite <- (app_nil_r (json.omitempty_slice _ _ _)).
  rewrite (assign_omitempty_slice fields_WixShortcuts "items" WixShortcut.zero
             encode_WixShortcut coerced_WixShortcut
             (json.into_struct fields_WixShortcut "items")
             WixShortcuts.Items WixShortcuts.set_Items);
    [reflexivity | reflexivity | intros y o; apply decode_WixShortcut | omitted_is_empty].
Qed.

Lemma decode_ChocoSpec (name : string) (c old : ChocoSpec.t) :
  keeps_omitted_ChocoSpec c old ->
  json.into_struct fields_ChocoSpec name (encode_ChocoSpec c) old
  = (restore_ChocoSpec (coerced_ChocoSpec c) old, None).
Proof.
  destruct c as [a1 a2 a3 a4 a5 a6 a7 a8 a9 a10 a11 a12 a13].
  destruct old as [b1 b2 b3 b4 b5 b6 b7 b8 b9 b10 b11 b12 b13].
  intros (H1 & H2 & H3 & H4 & H5 & H6 & H7 & H8 & H9 & H10).
  simpl in H1, H2, H3, H4, H5, H6, H7, H8, H9, H10.
  unfold encode_ChocoSpec, json.into_struct, restore_ChocoSpec, coerced_ChocoSpec.
  cbn [ChocoSpec.Id ChocoSpec.Title ChocoSpec.Authors ChocoSpec.Owners
       ChocoSpec.Description ChocoSpec.ProjectUrl ChocoSpec.Tags ChocoSpec.LicenseUrl
       ChocoSpec.IconUrl ChocoSpec.RequireLicense ChocoSpec.MsiFile ChocoSpec.BuildDir
       ChocoSpec.ChangeLog].
  rewrite <- (app_nil_r (json.omitempty_bool _ _)).
  rewrite (assign_omitempty_string fields_ChocoSpec "id" ChocoSpec.Id ChocoSpec.set_Id);
    [|reflexivity | omitted_is_empty].
  rewrite (assign_omitempty_string fields_ChocoSpec "title"
             ChocoSpec.Title ChocoSpec.set_Title);
    [|reflexivity | omitted_is_empty].
  rewrite (assign_omitempty_string fields_ChocoSpec "authors"
             ChocoSpec.Authors ChocoSpec.set_Authors);
    [|reflexivity | omitted_is_empty].
  rewrite (assign_omitempty_string fields_ChocoSpec "owners"
             ChocoSpec.Owners ChocoSpec.set_Owners);
    [|reflexivity | omitted_is_empty].
  rewrite (assign_omitempty_string fields_ChocoSpec "description"
             ChocoSpec.Description ChocoSpec.set_Description);
    [|reflexivity | omitted_is_empty].
  rewrite (assign_omitempty_string fields_ChocoSpec "project-url"
             ChocoSpec.ProjectUrl ChocoSpec.set_ProjectUrl);
    [|reflexivity | omitted_is_empty].
  rewrite (assign_omitempty_string fields_ChocoSpec "tags"
             ChocoSpec.Tags ChocoSpec.set_Tags);
    [|reflexivity | omitted_is_empty].
  rewrite (assign_omitempty_string fields_ChocoSpec "license-url"
             ChocoSpec.LicenseUrl ChocoSpec.set_LicenseUrl);
    [|reflexivity | omitted_is_empty].
  rewrite (assign_omitempty_string fields_ChocoSpec "icon-url"
             ChocoSpec.IconUrl ChocoSpec.set_IconUrl);
    [|reflexivity | omitted_is_empty].
  rewrite (assign_omitempty_bool fields_ChocoSpec "require-license"
             ChocoSpec.RequireLicense ChocoSpec.set_RequireLicense);
    [reflexivity | reflexivity | omitted_is_empty].
Qed.

Lemma keeps_omitted_zero (w : WixManifest) : keeps_omitted w zero_manifest.
Proof. unfold keeps_omitted, keeps_omitted_WixShortcuts, keeps_omitted_ChocoSpec. simpl. tauto. Qed.

Lemma keeps_omitted_refl (w : WixManifest) : keeps_omitted w w.
Proof. unfold keeps_omitted, keeps_omitted_WixShortcuts, keeps_omitted_ChocoSpec. tauto. Qed.

(** The document written for [w], decoded into a manifest [old] that keeps
    what the document omits, gives the persisted fields of [w] beside the
    other fields of [old]. *)
Lemma decode_WixManifest (name : string) (w old : WixManifest) :
  keeps_omitted w old ->
  json.into_struct fields_WixManifest name (encode_WixManifest w) old
  = (restore (coerced_WixManifest w) old, None).
Proof.
  destruct w as [a1 a2 a3 a4 a5 a6 a7 a8 a9 a10 a11 a12].
  destruct old as [b1 b2 b3 b4 b5 b6 b7 b8 b9 b10 b11 b12].
  intros (H3 & H5 & H8 & H11 & H12). simpl in H3, H5, H8, H11, H12.
  unfold encode_WixManifest, json.into_struct, restore, coerced_WixManifest.
  cbn [Product Company Version VersionOk License UpgradeCode Files Directories RelDirs
       Env Shortcuts Choco app].
  rewrite (assign_member fields_WixManifest "product" json.into_string
             Product set_Product _ _ _ _ (json.coerced a1)); [|reflexivity..].
  rewrite (assign_member fields_WixManifest "company" json.into_string
             Company set_Company _ _ _ _ (json.coerced a2)); [|reflexivity..].
  rewrite (assign_omitempty_string fields_WixManifest "version" Version set_Version);
    [|reflexivity | omitted_is_empty].
  rewrite (assign_omitempty_string fields_WixManifest "license" License set_License);
    [|reflexivity | omitted_is_empty].
  cbn [app].
  rewrite (assign_member fields_WixManifest "upgrade-code" json.into_string
             UpgradeCode set_UpgradeCode _ _ _ _ (json.coerced a6)); [|reflexivity..].
  rewrite (assign_member fields_WixManifest "files" (json.into_struct fields_WixFiles)
             Files set_Files _ _ _ _ (coerced_WixFiles a7));
    [|reflexivity | apply decode_WixFiles].
  rewrite (assign_omitempty_slice fields_WixManifest "directories" ""
             json.str json.coerced (json.into_string "directories")
             Directories set_Directories);
    [|reflexivity | intros y o; reflexivity | omitted_is_empty].
  cbn [app].
  rewrite (assign_member fields_WixManifest "env" (json.into_struct fields_WixEnvList)
             Env set_Env _ _ _ _ (coerced_WixEnvList a10));
    [|reflexivity | apply decode_WixEnvList].
  rewrite (assign_member fields_WixManifest "shortcuts"
             (json.into_struct fields_WixShortcuts)
             Shortcuts set_Shortcuts _ _ _ _ (coerced_WixShortcuts a11));
    [|reflexivity | apply decode_WixShortcuts; assumption].
  rewrite (assign_member fields_WixManifest "choco" (json.into_struct fields_ChocoSpec)
             Choco set_Choco _ _ _ _ (restore_ChocoSpec (coerced_ChocoSpec a12) b12));
    [|reflexivity | apply decode_ChocoSpec; assumption].
  reflexivity.
Qed.

(** *** [Write] and [Load] on the file system *)

(** A successful [Write] is a successful [ioutil.WriteFile] of the
    document of the manifest. *)
Lemma Write_success (sys : System) (p : string) (w : WixManifest) (fs fs' : FS sys) :
  Write sys p w fs = (None, fs') ->
  WriteFile sys (default_path p) (JSONText (encode_WixManifest w)) fs = (None, fs').
Proof.
  unfold Write, MarshalIndent. fold (default_path p).
  destruct (WriteFile sys (default_path p) (JSONText (encode_WixManifest w)) fs)
    as [[e|] fs1]; [discriminate|].
  intros [= <-]. reflexivity.
Qed.

(** [Load] from a path whose file is found, is read and holds a document
    is [Unmarshal] of that document. *)
Lemma Load_document (sys : System) (p : string) (r : WixManifest) (fs : FS sys)
      (doc : json.value) :
  reads_back sys (default_path p) (JSONText doc) fs ->
  Load sys p r fs = json.into_struct fields_WixManifest "WixManifest" doc r.
Proof.
  intros [Hs Hr]. unfold Load. fold (default_path p).
  rewrite Hs, Hr. simpl.
  destruct (json.into_struct fields_WixManifest "WixManifest" doc r) as [w' [e|]];
    reflexivity.
Qed.

Lemma restore_valid (w old : WixManifest) :
  valid_UTF8 w -> restore (coerced_WixManifest w) old = restore w old.
Proof. intros H. rewrite H. reflexivity. Qed.

(** The file system in memory gives back what was written. *)
Lemma memory_gives_back (p : string) (dat0 : filedata) (fs : FS memory) :
  gives_back memory p fs (snd (WriteFile memory p dat0 fs)).
Proof.
  intros dat H. simpl in *. injection H as H.
  assert (dat = dat0) as ->.
  { apply (f_equal (fun m : gmap string filedata => m !! p)) in H.
    rewrite !lookup_insert_eq in H. congruence. }
  unfold reads_back. simpl. rewrite lookup_insert_eq. split; reflexivity.
Qed.

(** C4 (as amended). Take a manifest written with [Write], on a system
    that gives back what was written: the file is found and read back
    with the document [Write] handed over.  [Load] from the same path into an empty
    manifest then succeeds and gives the persisted fields of the manifest,
    every string coerced to valid UTF-8, and the fields that are not
    persisted empty; so a manifest whose persisted strings are valid UTF-8
    comes back with all its persisted fields.  More generally, loaded into
    any manifest that keeps what the document omits (the manifest that
    was written is one), the persisted fields come back beside the other
    fields of that manifest. *)
Theorem Write_Load_roundtrip (sys : System) (p : string) (w : WixManifest)
        (fs fs' : FS sys) :
  Write sys p w fs = (None, fs') ->
  gives_back sys (default_path p) fs fs' ->
  Load sys p zero_manifest fs' = (restore (coerced_WixManifest w) zero_manifest, None)
  /\ (valid_UTF8 w ->
      Load sys p zero_manifest fs' = (restore w zero_manifest, None)
      /\ persisted_eq (fst (Load sys p zero_manifest fs')) w
      /\ Load sys p w fs' = (w, None))
  /\ forall old, keeps_omitted w old ->
                 Load sys p old fs' = (restore (coerced_WixManifest w) old, None).
Proof.
  intros Hwrite Hsys. pose proof (Hsys _ (Write_success sys p w fs fs' Hwrite)) as Hback.
  assert (forall old, keeps_omitted w old ->
                      Load sys p old fs' = (restore (coerced_WixManifest w) old, None))
    as Hall.
  { intros old Hk. rewrite (Load_document sys p old fs' _ Hback).
    apply decode_WixManifest. assumption. }
  pose proof (Hall zero_manifest (keeps_omitted_zero w)) as Hz.
  split; [exact Hz|]. split; [|exact Hall].
  intros Hvalid. rewrite Hz, (Hall w (keeps_omitted_refl w)), !restore_valid by assumption.
  split; [reflexivity|]. split.
  - unfold persisted_eq. simpl. destruct w as [? ? ? ? ? ? ? ? ? ? ? []]. reflexivity.
  - destruct w as [? ? ? ? ? ? ? ? ? ? ? []]. reflexivity.
Qed.

Lemma Write_Load_roundtrip_witness :
  let fs' := snd (Write memory "" sample_manifest empty_fs) in
  Load memory "" zero_manifest fs'
  = (restore (coerced_WixManifest sample_manifest) zero_manifest, None)
  /\ (valid_UTF8 sample_manifest ->
      Load memory "" zero_manifest fs' = (restore sample_manifest zero_manifest, None)
      /\ persisted_eq (fst (Load memory "" zero_manifest fs')) sample_manifest
      /\ Load memory "" sample_manifest fs' = (sample_manifest, None))
  /\ forall old, keeps_omitted sample_manifest old ->
                 Load memory "" old fs'
                 = (restore (coerced_WixManifest sample_manifest) old, None).
Proof.
  apply (Write_Load_roundtrip memory "" sample_manifest empty_fs).
  - vm_compute. reflexivity.
  - apply (memory_gives_back "wix.json" (fst (MarshalIndent sample_manifest)) empty_fs).
Defined.

(** C4 (as stated) fails: a product name that is the one byte 255 is
    written as the escape of U+FFFD and comes back as the three bytes of
    that character. *)
Lemma Write_Load_invalid_UTF8 :
  let w := set_Product invalid_name zero_manifest in
  let '(err, fs') := Write memory "" w empty_fs in
  let '(w', err') := Load memory "" zero_manifest fs' in
  err = None /\ err' = None
  /\ Product w' = utf8.RuneError
  /\ Product w' <> Product w.
Proof. vm_compute. repeat split. discriminate. Qed.

(** *** The members of the document *)










(** The document depends on the persisted fields only. *)
Lemma encode_persisted_eq (w1 w2 : WixManifest) :
  persisted_eq w1 w2 -> encode_WixManifest w1 = encode_WixManifest w2.
Proof.
  unfold persisted_eq, restore, restore_ChocoSpec.
  destruct w1 as [? ? ? ? ? ? ? ? ? ? ? []], w2 as [? ? ? ? ? ? ? ? ? ? ? []]; simpl.
  intros H. injection H. intros. subst. reflexivity.
Qed.



Lemma encode_ChocoSpec_keys (c : ChocoSpec.t) :
  json.keys (encode_ChocoSpec c)
  = (optional (ChocoSpec.Id c =? "") "id" ++ optional (ChocoSpec.Title c =? "") "title"
     ++ optional (ChocoSpec.Authors c =? "") "authors"
     ++ optional (ChocoSpec.Owners c =? "") "owners"
     ++ optional (ChocoSpec.Description c =? "") "description"
     ++ optional (ChocoSpec.ProjectUrl c =? "") "project-url"
     ++ optional (ChocoSpec.Tags c =? "") "tags"
     ++ optional (ChocoSpec.LicenseUrl c =? "") "license-url"
     ++ optional (ChocoSpec.IconUrl c =? "") "icon-url"
     ++ optional (negb (ChocoSpec.RequireLicense c)) "require-license")%list.
Proof.
  destruct c as [a1 a2 a3 a4 a5 a6 a7 a8 a9 a10 ? ? ?].
  unfold encode_ChocoSpec, json.keys, json.omitempty_string, json.omitempty_bool, optional.
  cbn [ChocoSpec.Id ChocoSpec.Title ChocoSpec.Authors ChocoSpec.Owners
       ChocoSpec.Description ChocoSpec.ProjectUrl ChocoSpec.Tags ChocoSpec.LicenseUrl
       ChocoSpec.IconUrl ChocoSpec.RequireLicense].
  rewrite !map_app.
  destruct (a1 =? ""), (a2 =? ""), (a3 =? ""), (a4 =? ""), (a5 =? ""), (a6 =? ""),
    (a7 =? ""), (a8 =? ""), (a9 =? ""), a10; reflexivity.
Qed.





(** *** Fields absent from the document *)

(** The field a member is matched to has the name of the member, up to
    case folding. *)
Lemma find_field_spec {A : Type} (F : list (json.field A)) (key : string)
      (f : json.field A) :
  json.find_field F key = Some f -> In f F /\ json.addresses (fst f) key = true.
Proof.
  unfold json.find_field, json.addresses. intros H.
  destruct (find (fun f0 => fst f0 =? key) F) as [f0|] eqn:Hexact.
  - injection H as <-. apply find_some in Hexact. destruct Hexact as [Hin Heq].
    apply String.eqb_eq in Heq. split; [assumption|].
    rewrite Heq. apply String.eqb_refl.
  - apply find_some in H. destruct H as [Hin Heq].
    split; [assumption|]. rewrite String.eqb_sym. exact Heq.
Qed.

(** A part [get] of a struct is left as it was by the members of an object
    when each member that passes [ok] leaves it as it was. *)
Lemma assign_preserves {A B : Type} (F : list (json.field A)) (get : A -> B)
      (ok : string * json.value -> bool) :
  (forall kv x f, ok kv = true -> json.find_field F (fst kv) = Some f ->
                  get (fst (snd f (snd kv) x)) = get x) ->
  forall members acc,
    forallb ok members = true ->
    get (fst (fold_left (json.assign F) members acc)) = get (fst acc).
Proof.
  intros Hframe. induction members as [|kv members IH]; intros [x e] Hok; simpl.
  - reflexivity.
  - simpl in Hok. apply andb_true_iff in Hok. destruct Hok as [Hkv Hrest].
    destruct (json.find_field F (fst kv)) as [f|] eqn:Hfind.
    + specialize (Hframe kv x f Hkv Hfind).
      destruct (snd f (snd kv) x) as [x' e'] eqn:Hdec. simpl in Hframe.
      rewrite (IH (x', json.first_error e e') Hrest). simpl. exact Hframe.
    + rewrite (IH (x, e) Hrest). reflexivity.
Qed.

(** The same for a struct decoded from a value from which the field at
    [name :: rest] is absent. *)
Lemma into_struct_preserves {A B : Type} (F : list (json.field A)) (get : A -> B)
      (name : string) (rest : list string) (ctx : string) (v : json.value) (old : A) :
  (forall k v' x f,
      (if json.addresses name k then json.absent rest v' else true) = true ->
      json.find_field F k = Some f ->
      get (fst (snd f v' x)) = get x) ->
  json.absent (name :: rest) v = true ->
  get (fst (json.into_struct F ctx v old)) = get old.
Proof.
  intros Hframe Habs. destruct v; try reflexivity.
  unfold json.into_struct.
  apply (assign_preserves F get
           (fun kv => if json.addresses name (fst kv)
                      then json.absent rest (snd kv) else true)).
  - intros [k v'] x f Hok Hfind. exact (Hframe k v' x f Hok Hfind).
  - exact Habs.
Qed.

(** What a field [mk_field key into get set] does to a part of the struct
    that [set] does not touch. *)
Lemma mk_field_frame {A B C : Type} (key : string) (into : string -> json.decoder B)
      (get : A -> B) (set : B -> A -> A) (part : A -> C) (v : json.value) (x : A) :
  (forall y, part (set y x) = part x) ->
  part (fst (snd (json.mk_field key into get set) v x)) = part x.
Proof.
  intros H. unfold json.mk_field; simpl.
  destruct (into key v (get x)) as [y e]. simpl. apply H.
Qed.

(** A field of a section is left as it was by the member of the section
    when the field is absent from that member. *)
Lemma section_field_frame {A S C : Type} (F : list (json.field S)) (sec : string)
      (Sec : A -> S) (set_Sec : S -> A -> A) (part : S -> C) (n : string)
      (v : json.value) (x : A) :
  (forall y, Sec (set_Sec y x) = y) ->
  (forall k v' s f,
      (if json.addresses n k then json.absent [] v' else true) = true ->
      json.find_field F k = Some f ->
      part (fst (snd f v' s)) = part s) ->
  json.absent [n] v = true ->
  part (Sec (fst (snd (json.mk_field sec (json.into_struct F) Sec set_Sec) v x)))
  = part (Sec x).
Proof.
  intros Hset Hframe Habs.
  pose proof (into_struct_preserves F part n [] sec v (Sec x) Hframe Habs) as Hp.
  unfold json.mk_field; cbn [fst snd].
  destruct (json.into_struct F sec v (Sec x)) as [y e]. cbn [fst snd] in *.
  rewrite Hset. exact Hp.
Qed.

(** The members of a struct but the one of the field looked at leave the
    field alone. *)
Ltac other_members :=
  let k := fresh "k" in let v := fresh "v" in let x := fresh "x" in
  let f := fresh "f" in let Hok := fresh "Hok" in let Hfind := fresh "Hfind" in
  let Hin := fresh "Hin" in let Haddr := fresh "Haddr" in
  intros k v x f Hok Hfind;
  apply find_field_spec in Hfind; destruct Hfind as [Hin Haddr];
  simpl in Hin;
  repeat (destruct Hin as [<- | Hin]);
  try contradiction;
  cbn [fst json.mk_field] in Haddr;
  first [ rewrite Haddr in Hok; simpl in Hok; discriminate
        | apply mk_field_frame; intros ?; destruct x; reflexivity ].

Ltac section_members F sec Sec set_Sec part n :=
  let k := fresh "k" in let v := fresh "v" in let x := fresh "x" in
  let f := fresh "f" in let Hok := fresh "Hok" in let Hfind := fresh "Hfind" in
  let Hin := fresh "Hin" in let Haddr := fresh "Haddr" in
  intros k v x f Hok Hfind;
  apply find_field_spec in Hfind; destruct Hfind as [Hin Haddr];
  simpl in Hin;
  repeat (destruct Hin as [<- | Hin]);
  try contradiction;
  cbn [fst json.mk_field] in Haddr;
  first [ rewrite Haddr in Hok;
          apply (section_field_frame F sec Sec set_Sec part n);
          [ intros ?; destruct x; reflexivity | other_members | exact Hok ]
        | apply mk_field_frame; intros ?; destruct x; reflexivity ].

Ltac absent_top r :=
  match goal with
  | Habs : json.absent (?n :: ?rest) ?doc = true |- ?g (fst _) = _ =>
      apply (into_struct_preserves fields_WixManifest g n rest "WixManifest" doc r);
      [ other_members | exact Habs ]
  end.

Ltac absent_in r F sec Sec set_Sec part n :=
  match goal with
  | Habs : json.absent (?m :: ?rest) ?doc = true |- ?g (fst _) = _ =>
      apply (into_struct_preserves fields_WixManifest g m rest "WixManifest" doc r);
      [ section_members F sec Sec set_Sec part n | exact Habs ]
  end.

(** [Unmarshal] leaves every persisted field that is absent from the
    document as the manifest held it. *)
Lemma Unmarshal_absent (f : pfield) (doc : json.value) (r : WixManifest) :
  In f persisted_fields ->
  json.absent (path f) doc = true ->
  content f (fst (json.into_struct fields_WixManifest "WixManifest" doc r))
  = content f r.
Proof.
  intros Hin Habs. simpl in Hin.
  repeat (destruct Hin as [<- | Hin]); try contradiction; cbn [path] in Habs.
  - absent_top r.
  - absent_top r.
  - absent_top r.
  - absent_top r.
  - absent_top r.
  - absent_top r.
  - absent_in r fields_WixFiles "files" Files set_Files WixFiles.Guid "guid".
  - absent_in r fields_WixFiles "files" Files set_Files WixFiles.Items "items".
  - absent_top r.
  - absent_top r.
  - absent_in r fields_WixEnvList "env" Env set_Env WixEnvList.Guid "guid".
  - absent_in r fields_WixEnvList "env" Env set_Env WixEnvList.Vars "vars".
  - absent_top r.
  - absent_in r fields_WixShortcuts "shortcuts" Shortcuts set_Shortcuts
              WixShortcuts.Guid "guid".
  - absent_in r fields_WixShortcuts "shortcuts" Shortcuts set_Shortcuts
              WixShortcuts.Items "items".
  - absent_top r.
  - absent_in r fields_ChocoSpec "choco" Choco set_Choco ChocoSpec.Id "id".
  - absent_in r fields_ChocoSpec "choco" Choco set_Choco ChocoSpec.Title "title".
  - absent_in r fields_ChocoSpec "choco" Choco set_Choco ChocoSpec.Authors "authors".
  - absent_in r fields_ChocoSpec "choco" Choco set_Choco ChocoSpec.Owners "owners".
  - absent_in r fields_ChocoSpec "choco" Choco set_Choco
              ChocoSpec.Description "description".
  - absent_in r fields_ChocoSpec "choco" Choco set_Choco
              ChocoSpec.ProjectUrl "project-url".
  - absent_in r fields_ChocoSpec "choco" Choco set_Choco ChocoSpec.Tags "tags".
  - absent_in r fields_ChocoSpec "choco" Choco set_Choco
              ChocoSpec.LicenseUrl "license-url".
  - absent_in r fields_ChocoSpec "choco" Choco set_Choco ChocoSpec.IconUrl "icon-url".
  - absent_in r fields_ChocoSpec "choco" Choco set_Choco
              ChocoSpec.RequireLicense "require-license".
Qed.

(** C8 (as amended). A persisted field that is absent from the document
    keeps, after [Load], the content the manifest held before the call; it
    has its zero value when [Load] is called on an empty manifest. *)
Theorem Load_absent_fields (sys : System) (p : string) (r : WixManifest) (fs : FS sys)
        (doc : json.value) (f : pfield) :
  document_at sys p fs = Some doc ->
  In f persisted_fields ->
  json.absent (path f) doc = true ->
  content f (fst (Load sys p r fs)) = content f r
  /\ (r = zero_manifest -> content f (fst (Load sys p r fs)) = content f zero_manifest).
Proof.
  intros Hdoc Hin Habs.
  assert (content f (fst (Load sys p r fs)) = content f r) as Hkeep.
  { unfold document_at in Hdoc. unfold Load. fold (default_path p).
    destruct (IsNotExist (Stat sys (default_path p) fs)); [reflexivity|].
    destruct (ReadFile sys (default_path p) fs) as [[doc'|raw]|]; try discriminate.
    injection Hdoc as ->.
    pose proof (Unmarshal_absent f doc r Hin Habs) as H.
    unfold Unmarshal.
    destruct (json.into_struct fields_WixManifest "WixManifest" doc r) as [w' [e|]];
      exact H. }
  split; [exact Hkeep|]. intros ->. exact Hkeep.
Qed.

Lemma Load_absent_fields_witness :
  Version (fst (Load memory "" sample_manifest partial_fs)) = Version sample_manifest
  /\ (sample_manifest = zero_manifest ->
      Version (fst (Load memory "" sample_manifest partial_fs)) = Version zero_manifest).
Proof.
  apply (Load_absent_fields memory "" sample_manifest partial_fs partial_doc
           (mk_pfield ["version"] _ Version)).
  - vm_compute. reflexivity.
  - simpl. right. right. left. reflexivity.
  - vm_compute. reflexivity.
Defined.

(** C8 (as stated) fails: loaded into a manifest that has a version and
    directories, a document without them deserializes without error and
    leaves both in place. *)
Lemma Load_keeps_absent_fields :
  let '(w', err) := Load memory "" sample_manifest partial_fs in
  document_at memory "" partial_fs = Some partial_doc
  /\ json.absent ["version"] partial_doc = true
  /\ json.absent ["directories"] partial_doc = true
  /\ err = None
  /\ Product w' = "Tool"
  /\ Version w' = "1.2.3"
  /\ Directories w' = ["/build/out"; "/build/out/data"].
Proof. vm_compute. repeat split. Qed.

Example Write_zero_manifest :
  document_at memory "" (snd (Write memory "" zero_manifest empty_fs))
  = Some (json.Obj
            [("product", json.Str ""); ("company", json.Str "");
             ("upgrade-code", json.Str "");
             ("files", json.Obj [("guid", json.Str ""); ("items", json.Null)]);
             ("env", json.Obj [("guid", json.Str ""); ("vars", json.Null)]);
             ("shortcuts", json.Obj []); ("choco", json.Obj [])]).
Proof. vm_compute. reflexivity. Qed.

(** Member names are matched without regard to case. *)
Example Unmarshal_folds_names :
  Unmarshal (JSONText (json.Obj [("VERSION", json.Str "2.0.0")])) zero_manifest
  = (set_Version "2.0.0" zero_manifest, None).
Proof. reflexivity. Qed.

(** A value of the wrong kind is reported and skipped; the members after
    it are still stored. *)
Example Unmarshal_goes_on :
  Unmarshal (JSONText (json.Obj [("version", json.Number "2");
                                 ("license", json.Str "MIT")])) zero_manifest
  = (set_License "MIT" zero_manifest, Some (ErrUnmarshalType "version")).
Proof. reflexivity. Qed.

(** An element of an array is decoded into the element the slice already
    holds at its index: the fields its object does not name stay. *)
Example Unmarshal_reuses_elements :
  WixEnvList.Vars
    (Env (fst (Unmarshal
                 (JSONText
                    (json.Obj
                       [("env",
                         json.Obj
                           [("vars",
                             json.Arr [json.Obj [("name", json.Str "PATH")];
                                       json.Obj [("name", json.Str "TMP")]])])]))
                 sample_manifest)))
  = [WixEnv.mk "PATH" "" "no" "no" "set" "all"; WixEnv.mk "TMP" "" "" "" "" ""].
Proof. reflexivity. Qed.

(** * Further properties *)

(** ** Identifier provisioning *)

(** X1. [SetGuids] never regenerates: a slot that is not missing keeps its
    identifier, and nothing but the four slots is changed, whether the call
    fails or not. *)
Theorem SetGuids_keeps_present
        (G : Type) (Make : G -> (string * option error) * G)
        (w : WixManifest) (g : G) :
  let '(_, _, w', _) := SetGuids G Make w g in
  clear_slots w' = clear_slots w
  /\ forall s, slot_missing s w = false -> slot_value s w' = slot_value s w.
Proof.
  pose proof (SetGuids_outcome G Make w g) as H.
  destruct (SetGuids G Make w g) as [[[changed err] w'] g'].
  destruct H as [Hc H]. split; [exact Hc|]. intros s Hs.
  destruct err as [e|].
  - destruct H as (_ & s0 & Hmiss & _ & Hbefore & Hafter).
    destruct (Nat.lt_trichotomy (slot_index s) (slot_index s0)) as [Hlt | [Heq | Hgt]].
    + specialize (Hbefore s Hlt). unfold provisioned in Hbefore.
      rewrite Hs in Hbefore. exact Hbefore.
    + assert (s = s0) as -> by (destruct s, s0; simpl in Heq; congruence).
      congruence.
    + exact (Hafter s Hgt).
  - destruct H as (_ & Hall & _). specialize (Hall s). unfold provisioned in Hall.
    rewrite Hs in Hall. exact Hall.
Qed.

(** X2. When [NeedGuid] answers false, [SetGuids] is a no-op: it returns
    [changed = false] and no error, leaves the manifest as it is and does
    not call the generator. *)
Theorem SetGuids_noop_when_not_needed
        (G : Type) (Make : G -> (string * option error) * G)
        (w : WixManifest) (g : G) :
  NeedGuid w = false ->
  SetGuids G Make w g = (false, None, w, g).
Proof.
  intros H. apply SetGuids_filled. intros s.
  rewrite NeedGuid_slots in H. simpl in H.
  repeat (apply orb_false_iff in H; destruct H as [? H]).
  destruct s; assumption.
Qed.

Lemma SetGuids_noop_when_not_needed_witness :
  let w := snd (fst (SetGuids nat counter_guid sample_manifest 0%nat)) in
  SetGuids nat fail_second w 0%nat = (false, None, w, 0%nat).
Proof.
  apply (SetGuids_noop_when_not_needed nat fail_second).
  vm_compute. reflexivity.
Defined.

(** X3. A call of [SetGuids] that returns no error returns, as [changed],
    what [NeedGuid] answered before the call. *)
Theorem SetGuids_changed_is_NeedGuid
        (G : Type) (Make : G -> (string * option error) * G)
        (w w' : WixManifest) (g g' : G) (changed : bool) :
  SetGuids G Make w g = (changed, None, w', g') ->
  changed = NeedGuid w.
Proof.
  intros Hrun. pose proof (SetGuids_outcome G Make w g) as H.
  rewrite Hrun in H. destruct H as (_ & Hiff & _).
  rewrite NeedGuid_slots.
  destruct (existsb (fun s => slot_missing s w) all_slots) eqn:Hex.
  - apply Hiff. apply existsb_exists in Hex. destruct Hex as (s & _ & Hs).
    exists s. exact Hs.
  - destruct changed; [|reflexivity].
    destruct (proj1 Hiff eq_refl) as [s Hs].
    assert (existsb (fun s => slot_missing s w) all_slots = true) as Hex'.
    { apply existsb_exists. exists s. split; [destruct s; simpl; tauto | exact Hs]. }
    congruence.
Qed.

Lemma SetGuids_changed_is_NeedGuid_witness :
  fst (fst (fst (SetGuids nat counter_guid sample_manifest 0%nat)))
  = NeedGuid sample_manifest.
Proof.
  apply (SetGuids_changed_is_NeedGuid nat counter_guid sample_manifest
           (snd (fst (SetGuids nat counter_guid sample_manifest 0%nat)))
           0%nat
           (snd (SetGuids nat counter_guid sample_manifest 0%nat))).
  vm_compute. reflexivity.
Defined.

(** X4. After a call of [SetGuids] that returns no error, with a generator
    that hands back no empty string, no identifier is needed any more:
    [NeedGuid] answers false. *)
Theorem SetGuids_then_NeedGuid
        (G : Type) (Make : G -> (string * option error) * G)
        (w w' : WixManifest) (g g' : G) (changed : bool) :
  (forall g0, fst (fst (Make g0)) <> "") ->
  SetGuids G Make w g = (changed, None, w', g') ->
  NeedGuid w' = false.
Proof.
  intros Hne Hrun. pose proof (SetGuids_outcome G Make w g) as H.
  rewrite Hrun in H. destruct H as (Hc & _ & Hall & _).
  assert (forall s, slot_missing s w' = false) as Hfilled.
  { intros s. apply slot_missing_after with (w := w); [assumption|].
    specialize (Hall s). unfold provisioned, gen_out in Hall.
    destruct (slot_missing s w) eqn:E.
    - left. intros Hv.
      apply (Hne (gen_state G Make (calls_before s w) g)).
      rewrite Hall. exact Hv.
    - right. split; [assumption | reflexivity]. }
  rewrite NeedGuid_slots. unfold all_slots. cbn [existsb].
  rewrite (Hfilled SlotUpgrade), (Hfilled SlotFiles), (Hfilled SlotEnv),
    (Hfilled SlotShortcuts). reflexivity.
Qed.

Lemma SetGuids_then_NeedGuid_witness :
  NeedGuid (snd (fst (SetGuids nat counter_guid sample_manifest 0%nat))) = false.
Proof.
  apply (SetGuids_then_NeedGuid nat counter_guid sample_manifest
           (snd (fst (SetGuids nat counter_guid sample_manifest 0%nat)))
           0%nat
           (snd (SetGuids nat counter_guid sample_manifest 0%nat))
           (fst (fst (fst (SetGuids nat counter_guid sample_manifest 0%nat))))).
  - intros g0. simpl. discriminate.
  - vm_compute. reflexivity.
Defined.

Section GeneratorCalls.

Variable G : Type.
Variable Make : G -> (string * option error) * G.

Ltac calls_facts :=
  unfold gen_out, calls_before; simpl;
  repeat match goal with
    | H : _ = _ |- _ => rewrite H; simpl
    end;
  try reflexivity; try congruence.

(** X5. [SetGuids] calls the generator once for each missing slot, in the
    order upgrade, files, environment, shortcuts, and not at all after a
    call that failed: without error the generator is left in the state that
    follows as many calls as slots were missing; with an error, in the state
    that follows the failing call, made for the missing slot [s] after one
    call for each missing slot before it. *)
Theorem SetGuids_generator_calls (w : WixManifest) (g : G) :
  let '(_, err, _, g') := SetGuids G Make w g in
  match err with
  | None =>
      g' = gen_state G Make
             (length (List.filter (fun s => slot_missing s w) all_slots)) g
  | Some e =>
      exists s,
        slot_missing s w = true
        /\ snd (gen_out G Make (calls_before s w) g) = Some e
        /\ g' = gen_state G Make (S (calls_before s w)) g
  end.
Proof.
  destruct w as [? ? ? ? ? up [fg fi] ? ? [eg ev] [sg si] ?].
  unfold SetGuids; simpl.
  destruct (up =? "") eqn:Hu;
    destruct (fg =? "") eqn:Hf;
    destruct ((eg =? "") && (0 <? length ev)%nat) eqn:He;
    destruct ((sg =? "") && (0 <? length si)%nat) eqn:Hs.
  all: do 5 (simpl; rewrite ?Hu, ?Hf, ?He, ?Hs; simpl;
             try match goal with
                 | |- context [Make ?g] => destruct (Make g) as [[? [?|]] ?] eqn:?
                 end).
  all: simpl.
  all: first
         [ solve [calls_facts]
         | exists SlotUpgrade; solve [repeat split; calls_facts]
         | exists SlotFiles; solve [repeat split; calls_facts]
         | exists SlotEnv; solve [repeat split; calls_facts]
         | exists SlotShortcuts; solve [repeat split; calls_facts] ].
Qed.

End GeneratorCalls.

Example SetGuids_counts_calls :
  SetGuids nat counter_guid sample_manifest 0%nat
  = (true, None,
     set_UpgradeCode "GUID-0"
       (set_Files (WixFiles.set_Guid "GUID-1" (Files sample_manifest))
          (set_Env (WixEnvList.set_Guid "GUID-2" (Env sample_manifest))
             (set_Shortcuts (WixShortcuts.set_Guid "GUID-3" (Shortcuts sample_manifest))
                sample_manifest))),
     4%nat).
Proof. vm_compute. reflexivity. Qed.

(** ** Field normalisation, continued *)

(** The manifest a successful [Normalize] leaves, field by field. *)
Lemma Normalize_result (w : WixManifest) (v : semver.Version) :
  semver.NewVersion (Version w) = inl v ->
  Normalize w
  = (let c := Choco w in
     let or_else (x d : string) := if x =? "" then d else x in
     set_VersionOk
       (strconv.FormatInt (semver.Major v) ++ "." ++ strconv.FormatInt (semver.Minor v)
        ++ "." ++ strconv.FormatInt (semver.Patch v))
       (set_Choco
          (ChocoSpec.set_Id (or_else (ChocoSpec.Id c) (Product w))
             (ChocoSpec.set_Title (or_else (ChocoSpec.Title c) (Product w))
                (ChocoSpec.set_Authors (or_else (ChocoSpec.Authors c) (Company w))
                   (ChocoSpec.set_Owners (or_else (ChocoSpec.Owners c) (Company w))
                      (ChocoSpec.set_Description
                         (or_else (ChocoSpec.Description c) (Product w))
                         (ChocoSpec.set_Tags (ChocoSpec.Tags c ++ " admin") c))))))
          w),
     None).
Proof.
  intros Hv. unfold Normalize.
  destruct w as [? ? ver ? ? ? ? ? ? ? ? [id title authors owners descr ? tags ? ? ? ? ? ?]].
  simpl in *. rewrite Hv. simpl. rewrite !append_assoc.
  destruct (id =? ""); simpl; destruct (title =? ""); simpl;
    destruct (authors =? ""); simpl; destruct (owners =? ""); simpl;
    destruct (descr =? ""); reflexivity.
Qed.

Lemma or_else_idem (x d : string) :
  (if (if x =? "" then d else x) =? "" then d else (if x =? "" then d else x))
  = (if x =? "" then d else x).
Proof.
  destruct (x =? "") eqn:Hx; [|rewrite Hx; reflexivity].
  destruct (d =? "") eqn:Hd; [|reflexivity].
  apply String.eqb_eq in Hd. congruence.
Qed.

(** X6. A successful [Normalize] fills the choco defaults and nothing else:
    [Id], [Title] and [Description] become the product name and [Authors]
    and [Owners] the company name where they were empty, and keep their
    value where they were not; the other choco fields but [Tags], and the
    manifest's fields outside [Choco] but [VersionOk], are left as they
    were. *)
Theorem Normalize_defaults (w w' : WixManifest) :
  Normalize w = (w', None) ->
  let c := Choco w in
  let c' := Choco w' in
  ChocoSpec.Id c' = (if ChocoSpec.Id c =? "" then Product w else ChocoSpec.Id c)
  /\ ChocoSpec.Title c' = (if ChocoSpec.Title c =? "" then Product w else ChocoSpec.Title c)
  /\ ChocoSpec.Authors c' = (if ChocoSpec.Authors c =? "" then Company w else ChocoSpec.Authors c)
  /\ ChocoSpec.Owners c' = (if ChocoSpec.Owners c =? "" then Company w else ChocoSpec.Owners c)
  /\ ChocoSpec.Description c'
     = (if ChocoSpec.Description c =? "" then Product w else ChocoSpec.Description c)
  /\ ChocoSpec.set_Id (ChocoSpec.Id c)
       (ChocoSpec.set_Title (ChocoSpec.Title c)
          (ChocoSpec.set_Authors (ChocoSpec.Authors c)
             (ChocoSpec.set_Owners (ChocoSpec.Owners c)
                (ChocoSpec.set_Description (ChocoSpec.Description c)
                   (ChocoSpec.set_Tags (ChocoSpec.Tags c) c'))))) = c
  /\ set_VersionOk (VersionOk w) (set_Choco c w') = w.
Proof.
  intros H.
  destruct (semver.NewVersion (Version w)) as [v | e] eqn:Hv.
  2: { rewrite (Normalize_error w e Hv) in H. discriminate. }
  rewrite (Normalize_result w v Hv) in H. injection H as <-.
  destruct w as [? ? ? ? ? ? ? ? ? ? ? []]. simpl. repeat split.
Qed.

(** X7. Apart from the tags, [Normalize] is idempotent: on the manifest a
    successful call has left, a second call succeeds and changes nothing
    but [Tags], to which it appends [" admin"] once more. *)
Theorem Normalize_again (w w1 : WixManifest) :
  Normalize w = (w1, None) ->
  Normalize w1
  = (set_Choco (ChocoSpec.set_Tags (ChocoSpec.Tags (Choco w1) ++ " admin") (Choco w1)) w1,
     None).
Proof.
  intros H.
  destruct (semver.NewVersion (Version w)) as [v | e] eqn:Hv.
  2: { rewrite (Normalize_error w e Hv) in H. discriminate. }
  rewrite (Normalize_result w v Hv) in H. injection H as <-.
  rewrite (Normalize_result _ v).
  2: { destruct w as [? ? ? ? ? ? ? ? ? ? ? []]. exact Hv. }
  destruct w as [? ? ? ? ? ? ? ? ? ? ? []]. simpl.
  rewrite !or_else_idem. reflexivity.
Qed.

(** ** Decimal numerals *)

Lemma digits_value_of_uint_acc (d : Decimal.uint) (acc : positive) :
  strconv.digits_value (Z.pos acc) (NilEmpty.string_of_uint d)
  = Some (Z.pos (Pos.of_uint_acc d acc)).
Proof.
  revert acc.
  induction d as [|d IH|d IH|d IH|d IH|d IH|d IH|d IH|d IH|d IH|d IH]; intros acc;
    [reflexivity | ..];
    cbn [NilEmpty.string_of_uint strconv.digits_value Pos.of_uint_acc];
    change (strconv.is_digit _) with true; cbv iota;
    rewrite <- IH; f_equal; simpl; lia.
Qed.

Lemma digits_value_of_uint (d : Decimal.uint) :
  strconv.digits_value 0 (NilEmpty.string_of_uint d) = Some (Z.of_N (Pos.of_uint d)).
Proof.
  induction d as [|d IH|d IH|d IH|d IH|d IH|d IH|d IH|d IH|d IH|d IH];
    [reflexivity | exact IH | ..];
    cbn [NilEmpty.string_of_uint strconv.digits_value Pos.of_uint];
    change (strconv.is_digit _) with true; cbv iota;
    exact (digits_value_of_uint_acc d _).
Qed.

Lemma FormatInt_numeral (z : Z) :
  (0 <= z)%Z ->
  exists d, d <> Decimal.Nil
            /\ strconv.FormatInt z = NilEmpty.string_of_uint d
            /\ Z.of_N (Pos.of_uint d) = z.
Proof.
  intros Hz. destruct z as [|p|p]; [| |lia].
  - exists (Decimal.D0 Decimal.Nil). repeat split. discriminate.
  - exists (Pos.to_uint p). pose proof (Unsigned.to_uint_nonnil p) as Hn.
    split; [exact Hn|]. split.
    + unfold strconv.FormatInt, Z.to_int, NilZero.string_of_int, NilZero.string_of_uint.
      destruct (Pos.to_uint p); [congruence | reflexivity ..].
    + rewrite Unsigned.of_to. reflexivity.
Qed.

Lemma numeral_head (d : Decimal.uint) :
  d <> Decimal.Nil ->
  exists c s, NilEmpty.string_of_uint d = String c s /\ strconv.is_digit c = true.
Proof.
  destruct d; [congruence | ..]; intros _; eexists _, _; split; reflexivity.
Qed.

Lemma span_numeral (d : Decimal.uint) (rest : string) :
  semver.span strconv.is_digit rest = ("", rest) ->
  semver.span strconv.is_digit (NilEmpty.string_of_uint d ++ rest)
  = (NilEmpty.string_of_uint d, rest).
Proof.
  intros Hr. induction d; [exact Hr | ..];
    cbn [NilEmpty.string_of_uint String.append semver.span];
    change (strconv.is_digit _) with true; cbv iota; rewrite IHd; reflexivity.
Qed.

Lemma digit_not_sign (c : ascii) (s : string) :
  strconv.is_digit c = true ->
  strconv.ParseInt (String c s)
  = match strconv.digits_value 0 (String c s) with
    | None => inr (ErrSegment (String c s))
    | Some n =>
        if ((- 2 ^ 63 <=? n) && (n <=? 2 ^ 63 - 1))%Z then inl n
        else inr (ErrSegment (String c s))
    end.
Proof.
  destruct c as [[|] [|] [|] [|] [|] [|] [|] [|]]; try discriminate; reflexivity.
Qed.

Lemma digit_not_v (c : ascii) (s : string) :
  strconv.is_digit c = true ->
  match String c s with String "v"%char s' => s' | _ => String c s end = String c s.
Proof.
  destruct c as [[|] [|] [|] [|] [|] [|] [|] [|]]; try discriminate; reflexivity.
Qed.

Lemma ParseInt_numeral (d : Decimal.uint) :
  d <> Decimal.Nil ->
  (Z.of_N (Pos.of_uint d) <= 2 ^ 63 - 1)%Z ->
  strconv.ParseInt (NilEmpty.string_of_uint d) = inl (Z.of_N (Pos.of_uint d)).
Proof.
  intros Hd Hmax. destruct (numeral_head d Hd) as (c & s & Hs & Hc).
  pose proof (digits_value_of_uint d) as Hval. rewrite Hs in *.
  rewrite (digit_not_sign c s Hc), Hval.
  replace ((- 2 ^ 63 <=? _) && _)%Z with true; [reflexivity|].
  symmetry. apply andb_true_iff. split; apply Z.leb_le; lia.
Qed.

(** [strconv.ParseInt] reads back what [strconv.FormatInt] writes of a
    number that is not negative. *)
Lemma ParseInt_FormatInt (z : Z) :
  (0 <= z <= 2 ^ 63 - 1)%Z -> strconv.ParseInt (strconv.FormatInt z) = inl z.
Proof.
  intros [Hz Hmax]. destruct (FormatInt_numeral z Hz) as (d & Hd & -> & Hv).
  rewrite (ParseInt_numeral d Hd); [congruence | lia].
Qed.

Lemma append_empty_r (s : string) : s ++ "" = s.
Proof. induction s as [|c s IH]; simpl; [reflexivity | f_equal; exact IH]. Qed.

Lemma numeral_nonempty (d : Decimal.uint) :
  d <> Decimal.Nil -> (NilEmpty.string_of_uint d =? "") = false.
Proof.
  intros Hd. destruct (numeral_head d Hd) as (c & s & -> & _). reflexivity.
Qed.

Lemma NewVersion_numerals (da db dc : Decimal.uint) :
  da <> Decimal.Nil -> db <> Decimal.Nil -> dc <> Decimal.Nil ->
  (Z.of_N (Pos.of_uint da) <= 2 ^ 63 - 1)%Z ->
  (Z.of_N (Pos.of_uint db) <= 2 ^ 63 - 1)%Z ->
  (Z.of_N (Pos.of_uint dc) <= 2 ^ 63 - 1)%Z ->
  let s := NilEmpty.string_of_uint da ++ "." ++ NilEmpty.string_of_uint db
           ++ "." ++ NilEmpty.string_of_uint dc in
  semver.NewVersion s
  = inl (semver.mkVersion (Z.of_N (Pos.of_uint da)) (Z.of_N (Pos.of_uint db))
           (Z.of_N (Pos.of_uint dc)) "" "" s).
Proof.
  intros Ha Hb Hc Ma Mb Mc s.
  unfold semver.NewVersion.
  assert (match s with String "v"%char s' => s' | _ => s end = s) as ->.
  { subst s. destruct (numeral_head da Ha) as (c & t & -> & Hd).
    apply (digit_not_v c _ Hd). }
  subst s.
  rewrite span_numeral by reflexivity.
  rewrite (numeral_nonempty da Ha).
  cbn [String.append semver.numeric_group].
  rewrite span_numeral by reflexivity.
  rewrite (numeral_nonempty db Hb).
  cbn [String.append semver.numeric_group].
  rewrite <- (append_empty_r (NilEmpty.string_of_uint dc)) at 1.
  rewrite span_numeral by reflexivity.
  rewrite (numeral_nonempty dc Hc).
  cbn [semver.suffix_group String.eqb negb].
  rewrite (numeral_nonempty db Hb), (numeral_nonempty dc Hc).
  rewrite !ParseInt_numeral by assumption.
  reflexivity.
Qed.

Lemma span_head (p : ascii -> bool) (s : string) (c : ascii) (a b : string) :
  semver.span p s = (String c a, b) -> p c = true.
Proof.
  destruct s as [|c' s]; simpl; [discriminate|].
  destruct (p c') eqn:Hp; [|discriminate].
  destruct (semver.span p s). intros [= <- _ _]. exact Hp.
Qed.

Lemma numeric_group_head (s : string) (c : ascii) (a b : string) :
  semver.numeric_group s = (String c a, b) -> strconv.is_digit c = true.
Proof.
  unfold semver.numeric_group.
  destruct s as [|c' s]; [discriminate|].
  destruct (Ascii.eqb_spec c' "."%char) as [-> | Hne].
  - destruct (semver.span strconv.is_digit s) as [ds rest] eqn:Hs.
    destruct (ds =? ""); [discriminate|]. intros [= -> _].
    exact (span_head _ _ _ _ _ Hs).
  - destruct c' as [[|] [|] [|] [|] [|] [|] [|] [|]]; try discriminate.
    exfalso. apply Hne. reflexivity.
Qed.

Lemma digits_value_nonneg (s : string) (acc n : Z) :
  (0 <= acc)%Z -> strconv.digits_value acc s = Some n -> (0 <= n)%Z.
Proof.
  revert acc. induction s as [|c s IH]; simpl; intros acc Hacc.
  - intros [= <-]. exact Hacc.
  - destruct (strconv.is_digit c) eqn:Hc; [|discriminate].
    apply IH. unfold strconv.is_digit in Hc.
    apply andb_true_iff in Hc. destruct Hc as [Hlo _].
    apply N.leb_le in Hlo. lia.
Qed.

Lemma ParseInt_bounds (c : ascii) (s : string) (n : Z) :
  strconv.is_digit c = true ->
  strconv.ParseInt (String c s) = inl n -> (0 <= n <= 2 ^ 63 - 1)%Z.
Proof.
  intros Hc. rewrite (digit_not_sign c s Hc).
  destruct (strconv.digits_value 0 (String c s)) as [m|] eqn:Hm; [|discriminate].
  destruct ((- 2 ^ 63 <=? m) && (m <=? 2 ^ 63 - 1))%Z eqn:Hr; [|discriminate].
  intros [= <-]. apply andb_true_iff in Hr. destruct Hr as [_ Hhi].
  apply Z.leb_le in Hhi. split; [|exact Hhi].
  apply (digits_value_nonneg (String c s) 0 m); [lia | exact Hm].
Qed.

(** The numbers of a parsed version are those of an int64 that is not
    negative. *)
Lemma NewVersion_bounds (s : string) (v : semver.Version) :
  semver.NewVersion s = inl v ->
  (0 <= semver.Major v <= 2 ^ 63 - 1)%Z
  /\ (0 <= semver.Minor v <= 2 ^ 63 - 1)%Z
  /\ (0 <= semver.Patch v <= 2 ^ 63 - 1)%Z.
Proof.
  unfold semver.NewVersion.
  destruct (semver.span strconv.is_digit _) as [m1 r1] eqn:H1.
  destruct m1 as [|c1 m1]; [discriminate|]. cbn [String.eqb].
  destruct (semver.numeric_group r1) as [m2 r2] eqn:H2.
  destruct (semver.numeric_group r2) as [m3 r3] eqn:H3.
  destruct (semver.suffix_group "-" r3) as [m5 r5].
  destruct (semver.suffix_group "+" r5) as [m8 r8].
  destruct (negb (r8 =? "")); [discriminate|].
  destruct (strconv.ParseInt (String c1 m1)) as [major|] eqn:P1; [|discriminate].
  apply ParseInt_bounds in P1; [|exact (span_head _ _ _ _ _ H1)].
  assert (forall m r r' n,
             semver.numeric_group r = (m, r') ->
             (if m =? "" then inl 0%Z else strconv.ParseInt m) = inl n ->
             (0 <= n <= 2 ^ 63 - 1)%Z) as Hgroup.
  { intros m r r' n Hg. destruct m as [|c m]; simpl.
    - intros [= <-]. lia.
    - apply ParseInt_bounds. exact (numeric_group_head _ _ _ _ Hg). }
  destruct (if m2 =? "" then _ else _) as [minor|] eqn:P2; [|discriminate].
  destruct (if m3 =? "" then _ else _) as [patch|] eqn:P3; [|discriminate].
  intros [= <-]. simpl.
  split; [exact P1|]. split; [exact (Hgroup _ _ _ _ H2 P2) | exact (Hgroup _ _ _ _ H3 P3)].
Qed.

Lemma NewVersion_FormatInt (a b c : Z) :
  (0 <= a <= 2 ^ 63 - 1)%Z -> (0 <= b <= 2 ^ 63 - 1)%Z -> (0 <= c <= 2 ^ 63 - 1)%Z ->
  let s := strconv.FormatInt a ++ "." ++ strconv.FormatInt b ++ "." ++ strconv.FormatInt c in
  semver.NewVersion s = inl (semver.mkVersion a b c "" "" s).
Proof.
  intros [Ha Ma] [Hb Mb] [Hc Mc].
  destruct (FormatInt_numeral a Ha) as (da & Na & -> & Va).
  destruct (FormatInt_numeral b Hb) as (db & Nb & -> & Vb).
  destruct (FormatInt_numeral c Hc) as (dc & Nc & -> & Vc).
  intros s. subst s.
  rewrite NewVersion_numerals by (assumption || lia).
  rewrite Va, Vb, Vc. reflexivity.
Qed.

(** X8. The [VersionOk] a successful [Normalize] leaves is itself a version
    string: the parser accepts it, reads the same major, minor and patch
    numbers back from it, and finds neither a pre-release nor a build
    suffix in it. *)
Theorem Normalize_VersionOk_parses (w w' : WixManifest) :
  Normalize w = (w', None) ->
  exists v,
    semver.NewVersion (Version w) = inl v
    /\ semver.NewVersion (VersionOk w')
       = inl (semver.mkVersion (semver.Major v) (semver.Minor v) (semver.Patch v)
                "" "" (VersionOk w')).
Proof.
  intros H.
  destruct (semver.NewVersion (Version w)) as [v | e] eqn:Hv.
  2: { rewrite (Normalize_error w e Hv) in H. discriminate. }
  exists v. split; [reflexivity|].
  destruct (Normalize_success w v Hv) as (_ & _ & Hok & _).
  rewrite H in Hok. simpl in Hok. rewrite Hok.
  destruct (NewVersion_bounds _ v Hv) as (Ba & Bb & Bc).
  exact (NewVersion_FormatInt _ _ _ Ba Bb Bc).
Qed.

Lemma Normalize_VersionOk_parses_witness :
  let w := set_Version "v1.20.3-rc1+build.7" zero_manifest in
  exists v,
    semver.NewVersion (Version w) = inl v
    /\ semver.NewVersion (VersionOk (fst (Normalize w)))
       = inl (semver.mkVersion (semver.Major v) (semver.Minor v) (semver.Patch v)
                "" "" (VersionOk (fst (Normalize w)))).
Proof.
  apply (Normalize_VersionOk_parses (set_Version "v1.20.3-rc1+build.7" zero_manifest)).
  vm_compute. reflexivity.
Defined.

Lemma Normalize_defaults_witness :
  let w := set_Choco (ChocoSpec.set_Title "The App" (Choco sample_manifest)) sample_manifest in
  let c' := Choco (fst (Normalize w)) in
  ChocoSpec.Id c' = "App" /\ ChocoSpec.Title c' = "The App"
  /\ ChocoSpec.Authors c' = "Acme" /\ ChocoSpec.Owners c' = "Acme"
  /\ ChocoSpec.Description c' = "App".
Proof.
  intros w c'.
  assert (Normalize w = (fst (Normalize w), None)) as H by (vm_compute; reflexivity).
  destruct (Normalize_defaults w (fst (Normalize w)) H) as (H1 & H2 & H3 & H4 & H5 & _).
  repeat split; assumption.
Defined.

Lemma Normalize_again_witness :
  let w1 := fst (Normalize sample_manifest) in
  Normalize w1
  = (set_Choco (ChocoSpec.set_Tags (ChocoSpec.Tags (Choco w1) ++ " admin") (Choco w1)) w1,
     None).
Proof.
  apply (Normalize_again sample_manifest). vm_compute. reflexivity.
Defined.

(** ** Path rewriting, continued *)

Section PathOutcome.

Variable Abs : string -> string * option error.
Variable Rel : string -> string -> string * option error.
Variable out : string.

(** No path both relativizes and fails. *)
Lemma relativized_no_error (d r : string) (e : error) :
  relativized Abs Rel out d r -> path_error Abs Rel out d e -> False.
Proof.
  intros (a & Ha & Hr) [H | (a' & Ha' & H)].
  - rewrite Ha in H. discriminate.
  - rewrite Ha in Ha'. injection Ha' as <-. rewrite Hr in H. discriminate.
Qed.

(** The loop over the files: what it leaves in [Files.Items] and where it
    stops.  [pre] is the part of the slice the loop has been through. *)
Lemma rewrite_files_outcome (items : list string) :
  forall (pre : list string) (w : WixManifest),
    WixFiles.Items (Files w) = (pre ++ items)%list ->
    exists l',
      length l' = length items
      /\ fst (rewrite_files Abs Rel out (length pre) items w)
         = set_Files (WixFiles.set_Items (pre ++ l') (Files w)) w
      /\ match snd (rewrite_files Abs Rel out (length pre) items w) with
         | None => Forall2 (relativized Abs Rel out) items l'
         | Some e =>
             exists done p rest,
               items = (done ++ p :: rest)%list
               /\ Forall (fun d => exists r, relativized Abs Rel out d r) done
               /\ path_error Abs Rel out p e
         end.
Proof.
  induction items as [|file items IH]; intros pre w Hw; simpl.
  - exists []. split; [reflexivity|]. split; [|constructor].
    rewrite <- Hw. destruct w as [? ? ? ? ? ? [] ? ? ? ? ?]. reflexivity.
  - destruct (Abs file) as [a [e|]] eqn:Ha.
    + exists (file :: items). split; [reflexivity|]. split.
      * simpl. rewrite <- Hw. destruct w as [? ? ? ? ? ? [] ? ? ? ? ?]. reflexivity.
      * simpl. exists [], file, items. split; [reflexivity|]. split; [constructor|].
        left. rewrite Ha. reflexivity.
    + destruct (Rel out a) as [r [e|]] eqn:Hr.
      * exists (r :: items). split; [reflexivity|]. split.
        -- simpl. rewrite Hw.
           replace (length pre) with (length pre + 0)%nat by lia.
           rewrite insert_app_r. reflexivity.
        -- simpl. exists [], file, items. split; [reflexivity|]. split; [constructor|].
           right. exists a. split; [exact Ha | rewrite Hr; reflexivity].
      * specialize (IH (pre ++ [r])%list
                       (set_Files
                          (WixFiles.set_Items (<[length pre := r]> (WixFiles.Items (Files w)))
                                              (Files w)) w)).
        rewrite length_app in IH. simpl in IH.
        replace (length pre + 1)%nat with (S (length pre)) in IH by lia.
        destruct IH as (l' & Hlen & Hfst & Hsnd).
        { rewrite Hw. replace (length pre) with (length pre + 0)%nat by lia.
          rewrite insert_app_r. simpl. rewrite <- app_assoc.
          destruct w as [? ? ? ? ? ? [] ? ? ? ? ?]. reflexivity. }
        exists (r :: l'). split; [simpl; congruence|]. split.
        -- rewrite Hfst. rewrite <- app_assoc.
           destruct w as [? ? ? ? ? ? [] ? ? ? ? ?]. reflexivity.
        -- destruct (snd (rewrite_files Abs Rel out (S (length pre)) items _)) as [e|].
           ++ destruct Hsnd as (done & p & rest & -> & Hdone & Hp).
              exists (file :: done), p, rest. split; [reflexivity|].
              split; [|exact Hp]. constructor; [|exact Hdone].
              exists r, a. auto.
           ++ constructor; [|exact Hsnd]. exists a. auto.
Qed.

(** The loop over the directories. *)
Lemma rewrite_dirs_outcome (dirs : list string) :
  forall w : WixManifest,
    exists rs,
      fst (rewrite_dirs Abs Rel out dirs w) = set_RelDirs (RelDirs w ++ rs) w
      /\ match snd (rewrite_dirs Abs Rel out dirs w) with
         | None => Forall2 (relativized Abs Rel out) dirs rs
         | Some e =>
             exists done p rest,
               dirs = (done ++ p :: rest)%list
               /\ Forall (fun d => exists r, relativized Abs Rel out d r) done
               /\ path_error Abs Rel out p e
         end.
Proof.
  induction dirs as [|d dirs IH]; intros w; simpl.
  - exists []. split; [|constructor]. rewrite app_nil_r. destruct w; reflexivity.
  - destruct (Abs d) as [a [e|]] eqn:Ha.
    + exists []. split; [rewrite app_nil_r; destruct w; reflexivity|].
      simpl. exists [], d, dirs. split; [reflexivity|]. split; [constructor|].
      left. rewrite Ha. reflexivity.
    + destruct (Rel out a) as [r [e|]] eqn:Hr.
      * exists []. split; [rewrite app_nil_r; destruct w; reflexivity|].
        simpl. exists [], d, dirs. split; [reflexivity|]. split; [constructor|].
        right. exists a. split; [exact Ha | rewrite Hr; reflexivity].
      * destruct (IH (set_RelDirs (RelDirs w ++ [r]) w)) as (rs & Hfst & Hsnd).
        exists (r :: rs). split.
        -- rewrite Hfst. destruct w; simpl. rewrite <- app_assoc. reflexivity.
        -- destruct (snd (rewrite_dirs Abs Rel out dirs _)) as [e|].
           ++ destruct Hsnd as (done & p & rest & -> & Hdone & Hp).
              exists (d :: done), p, rest. split; [reflexivity|].
              split; [|exact Hp]. constructor; [|exact Hdone].
              exists r, a. auto.
           ++ constructor; [|exact Hsnd]. exists a. auto.
Qed.

(** The loop over the shortcuts. *)
Lemma rewrite_icons_outcome (items : list WixShortcut.t) :
  forall (pre : list WixShortcut.t) (w : WixManifest),
    WixShortcuts.Items (Shortcuts w) = (pre ++ items)%list ->
    exists l',
      length l' = length items
      /\ fst (rewrite_icons Abs Rel out (length pre) items w)
         = set_Shortcuts (WixShortcuts.set_Items (pre ++ l') (Shortcuts w)) w
      /\ match snd (rewrite_icons Abs Rel out (length pre) items w) with
         | None => Forall2 (icon_relativized Abs Rel out) items l'
         | Some e =>
             exists done s rest,
               items = (done ++ s :: rest)%list
               /\ Forall (fun s0 => exists s1, icon_relativized Abs Rel out s0 s1) done
               /\ WixShortcut.Icon s <> ""
               /\ path_error Abs Rel out (WixShortcut.Icon s) e
         end.
Proof.
  induction items as [|s items IH]; intros pre w Hw; simpl.
  - exists []. split; [reflexivity|]. split; [|constructor].
    rewrite <- Hw. destruct w as [? ? ? ? ? ? ? ? ? ? [] ?]. reflexivity.
  - assert (forall (s' : WixShortcut.t) (w1 : WixManifest),
               WixShortcuts.Items (Shortcuts w1) = ((pre ++ [s']) ++ items)%list ->
               exists l',
                 length l' = length items
                 /\ fst (rewrite_icons Abs Rel out (S (length pre)) items w1)
                    = set_Shortcuts
                        (WixShortcuts.set_Items ((pre ++ [s']) ++ l') (Shortcuts w1)) w1
                 /\ match snd (rewrite_icons Abs Rel out (S (length pre)) items w1) with
                    | None => Forall2 (icon_relativized Abs Rel out) items l'
                    | Some e =>
                        exists done s0 rest,
                          items = (done ++ s0 :: rest)%list
                          /\ Forall (fun s0 => exists s1, icon_relativized Abs Rel out s0 s1)
                               done
                          /\ WixShortcut.Icon s0 <> ""
                          /\ path_error Abs Rel out (WixShortcut.Icon s0) e
                    end) as IHs.
    { intros s' w1 Hw1. specialize (IH (pre ++ [s'])%list w1 Hw1).
      rewrite length_app in IH. simpl in IH.
      replace (length pre + 1)%nat with (S (length pre)) in IH by lia. exact IH. }
    clear IH.
    destruct (WixShortcut.Icon s =? "") eqn:Hicon; simpl.
    + destruct (IHs s w) as (l' & Hlen & Hfst & Hsnd).
      { rewrite Hw, <- app_assoc. reflexivity. }
      exists (s :: l'). split; [simpl; congruence|]. split.
      * rewrite Hfst, <- app_assoc. reflexivity.
      * destruct (snd (rewrite_icons Abs Rel out (S (length pre)) items w)) as [e|].
        -- destruct Hsnd as (done & s0 & rest & -> & Hdone & Hs0).
           exists (s :: done), s0, rest. split; [reflexivity|].
           split; [|exact Hs0]. constructor; [|exact Hdone].
           exists s. unfold icon_relativized. rewrite Hicon. reflexivity.
        -- constructor; [|exact Hsnd].
           unfold icon_relativized. rewrite Hicon. reflexivity.
    + assert (WixShortcut.Icon s <> "") as Hne.
      { intros Heq. rewrite Heq in Hicon. discriminate. }
      destruct (Abs (WixShortcut.Icon s)) as [a [e|]] eqn:Ha.
      * exists (s :: items). split; [reflexivity|]. split.
        -- simpl. rewrite <- Hw. destruct w as [? ? ? ? ? ? ? ? ? ? [] ?]. reflexivity.
        -- simpl. exists [], s, items. split; [reflexivity|]. split; [constructor|].
           split; [exact Hne|]. left. rewrite Ha. reflexivity.
      * assert (alter (WixShortcut.set_Icon (fst (Rel out a))) (length pre)
                      (WixShortcuts.Items (Shortcuts w))
                = (pre ++ WixShortcut.set_Icon (fst (Rel out a)) s :: items)%list) as Halter.
        { rewrite Hw. replace (length pre) with (length pre + 0)%nat by lia.
          rewrite alter_app_r. reflexivity. }
        destruct (Rel out a) as [r [e|]] eqn:Hr; simpl in Halter.
        -- exists (WixShortcut.set_Icon r s :: items). split; [reflexivity|]. split.
           ++ simpl. rewrite Halter. reflexivity.
           ++ simpl. exists [], s, items. split; [reflexivity|]. split; [constructor|].
              split; [exact Hne|]. right. exists a. split; [exact Ha | rewrite Hr; reflexivity].
        -- rewrite Halter.
           assert (icon_relativized Abs Rel out s (WixShortcut.set_Icon r s)) as Hrel.
           { unfold icon_relativized. rewrite Hicon. exists r. split; [|reflexivity].
             exists a. auto. }
           match goal with
           | |- context [rewrite_icons _ _ _ _ _ ?w1] =>
               destruct (IHs (WixShortcut.set_Icon r s) w1) as (l' & Hlen & Hfst & Hsnd)
           end.
           { destruct w as [? ? ? ? ? ? ? ? ? ? [] ?]. simpl.
             rewrite <- app_assoc. reflexivity. }
           exists (WixShortcut.set_Icon r s :: l'). split; [simpl; congruence|]. split.
           ++ rewrite Hfst, <- app_assoc.
              destruct w as [? ? ? ? ? ? ? ? ? ? [] ?]. reflexivity.
           ++ match goal with
              | |- match snd ?x with _ => _ end => destruct (snd x) as [e|]
              end.
              ** destruct Hsnd as (done & s0 & rest & -> & Hdone & Hs0).
                 exists (s :: done), s0, rest. split; [reflexivity|].
                 split; [|exact Hs0]. constructor; [|exact Hdone].
                 exists (WixShortcut.set_Icon r s). exact Hrel.
              ** constructor; [exact Hrel | exact Hsnd].
Qed.

Lemma Forall2_relativizable (ds rs : list string) :
  Forall2 (relativized Abs Rel out) ds rs ->
  Forall (fun d => exists r, relativized Abs Rel out d r) ds.
Proof.
  induction 1 as [|d r ds rs Hd _ IH]; constructor; [exists r; exact Hd | exact IH].
Qed.

Lemma icons_relativizable (items : list WixShortcut.t) :
  Forall (fun s0 => exists s1, icon_relativized Abs Rel out s0 s1) items ->
  Forall (fun d => exists r, relativized Abs Rel out d r)
         (List.filter (fun p => negb (p =? "")) (map WixShortcut.Icon items)).
Proof.
  induction 1 as [|s items [s1 Hs] _ IH]; simpl; [constructor|].
  unfold icon_relativized in Hs.
  destruct (WixShortcut.Icon s =? ""); simpl; [exact IH|].
  constructor; [|exact IH]. destruct Hs as (r & Hr & _). exists r. exact Hr.
Qed.

(** One call, whatever its outcome: what it leaves in the manifest, and
    the path it stopped at when it failed. *)
Lemma RewriteFilePaths_outcome (w : WixManifest) :
  exists (fs rs : list string) (ss : list WixShortcut.t),
    length fs = length (WixFiles.Items (Files w))
    /\ length ss = length (WixShortcuts.Items (Shortcuts w))
    /\ fst (RewriteFilePaths Abs Rel out w)
       = set_Files (WixFiles.set_Items fs (Files w))
           (set_RelDirs (RelDirs w ++ rs)
              (set_Shortcuts (WixShortcuts.set_Items ss (Shortcuts w)) w))
    /\ match snd (RewriteFilePaths Abs Rel out w) with
       | None =>
           Forall2 (relativized Abs Rel out) (WixFiles.Items (Files w)) fs
           /\ Forall2 (relativized Abs Rel out) (Directories w) rs
           /\ Forall2 (icon_relativized Abs Rel out) (WixShortcuts.Items (Shortcuts w)) ss
       | Some e =>
           exists done p rest,
             rewritten_paths w = (done ++ p :: rest)%list
             /\ Forall (fun d => exists r, relativized Abs Rel out d r) done
             /\ path_error Abs Rel out p e
       end.
Proof.
  unfold RewriteFilePaths, rewritten_paths.
  destruct (rewrite_files_outcome (WixFiles.Items (Files w)) [] w eq_refl)
    as (fs & Hfs & H1 & E1).
  simpl in H1, E1.
  destruct (rewrite_files Abs Rel out 0 (WixFiles.Items (Files w)) w) as [w1 [e|]];
    simpl in H1, E1; subst w1.
  { exists fs, [], (WixShortcuts.Items (Shortcuts w)).
    split; [exact Hfs|]. split; [reflexivity|]. split.
    - simpl. rewrite app_nil_r.
      destruct w as [? ? ? ? ? ? [] ? ? ? [] ?]. reflexivity.
    - simpl. destruct E1 as (done & p & rest & -> & Hdone & Hp).
      exists done, p, (rest ++ Directories w
                       ++ List.filter (fun p => negb (p =? ""))
                            (map WixShortcut.Icon (WixShortcuts.Items (Shortcuts w))))%list.
      split; [|split; assumption]. rewrite <- app_assoc. reflexivity. }
  pose proof (Forall2_relativizable _ _ E1) as F1.
  set (w1 := set_Files (WixFiles.set_Items fs (Files w)) w).
  assert (Directories w1 = Directories w) as Hd1 by (destruct w; reflexivity).
  assert (RelDirs w1 = RelDirs w) as Hr1 by (destruct w; reflexivity).
  assert (Shortcuts w1 = Shortcuts w) as Hs1 by (destruct w; reflexivity).
  destruct (rewrite_dirs_outcome (Directories w1) w1) as (rs & H2 & E2).
  rewrite Hd1 in H2, E2 |- *. rewrite Hr1 in H2.
  destruct (rewrite_dirs Abs Rel out (Directories w) w1) as [w2 [e|]];
    simpl in H2, E2; subst w2.
  { exists fs, rs, (WixShortcuts.Items (Shortcuts w)).
    split; [exact Hfs|]. split; [reflexivity|]. split.
    - simpl. subst w1. destruct w as [? ? ? ? ? ? [] ? ? ? [] ?]. reflexivity.
    - simpl. destruct E2 as (done & p & rest & -> & Hdone & Hp).
      exists (WixFiles.Items (Files w) ++ done)%list, p,
        (rest ++ List.filter (fun p => negb (p =? ""))
                   (map WixShortcut.Icon (WixShortcuts.Items (Shortcuts w))))%list.
      split; [|split; [apply Forall_app; split; assumption | exact Hp]].
      rewrite <- !app_assoc. reflexivity. }
  pose proof (Forall2_relativizable _ _ E2) as F2.
  set (w2 := set_RelDirs (RelDirs w ++ rs) w1).
  assert (Shortcuts w2 = Shortcuts w) as Hs2 by (destruct w; reflexivity).
  destruct (rewrite_icons_outcome (WixShortcuts.Items (Shortcuts w2)) [] w2 eq_refl)
    as (ss & Hss & H3 & E3).
  simpl in H3, E3. rewrite Hs2 in H3, E3, Hss |- *.
  destruct (rewrite_icons Abs Rel out 0 (WixShortcuts.Items (Shortcuts w)) w2)
    as [w3 [e|]]; simpl in H3, E3; subst w3.
  { exists fs, rs, ss.
    split; [exact Hfs|]. split; [exact Hss|]. split.
    - simpl. subst w2 w1. destruct w as [? ? ? ? ? ? [] ? ? ? [] ?]. reflexivity.
    - simpl. destruct E3 as (done & s & rest & -> & Hdone & Hne & Hp).
      exists (WixFiles.Items (Files w) ++ Directories w
              ++ List.filter (fun p => negb (p =? "")) (map WixShortcut.Icon done))%list,
        (WixShortcut.Icon s),
        (List.filter (fun p => negb (p =? "")) (map WixShortcut.Icon rest)).
      split; [|split; [|exact Hp]].
      + rewrite map_app, List.filter_app. simpl.
        destruct (WixShortcut.Icon s =? "") eqn:Hi.
        * apply String.eqb_eq in Hi. contradiction.
        * simpl. rewrite <- !app_assoc. reflexivity.
      + apply Forall_app. split; [exact F1|]. apply Forall_app. split; [exact F2|].
        apply icons_relativizable. exact Hdone. }
  exists fs, rs, ss.
  split; [exact Hfs|]. split; [exact Hss|]. split.
  - simpl. subst w2 w1. destruct w as [? ? ? ? ? ? [] ? ? ? [] ?]. reflexivity.
  - simpl. auto.
Qed.

End PathOutcome.

(** X9. A successful call of [RewriteFilePaths] has replaced every entry of
    [Files.Items] by its output-relative form, entry by entry and in order,
    and has left [Files.Guid] alone. *)
Theorem RewriteFilePaths_files
        (Abs : string -> string * option error)
        (Rel : string -> string -> string * option error)
        (out : string) (w w' : WixManifest) :
  RewriteFilePaths Abs Rel out w = (w', None) ->
  WixFiles.Guid (Files w') = WixFiles.Guid (Files w)
  /\ Forall2 (relativized Abs Rel out) (WixFiles.Items (Files w)) (WixFiles.Items (Files w')).
Proof.
  intros H.
  destruct (RewriteFilePaths_outcome Abs Rel out w) as (fs & rs & ss & _ & _ & Hw & E).
  rewrite H in Hw, E. simpl in Hw, E. destruct E as (E & _). subst w'.
  destruct w as [? ? ? ? ? ? [] ? ? ? [] ?]. simpl in *. split; [reflexivity | exact E].
Qed.

(** X10. A successful call of [RewriteFilePaths] has replaced the icon of
    every shortcut that has one by its output-relative form; a shortcut
    with no icon, the other fields of a shortcut and [Shortcuts.Guid] are
    left as they were. *)
Theorem RewriteFilePaths_icons
        (Abs : string -> string * option error)
        (Rel : string -> string -> string * option error)
        (out : string) (w w' : WixManifest) :
  RewriteFilePaths Abs Rel out w = (w', None) ->
  WixShortcuts.Guid (Shortcuts w') = WixShortcuts.Guid (Shortcuts w)
  /\ Forall2 (icon_relativized Abs Rel out)
       (WixShortcuts.Items (Shortcuts w)) (WixShortcuts.Items (Shortcuts w')).
Proof.
  intros H.
  destruct (RewriteFilePaths_outcome Abs Rel out w) as (fs & rs & ss & _ & _ & Hw & E).
  rewrite H in Hw, E. simpl in Hw, E. destruct E as (_ & _ & E). subst w'.
  destruct w as [? ? ? ? ? ? [] ? ? ? [] ?]. simpl in *. split; [reflexivity | exact E].
Qed.

(** X11. Whether it fails or not, [RewriteFilePaths] changes nothing but
    the entries of [Files.Items], the list [RelDirs] and the entries of
    [Shortcuts.Items]: the two item lists keep their lengths, [RelDirs] is
    only extended, the identifiers are kept, and [NeedGuid] answers as
    before the call. *)
Theorem RewriteFilePaths_frame
        (Abs : string -> string * option error)
        (Rel : string -> string -> string * option error)
        (out : string) (w : WixManifest) :
  let '(w', _) := RewriteFilePaths Abs Rel out w in
  set_Files (Files w) (set_RelDirs (RelDirs w) (set_Shortcuts (Shortcuts w) w')) = w
  /\ WixFiles.Guid (Files w') = WixFiles.Guid (Files w)
  /\ length (WixFiles.Items (Files w')) = length (WixFiles.Items (Files w))
  /\ WixShortcuts.Guid (Shortcuts w') = WixShortcuts.Guid (Shortcuts w)
  /\ length (WixShortcuts.Items (Shortcuts w')) = length (WixShortcuts.Items (Shortcuts w))
  /\ (exists rs, RelDirs w' = (RelDirs w ++ rs)%list)
  /\ NeedGuid w' = NeedGuid w.
Proof.
  destruct (RewriteFilePaths_outcome Abs Rel out w) as (fs & rs & ss & Hfs & Hss & Hw & _).
  destruct (RewriteFilePaths Abs Rel out w) as [w' err]. simpl in Hw. subst w'.
  destruct w as [? ? ? ? ? ? [] ? ? ? [] ?]. simpl in *.
  repeat split; try assumption.
  - exists rs. reflexivity.
  - unfold NeedGuid. simpl. rewrite Hss. reflexivity.
Qed.

(** X12. [RewriteFilePaths] succeeds exactly when every path it handles
    (the files, the directories, the icons that are not empty) can be put
    in output-relative form; when it fails, the error is that of the first
    path, in that order, on which a path call fails. *)
Theorem RewriteFilePaths_first_failure
        (Abs : string -> string * option error)
        (Rel : string -> string -> string * option error)
        (out : string) (w : WixManifest) :
  match snd (RewriteFilePaths Abs Rel out w) with
  | None => Forall (fun d => exists r, relativized Abs Rel out d r) (rewritten_paths w)
  | Some e =>
      exists done p rest,
        rewritten_paths w = (done ++ p :: rest)%list
        /\ Forall (fun d => exists r, relativized Abs Rel out d r) done
        /\ path_error Abs Rel out p e
        /\ forall r, relativized Abs Rel out p r -> False
  end.
Proof.
  destruct (RewriteFilePaths_outcome Abs Rel out w) as (fs & rs & ss & _ & _ & _ & E).
  destruct (snd (RewriteFilePaths Abs Rel out w)) as [e|].
  - destruct E as (done & p & rest & Hp & Hdone & He).
    exists done, p, rest. repeat split; try assumption.
    intros r Hr. exact (relativized_no_error Abs Rel out p r e Hr He).
  - destruct E as (E1 & E2 & E3). unfold rewritten_paths.
    apply Forall_app. split; [exact (Forall2_relativizable Abs Rel out _ _ E1)|].
    apply Forall_app. split; [exact (Forall2_relativizable Abs Rel out _ _ E2)|].
    apply icons_relativizable.
    clear - E3. induction E3 as [|s s' l l' Hs _ IH]; constructor; [exists s'; exact Hs | exact IH].
Qed.

Lemma RewriteFilePaths_files_witness :
  let w' := fst (RewriteFilePaths sample_Abs sample_Rel "/build/out" sample_manifest) in
  WixFiles.Guid (Files w') = WixFiles.Guid (Files sample_manifest)
  /\ Forall2 (relativized sample_Abs sample_Rel "/build/out")
       (WixFiles.Items (Files sample_manifest)) (WixFiles.Items (Files w')).
Proof.
  apply (RewriteFilePaths_files sample_Abs sample_Rel "/build/out" sample_manifest).
  vm_compute. reflexivity.
Defined.

Lemma RewriteFilePaths_icons_witness :
  let w' := fst (RewriteFilePaths sample_Abs sample_Rel "/build/out" sample_manifest) in
  WixShortcuts.Guid (Shortcuts w') = WixShortcuts.Guid (Shortcuts sample_manifest)
  /\ Forall2 (icon_relativized sample_Abs sample_Rel "/build/out")
       (WixShortcuts.Items (Shortcuts sample_manifest)) (WixShortcuts.Items (Shortcuts w')).
Proof.
  apply (RewriteFilePaths_icons sample_Abs sample_Rel "/build/out" sample_manifest).
  vm_compute. reflexivity.
Defined.

(** ** Persistence, continued *)

(** ** Strings as they are written *)

(** Coercion keeps an empty string empty and no other. *)
Lemma coerced_empty (s : string) : (json.coerced s =? "") = (s =? "").
Proof.
  destruct s as [|c s]; [reflexivity|].
  unfold json.coerced. cbn [json.coerced_from].
  destruct (utf8.DecodeRuneInString (String c s)); reflexivity.
Qed.

Lemma coerced_ascii (s : string) : ascii_only s = true -> json.coerced s = s.
Proof.
  unfold json.coerced. induction s as [|c s IH]; [reflexivity|].
  cbn [ascii_only]. intros H. apply andb_true_iff in H. destruct H as [Hc Hs].
  cbn [json.coerced_from utf8.DecodeRuneInString]. rewrite Hc. cbn.
  rewrite (IH Hs). reflexivity.
Qed.

(** The bytes after the head of a rune are passed on as they are. *)
Lemma coerced_from_skip (pre rest : string) :
  json.coerced_from (String.length pre) (pre ++ rest) = pre ++ json.coerced rest.
Proof.
  induction pre as [|c pre IH]; simpl.
  - destruct rest; reflexivity.
  - rewrite IH. reflexivity.
Qed.

(** A well-formed encoding is the head byte and as many bytes as its
    length says, whatever comes after them. *)
Lemma DecodeRune_prefix (c : ascii) (s : string) (size : nat) :
  utf8.DecodeRuneInString (String c s) = Some size ->
  exists pre rest,
    s = pre ++ rest /\ S (String.length pre) = size
    /\ forall t, utf8.DecodeRuneInString (String c (pre ++ t)) = Some size.
Proof.
  unfold utf8.DecodeRuneInString.
  destruct (N_of_ascii c <? 128)%N.
  { intros [= <-]. exists "", s. repeat split. }
  destruct (N_of_ascii c <? 194)%N; [discriminate|].
  destruct (N_of_ascii c <? 224)%N.
  { destruct s as [|c1 s]; [discriminate|].
    destruct (utf8.between 128 191 c1) eqn:H1; [|discriminate].
    intros [= <-]. exists (String c1 ""), s. split; [reflexivity|].
    split; [reflexivity|]. intros t. simpl. rewrite H1. reflexivity. }
  destruct (N_of_ascii c <? 240)%N.
  { destruct s as [|c1 [|c2 s]]; try discriminate.
    match goal with
    | |- (if ?b then _ else _) = _ -> _ => destruct b eqn:H1; [|discriminate]
    end.
    intros [= <-]. exists (String c1 (String c2 "")), s. split; [reflexivity|].
    split; [reflexivity|]. intros t. simpl. rewrite H1. reflexivity. }
  destruct (N_of_ascii c <? 245)%N; [|discriminate].
  destruct s as [|c1 [|c2 [|c3 s]]]; try discriminate.
  match goal with
  | |- (if ?b then _ else _) = _ -> _ => destruct b eqn:H1; [|discriminate]
  end.
  intros [= <-]. exists (String c1 (String c2 (String c3 ""))), s. split; [reflexivity|].
  split; [reflexivity|]. intros t. simpl. rewrite H1. reflexivity.
Qed.

Lemma coerced_String (c : ascii) (s : string) :
  (exists pre rest,
      s = pre ++ rest
      /\ forall t, json.coerced (String c (pre ++ t)) = String c (pre ++ json.coerced t))
  \/ json.coerced (String c s) = utf8.RuneError ++ json.coerced s.
Proof.
  destruct (utf8.DecodeRuneInString (String c s)) as [size|] eqn:Hd.
  - left. destruct (DecodeRune_prefix c s size Hd) as (pre & rest & -> & <- & Hall).
    exists pre, rest. split; [reflexivity|].
    intros t. unfold json.coerced at 1. cbn [json.coerced_from].
    rewrite Hall. cbn [Nat.sub]. rewrite Nat.sub_0_r, coerced_from_skip. reflexivity.
  - right. unfold json.coerced at 1. cbn [json.coerced_from]. rewrite Hd. reflexivity.
Qed.

Lemma coerced_RuneError (t : string) :
  json.coerced (utf8.RuneError ++ t) = utf8.RuneError ++ json.coerced t.
Proof. destruct t; reflexivity. Qed.

Lemma length_append (a b : string) :
  String.length (a ++ b) = (String.length a + String.length b)%nat.
Proof. induction a as [|c a IH]; simpl; [reflexivity | rewrite IH; reflexivity]. Qed.

(** What has been coerced is valid: coercing it again changes nothing. *)
Lemma coerced_idem (s : string) : json.coerced (json.coerced s) = json.coerced s.
Proof.
  remember (String.length s) as n eqn:Hn. revert s Hn.
  induction n as [n IH] using lt_wf_ind. intros s Hn.
  destruct s as [|c s]; [reflexivity|].
  destruct (coerced_String c s) as [(pre & rest & -> & Hall) | Hc].
  - rewrite !Hall. rewrite (IH (String.length rest)); [reflexivity | | reflexivity].
    subst n. simpl. rewrite length_append. lia.
  - rewrite Hc, coerced_RuneError.
    rewrite (IH (String.length s)); [reflexivity | | reflexivity].
    subst n. simpl. lia.
Qed.

(** A character of two bytes and one of four stay; a head byte without
    its continuation, an overlong form and a surrogate are replaced byte
    by byte; the replacement character itself stays. *)
Example coerced_samples :
  let b := fun n : N => String (ascii_of_N n) "" in
  json.coerced ("caf" ++ b 195%N ++ b 169%N) = "caf" ++ b 195%N ++ b 169%N
  /\ json.coerced (b 240%N ++ b 159%N ++ b 152%N ++ b 128%N) = b 240%N ++ b 159%N ++ b 152%N ++ b 128%N
  /\ json.coerced (b 195%N ++ "x") = utf8.RuneError ++ "x"
  /\ json.coerced (b 224%N ++ b 128%N ++ b 128%N)
     = utf8.RuneError ++ utf8.RuneError ++ utf8.RuneError
  /\ json.coerced (b 237%N ++ b 160%N ++ b 128%N)
     = utf8.RuneError ++ utf8.RuneError ++ utf8.RuneError
  /\ json.coerced utf8.RuneError = utf8.RuneError.
Proof. vm_compute. repeat split. Qed.

(** *** Version strings are ASCII *)

Lemma span_ascii (p : ascii -> bool) (s : string) :
  (forall c, p c = true -> (N_of_ascii c <? 128)%N = true) ->
  ascii_only (snd (semver.span p s)) = true -> ascii_only s = true.
Proof.
  intros Hp. induction s as [|c s IH]; simpl; [reflexivity|].
  destruct (p c) eqn:Hc; [|exact (fun H => H)].
  destruct (semver.span p s) as [a b]. simpl in *. intros H.
  rewrite (Hp c Hc), (IH H). reflexivity.
Qed.

Lemma is_digit_ascii (c : ascii) :
  strconv.is_digit c = true -> (N_of_ascii c <? 128)%N = true.
Proof.
  unfold strconv.is_digit. intros H. apply andb_true_iff in H. destruct H as [_ H].
  apply N.leb_le in H. apply N.ltb_lt. lia.
Qed.

Lemma is_ident_ascii (c : ascii) :
  semver.is_ident c = true -> (N_of_ascii c <? 128)%N = true.
Proof.
  unfold semver.is_ident. cbv zeta. intros H. apply N.ltb_lt.
  repeat (apply orb_true_iff in H; destruct H as [H | H]);
    try (apply andb_true_iff in H; destruct H as [_ H]; apply N.leb_le in H; lia).
  apply N.eqb_eq in H. lia.
Qed.

Lemma eqb_ascii (c' c : ascii) (s : string) :
  Ascii.eqb c' c = true -> (N_of_ascii c <? 128)%N = true ->
  ascii_only s = true -> ascii_only (String c' s) = true.
Proof.
  intros He Hc Hs. apply Ascii.eqb_eq in He. subst c'. simpl. rewrite Hc, Hs. reflexivity.
Qed.

Lemma numeric_group_ascii (s : string) :
  ascii_only (snd (semver.numeric_group s)) = true -> ascii_only s = true.
Proof.
  unfold semver.numeric_group. destruct s as [|c s]; [reflexivity|].
  destruct (Ascii.eqb c ".") eqn:Hc.
  - pose proof Hc as He. apply Ascii.eqb_eq in He. subst c.
    pose proof (span_ascii strconv.is_digit s is_digit_ascii) as Hs.
    destruct (semver.span strconv.is_digit s) as [ds rest]. simpl in Hs.
    destruct (ds =? ""); [exact (fun H => H)|]. simpl. intros H.
    apply Hs. exact H.
  - destruct c as [[|] [|] [|] [|] [|] [|] [|] [|]]; try exact (fun H => H).
    discriminate.
Qed.

Lemma dotted_ascii (fuel : nat) :
  forall s, ascii_only (snd (semver.dotted fuel s)) = true -> ascii_only s = true.
Proof.
  induction fuel as [|fuel IH]; intros s; simpl; [exact (fun H => H)|].
  destruct s as [|c s]; [reflexivity|].
  destruct (Ascii.eqb c ".") eqn:Hc.
  - pose proof Hc as He. apply Ascii.eqb_eq in He. subst c.
    pose proof (span_ascii semver.is_ident s is_ident_ascii) as Hs.
    destruct (semver.span semver.is_ident s) as [a rest]. simpl in Hs.
    destruct (a =? ""); [exact (fun H => H)|].
    specialize (IH rest). destruct (semver.dotted fuel rest) as [m rest'].
    simpl in IH |- *. intros H. apply Hs, IH, H.
  - destruct c as [[|] [|] [|] [|] [|] [|] [|] [|]]; try exact (fun H => H).
    discriminate.
Qed.

Lemma suffix_group_ascii (c : ascii) (s : string) :
  (N_of_ascii c <? 128)%N = true ->
  ascii_only (snd (semver.suffix_group c s)) = true -> ascii_only s = true.
Proof.
  intros Hc. unfold semver.suffix_group. destruct s as [|c' s]; [reflexivity|].
  destruct (Ascii.eqb c' c) eqn:He; [|exact (fun H => H)].
  pose proof (span_ascii semver.is_ident s is_ident_ascii) as Hs.
  destruct (semver.span semver.is_ident s) as [a rest]. simpl in Hs.
  destruct (a =? ""); [exact (fun H => H)|].
  pose proof (dotted_ascii (String.length rest) rest) as Hd.
  destruct (semver.dotted (String.length rest) rest) as [m rest']. simpl in Hd |- *.
  intros H. apply (eqb_ascii c' c s He Hc). apply Hs, Hd, H.
Qed.

(** A string that parses as a version holds ASCII characters only. *)
Lemma NewVersion_ascii (v : string) (x : semver.Version) :
  semver.NewVersion v = inl x -> ascii_only v = true.
Proof.
  unfold semver.NewVersion.
  set (s0 := match v with String "v"%char s' => s' | _ => v end).
  assert (ascii_only s0 = true -> ascii_only v = true) as Hv.
  { subst s0. destruct v as [|c v]; [reflexivity|].
    destruct c as [[|] [|] [|] [|] [|] [|] [|] [|]]; exact (fun H => H). }
  pose proof (span_ascii strconv.is_digit s0 is_digit_ascii) as H1.
  destruct (semver.span strconv.is_digit s0) as [m1 r1]. simpl in H1.
  destruct (m1 =? ""); [discriminate|].
  pose proof (numeric_group_ascii r1) as H2.
  destruct (semver.numeric_group r1) as [m2 r2]. simpl in H2.
  pose proof (numeric_group_ascii r2) as H3.
  destruct (semver.numeric_group r2) as [m3 r3]. simpl in H3.
  pose proof (suffix_group_ascii "-" r3 eq_refl) as H5.
  destruct (semver.suffix_group "-" r3) as [m5 r5]. simpl in H5.
  pose proof (suffix_group_ascii "+" r5 eq_refl) as H8.
  destruct (semver.suffix_group "+" r5) as [m8 r8]. simpl in H8.
  destruct (r8 =? "") eqn:Hr; [|discriminate]. simpl.
  apply String.eqb_eq in Hr. subst r8. intros _.
  apply Hv, H1, H2, H3, H5, H8. reflexivity.
Qed.

(** *** The errors of decoding *)

Lemma first_error_type (e1 e2 : option error) :
  type_error e1 -> type_error e2 -> type_error (json.first_error e1 e2).
Proof. destruct e1; simpl; auto. Qed.

Lemma into_string_type (field : string) (v : json.value) (old : string) :
  type_error (snd (json.into_string field v old)).
Proof. destruct v; exact I. Qed.

Lemma into_bool_type (field : string) (v : json.value) (old : bool) :
  type_error (snd (json.into_bool field v old)).
Proof. destruct v; exact I. Qed.

Lemma into_slice_type {A : Type} (zero : A) (elem : json.decoder A) (field : string)
      (v : json.value) (old : list A) :
  (forall x o, type_error (snd (elem x o))) ->
  type_error (snd (json.into_slice zero elem field v old)).
Proof.
  intros Helem. destruct v; try exact I. unfold json.into_slice.
  assert (forall acc, type_error (snd acc) ->
                      type_error
                        (snd (fold_left
                                (fun acc x =>
                                   let '(l, e) := acc in
                                   let '(y, e') := elem x (nth (length l) old zero) in
                                   ((l ++ [y])%list, json.first_error e e'))
                                elems acc))) as H.
  { induction elems as [|x elems IH]; intros [l e] He; simpl; [exact He|].
    specialize (Helem x (nth (length l) old zero)).
    destruct (elem x (nth (length l) old zero)) as [y e']. apply IH. simpl.
    apply first_error_type; assumption. }
  apply H. exact I.
Qed.

Lemma into_struct_type {A : Type} (F : list (json.field A)) (name : string)
      (v : json.value) (old : A) :
  (forall f v' x, In f F -> type_error (snd (snd f v' x))) ->
  type_error (snd (json.into_struct F name v old)).
Proof.
  intros HF. destruct v; try exact I. unfold json.into_struct.
  assert (forall acc, type_error (snd acc) ->
                      type_error (snd (fold_left (json.assign F) members acc))) as H.
  { induction members as [|kv members IH]; intros [x e] He; simpl; [exact He|].
    apply IH. destruct (json.find_field F (fst kv)) as [f|] eqn:Hfind; [|exact He].
    apply find_field_spec in Hfind. destruct Hfind as [Hin _].
    specialize (HF f (snd kv) x Hin).
    destruct (snd f (snd kv) x) as [x' e']. simpl.
    apply first_error_type; assumption. }
  apply H. exact I.
Qed.

Lemma mk_field_type {A B : Type} (key : string) (into : string -> json.decoder B)
      (get : A -> B) (set : B -> A -> A) (v : json.value) (x : A) :
  (forall o, type_error (snd (into key v o))) ->
  type_error (snd (snd (json.mk_field key into get set) v x)).
Proof.
  intros H. unfold json.mk_field; simpl. specialize (H (get x)).
  destruct (into key v (get x)) as [y e]. exact H.
Qed.

Ltac field_types H :=
  simpl in H;
  repeat (destruct H as [<- | H]); try contradiction;
  apply mk_field_type; intros ?;
  first [ apply into_string_type | apply into_bool_type
        | apply into_slice_type; intros; apply into_string_type ].

Lemma Unmarshal_type (doc : json.value) (r : WixManifest) :
  type_error (snd (json.into_struct fields_WixManifest "WixManifest" doc r)).
Proof.
  assert (forall name v o,
             type_error (snd (json.into_struct fields_WixEnv name v o))) as Henv.
  { intros. apply into_struct_type. intros f v' x Hin. field_types Hin. }
  assert (forall name v o,
             type_error (snd (json.into_struct fields_WixShortcut name v o))) as Hsc.
  { intros. apply into_struct_type. intros f v' x Hin. field_types Hin. }
  apply into_struct_type. intros f v' x Hin. simpl in Hin.
  repeat (destruct Hin as [<- | Hin]); try contradiction;
    apply mk_field_type; intros ?;
    try apply into_string_type;
    try (apply into_slice_type; intros; apply into_string_type);
    apply into_struct_type; intros f' v'' x' Hin'; simpl in Hin';
    repeat (destruct Hin' as [<- | Hin']); try contradiction;
    apply mk_field_type; intros ?;
    first [ apply into_string_type | apply into_bool_type
          | apply into_slice_type; intros; apply into_string_type
          | apply into_slice_type; intros; apply Henv
          | apply into_slice_type; intros; apply Hsc ].
Qed.

(** X13. The outcomes of [Load].  It succeeds only when [os.Stat] does
    not answer that the file is missing and [ioutil.ReadFile] gives a JSON
    text, and then it is what decoding that document gives.  Its error
    tells the cause: it is the not-exist error of [os.Stat], or the error
    of [ioutil.ReadFile], or a syntax error on a content that is not a
    JSON text -- the manifest is untouched in these three cases -- or the
    error of a value of the wrong kind in a document that was decoded.  No
    other error comes out of it. *)
Theorem Load_outcome (sys : System) (p : string) (r : WixManifest) (fs : FS sys) :
  let q := default_path p in
  let found := IsNotExist (Stat sys q fs) = false in
  let untouched := fst (Load sys p r fs) = r in
  let decoded :=
    exists doc, ReadFile sys q fs = inl (JSONText doc)
                /\ Load sys p r fs = json.into_struct fields_WixManifest "WixManifest" doc r in
  match snd (Load sys p r fs) with
  | None => found /\ decoded
  | Some e =>
      (Stat sys q fs = Some e /\ IsNotExist (Some e) = true /\ untouched)
      \/ (found /\ ReadFile sys q fs = inr e /\ untouched)
      \/ (found /\ e = ErrSyntax /\ (exists raw, ReadFile sys q fs = inl (NotJSON raw))
          /\ untouched)
      \/ (found /\ (exists field, e = ErrUnmarshalType field) /\ decoded)
  end.
Proof.
  intros q found untouched decoded. subst q found untouched decoded.
  unfold Load. fold (default_path p).
  destruct (IsNotExist (Stat sys (default_path p) fs)) eqn:Hs.
  { simpl. destruct (Stat sys (default_path p) fs) as [e|] eqn:He; [|discriminate].
    left. auto. }
  destruct (ReadFile sys (default_path p) fs) as [[doc | raw] | e] eqn:Hr; simpl.
  - pose proof (Unmarshal_type doc r) as Ht.
    destruct (json.into_struct fields_WixManifest "WixManifest" doc r) as [w' [e|]]
      eqn:Hdec; simpl in Ht |- *.
    + right. right. right. split; [reflexivity|]. split.
      * destruct e; try contradiction. eexists. reflexivity.
      * exists doc. rewrite Hdec. split; reflexivity.
    + split; [reflexivity|]. exists doc. rewrite Hdec. split; reflexivity.
  - right. right. left. split; [reflexivity|]. split; [reflexivity|].
    split; [exists raw; reflexivity | reflexivity].
  - right. left. auto.
Qed.

(** After a [Write], on a system that gives back what was written, [Load]
    into an empty manifest gives the manifest as it was written. *)
Lemma Write_then_Load (sys : System) (p : string) (w : WixManifest) (fs fs' : FS sys) :
  Write sys p w fs = (None, fs') ->
  gives_back sys (default_path p) fs fs' ->
  Load sys p zero_manifest fs' = (restore (coerced_WixManifest w) zero_manifest, None).
Proof.
  intros Hwrite Hsys. pose proof (Hsys _ (Write_success sys p w fs fs' Hwrite)) as Hback.
  rewrite (Load_document sys p zero_manifest fs' _ Hback).
  apply decode_WixManifest. apply keeps_omitted_zero.
Qed.

Lemma NeedGuid_coerced (w old : WixManifest) :
  NeedGuid (restore (coerced_WixManifest w) old) = NeedGuid w.
Proof.
  destruct w as [? ? ? ? ? ? [] ? ? [] [] ?]. unfold NeedGuid. simpl.
  rewrite !coerced_empty, !length_map. reflexivity.
Qed.

(** X16. Identifiers survive persistence: take a manifest written with
    [Write] on a system that gives back the document that was written; the
    manifest [Load] restores from it into an empty manifest needs an
    identifier exactly when the manifest that was written did.  So after a
    [SetGuids] that returned no error, with a generator that hands back no
    empty string, then [Write] and [Load], [NeedGuid] answers false. *)
Theorem Write_Load_NeedGuid (sys : System) (p : string) (w : WixManifest)
        (fs fs' : FS sys) :
  Write sys p w fs = (None, fs') ->
  gives_back sys (default_path p) fs fs' ->
  snd (Load sys p zero_manifest fs') = None
  /\ NeedGuid (fst (Load sys p zero_manifest fs')) = NeedGuid w
  /\ forall (G : Type) (Make : G -> (string * option error) * G)
            (w0 : WixManifest) (g g' : G) (changed : bool),
      (forall g0, fst (fst (Make g0)) <> "") ->
      SetGuids G Make w0 g = (changed, None, w, g') ->
      NeedGuid (fst (Load sys p zero_manifest fs')) = false.
Proof.
  intros Hwrite Hsys. rewrite (Write_then_Load sys p w fs fs' Hwrite Hsys). simpl.
  pose proof (NeedGuid_coerced w zero_manifest) as Hn.
  split; [reflexivity|]. split; [exact Hn|].
  intros G Make w0 g g' changed Hne Hrun. rewrite Hn.
  pose proof (SetGuids_outcome G Make w0 g) as Ho.
  rewrite Hrun in Ho. destruct Ho as (Hc & _ & Hall & _).
  assert (forall s, slot_missing s w = false) as Hfilled.
  { intros s. apply slot_missing_after with (w := w0); [assumption|].
    specialize (Hall s). unfold provisioned, gen_out in Hall.
    destruct (slot_missing s w0) eqn:E.
    - left. intros Hv.
      apply (Hne (gen_state G Make (calls_before s w0) g)).
      rewrite Hall. exact Hv.
    - right. split; [assumption | reflexivity]. }
  rewrite NeedGuid_slots. unfold all_slots. cbn [existsb].
  rewrite (Hfilled SlotUpgrade), (Hfilled SlotFiles), (Hfilled SlotEnv),
    (Hfilled SlotShortcuts). reflexivity.
Qed.

Lemma ascii_only_app (a b : string) :
  ascii_only (a ++ b) = ascii_only a && ascii_only b.
Proof.
  induction a as [|c a IH]; simpl; [reflexivity|].
  rewrite IH, andb_assoc. reflexivity.
Qed.

(** X17. The derived version is rebuilt, the tags pile up.  After a
    successful [Normalize] and a [Write], on a system that gives back the
    document that was written, the manifest [Load] restores into an empty
    manifest has an empty [VersionOk]; a [Normalize] of it succeeds, gives
    the [VersionOk] of the first call again, and appends [" admin"] a
    second time to the tags, which came back coerced to valid UTF-8. *)
Theorem Normalize_Write_Load (sys : System) (p : string) (w w1 : WixManifest)
        (fs fs' : FS sys) :
  Normalize w = (w1, None) ->
  Write sys p w1 fs = (None, fs') ->
  gives_back sys (default_path p) fs fs' ->
  let w2 := fst (Load sys p zero_manifest fs') in
  VersionOk w2 = ""
  /\ snd (Normalize w2) = None
  /\ VersionOk (fst (Normalize w2)) = VersionOk w1
  /\ ChocoSpec.Tags (Choco (fst (Normalize w2)))
     = json.coerced (ChocoSpec.Tags (Choco w) ++ " admin") ++ " admin"
  /\ (ascii_only (ChocoSpec.Tags (Choco w)) = true ->
      ChocoSpec.Tags (Choco (fst (Normalize w2)))
      = (ChocoSpec.Tags (Choco w) ++ " admin") ++ " admin").
Proof.
  intros Hn Hwrite Hsys w2. subst w2.
  rewrite (Write_then_Load sys p w1 fs fs' Hwrite Hsys). simpl.
  destruct (semver.NewVersion (Version w)) as [v | e] eqn:Hv.
  2: { rewrite (Normalize_error w e Hv) in Hn. discriminate. }
  destruct (Normalize_success w v Hv) as (_ & Hver & Hok & Htags).
  rewrite Hn in Hver, Hok, Htags. simpl in Hver, Hok, Htags.
  assert (semver.NewVersion (Version (restore (coerced_WixManifest w1) zero_manifest))
          = inl v) as Hv'.
  { simpl. rewrite Hver, (coerced_ascii _ (NewVersion_ascii _ _ Hv)). exact Hv. }
  destruct (Normalize_success _ v Hv') as (Hnone & _ & Hok' & Htags').
  assert (ChocoSpec.Tags (Choco (fst (Normalize (restore (coerced_WixManifest w1)
                                                        zero_manifest))))
          = json.coerced (ChocoSpec.Tags (Choco w) ++ " admin") ++ " admin") as Ht.
  { rewrite Htags'. simpl. rewrite Htags. reflexivity. }
  split; [reflexivity|]. split; [exact Hnone|]. split; [|split].
  - rewrite Hok', Hok. reflexivity.
  - exact Ht.
  - intros Hascii. rewrite Ht, coerced_ascii; [reflexivity|].
    rewrite ascii_only_app, Hascii. reflexivity.
Qed.

(** *** Writing what was read *)

Lemma str_coerced (s : string) : json.str (json.coerced s) = json.str s.
Proof. unfold json.str. rewrite coerced_idem. reflexivity. Qed.

Lemma omitempty_string_coerced (key s : string) :
  json.omitempty_string key (json.coerced s) = json.omitempty_string key s.
Proof.
  unfold json.omitempty_string. rewrite coerced_empty, str_coerced. reflexivity.
Qed.

Lemma slice_map {A : Type} (enc : A -> json.value) (back : A -> A) (l : list A) :
  (forall x, enc (back x) = enc x) ->
  json.slice enc (map back l) = json.slice enc l.
Proof.
  intros H. destruct l as [|a l]; [reflexivity|].
  unfold json.slice. cbn [map]. rewrite H. f_equal. f_equal.
  rewrite map_map. apply map_ext. exact H.
Qed.

Lemma omitempty_slice_map {A : Type} (key : string) (enc : A -> json.value)
      (back : A -> A) (l : list A) :
  (forall x, enc (back x) = enc x) ->
  json.omitempty_slice key enc (map back l) = json.omitempty_slice key enc l.
Proof.
  intros H. destruct l as [|a l]; [reflexivity|].
  unfold json.omitempty_slice. cbn [map].
  rewrite <- (slice_map enc back (a :: l) H). reflexivity.
Qed.

Lemma encode_WixEnv_coerced (x : WixEnv.t) :
  encode_WixEnv (coerced_WixEnv x) = encode_WixEnv x.
Proof. destruct x. unfold encode_WixEnv. simpl. rewrite !str_coerced. reflexivity. Qed.

Lemma encode_WixShortcut_coerced (x : WixShortcut.t) :
  encode_WixShortcut (coerced_WixShortcut x) = encode_WixShortcut x.
Proof. destruct x. unfold encode_WixShortcut. simpl. rewrite !str_coerced. reflexivity. Qed.

(** The document of a manifest that was read back from a document is
    that document. *)
Lemma encode_coerced (w : WixManifest) :
  encode_WixManifest (coerced_WixManifest w) = encode_WixManifest w.
Proof.
  destruct w as [? ? ? ? ? ? [] ? ? [] [] []].
  unfold encode_WixManifest, encode_WixFiles, encode_WixEnvList, encode_WixShortcuts,
    encode_ChocoSpec. simpl.
  rewrite !str_coerced, !omitempty_string_coerced.
  rewrite (slice_map json.str json.coerced) by apply str_coerced.
  rewrite (omitempty_slice_map _ json.str json.coerced) by apply str_coerced.
  rewrite (slice_map encode_WixEnv coerced_WixEnv) by apply encode_WixEnv_coerced.
  rewrite (omitempty_slice_map _ encode_WixShortcut coerced_WixShortcut)
    by apply encode_WixShortcut_coerced.
  reflexivity.
Qed.

(** X20. Saving what was loaded writes the same document.  Take a
    manifest written with [Write] on a system that gives back the document
    that was written: the manifest [Load] restores from it into an empty
    manifest is marshalled to that very document, strings that were not
    valid UTF-8 included, so that a [Write] of it, on any state of the file
    system, is what a [Write] of the first manifest is. *)
Theorem Write_Load_Write (sys : System) (p : string) (w : WixManifest)
        (fs fs' : FS sys) :
  Write sys p w fs = (None, fs') ->
  gives_back sys (default_path p) fs fs' ->
  let w' := fst (Load sys p zero_manifest fs') in
  snd (Load sys p zero_manifest fs') = None
  /\ MarshalIndent w' = MarshalIndent w
  /\ forall (q : string) (fs0 : FS sys), Write sys q w' fs0 = Write sys q w fs0.
Proof.
  intros Hwrite Hsys w'. subst w'.
  rewrite (Write_then_Load sys p w fs fs' Hwrite Hsys). simpl.
  assert (encode_WixManifest (restore (coerced_WixManifest w) zero_manifest)
          = encode_WixManifest w) as He.
  { rewrite <- (encode_coerced w). apply encode_persisted_eq.
    unfold persisted_eq. destruct w as [? ? ? ? ? ? ? ? ? ? ? []]. reflexivity. }
  split; [reflexivity|]. split.
  - unfold MarshalIndent. rewrite He. reflexivity.
  - intros q fs0. unfold Write, MarshalIndent. rewrite He. reflexivity.
Qed.

Lemma Write_Load_NeedGuid_witness :
  let w := snd (fst (SetGuids nat counter_guid sample_manifest 0%nat)) in
  let fs' := snd (Write memory "" w empty_fs) in
  snd (Load memory "" zero_manifest fs') = None
  /\ NeedGuid (fst (Load memory "" zero_manifest fs')) = NeedGuid w
  /\ forall (G : Type) (Make : G -> (string * option error) * G)
            (w0 : WixManifest) (g g' : G) (changed : bool),
      (forall g0, fst (fst (Make g0)) <> "") ->
      SetGuids G Make w0 g = (changed, None, w, g') ->
      NeedGuid (fst (Load memory "" zero_manifest fs')) = false.
Proof.
  apply (Write_Load_NeedGuid memory ""
           (snd (fst (SetGuids nat counter_guid sample_manifest 0%nat))) empty_fs).
  - vm_compute. reflexivity.
  - apply (memory_gives_back "wix.json"
             (fst (MarshalIndent
                     (snd (fst (SetGuids nat counter_guid sample_manifest 0%nat)))))
             empty_fs).
Defined.

Lemma Normalize_Write_Load_witness :
  let w1 := fst (Normalize sample_manifest) in
  let w2 := fst (Load memory "" zero_manifest (snd (Write memory "" w1 empty_fs))) in
  VersionOk w2 = ""
  /\ snd (Normalize w2) = None
  /\ VersionOk (fst (Normalize w2)) = VersionOk w1
  /\ ChocoSpec.Tags (Choco (fst (Normalize w2)))
     = json.coerced (ChocoSpec.Tags (Choco sample_manifest) ++ " admin") ++ " admin"
  /\ (ascii_only (ChocoSpec.Tags (Choco sample_manifest)) = true ->
      ChocoSpec.Tags (Choco (fst (Normalize w2)))
      = (ChocoSpec.Tags (Choco sample_manifest) ++ " admin") ++ " admin").
Proof.
  apply (Normalize_Write_Load memory "" sample_manifest (fst (Normalize sample_manifest))
           empty_fs (snd (Write memory "" (fst (Normalize sample_manifest)) empty_fs))).
  - vm_compute. reflexivity.
  - vm_compute. reflexivity.
  - apply (memory_gives_back "wix.json"
             (fst (MarshalIndent (fst (Normalize sample_manifest)))) empty_fs).
Defined.

Lemma Write_Load_Write_witness :
  let w := set_Product invalid_name sample_manifest in
  let fs' := snd (Write memory "" w empty_fs) in
  let w' := fst (Load memory "" zero_manifest fs') in
  snd (Load memory "" zero_manifest fs') = None
  /\ MarshalIndent w' = MarshalIndent w
  /\ forall (q : string) (fs0 : FS memory), Write memory q w' fs0 = Write memory q w fs0.
Proof.
  apply (Write_Load_Write memory "" (set_Product invalid_name sample_manifest) empty_fs).
  - vm_compute. reflexivity.
  - apply (memory_gives_back "wix.json"
             (fst (MarshalIndent (set_Product invalid_name sample_manifest))) empty_fs).
Defined.

(** A part [get] of a struct that no field of the struct reaches is left
    as it was by any document. *)
Lemma into_struct_frame {A B : Type} (F : list (json.field A)) (get : A -> B)
      (name : string) (v : json.value) (old : A) :
  (forall f v' x, In f F -> get (fst (snd f v' x)) = get x) ->
  get (fst (json.into_struct F name v old)) = get old.
Proof.
  intros Hframe. destruct v; try reflexivity.
  unfold json.into_struct.
  apply (assign_preserves F get (fun _ => true)).
  - intros kv x f _ Hfind. apply find_field_spec in Hfind. apply Hframe, Hfind.
  - apply forallb_forall. reflexivity.
Qed.

Ltac each_field H :=
  simpl in H;
  repeat (destruct H as [<- | H]); try contradiction;
  try (apply mk_field_frame; intros y;
       match goal with
       | x : WixManifest |- _ => destruct x; reflexivity
       | x : ChocoSpec.t |- _ => destruct x; reflexivity
       end).

(** X19. [Load] never touches the fields that are not persisted:
    [VersionOk], [RelDirs] and the [MsiFile], [BuildDir] and [ChangeLog] of
    the packaging metadata are, after the call, what they were before it,
    whatever the file holds and whether the call fails or not. *)
Theorem Load_keeps_unpersisted (sys : System) (p : string) (r : WixManifest)
        (fs : FS sys) :
  let w' := fst (Load sys p r fs) in
  VersionOk w' = VersionOk r
  /\ RelDirs w' = RelDirs r
  /\ ChocoSpec.MsiFile (Choco w') = ChocoSpec.MsiFile (Choco r)
  /\ ChocoSpec.BuildDir (Choco w') = ChocoSpec.BuildDir (Choco r)
  /\ ChocoSpec.ChangeLog (Choco w') = ChocoSpec.ChangeLog (Choco r).
Proof.
  assert (forall {B : Type} (part : ChocoSpec.t -> B),
             (forall f v' c, In f fields_ChocoSpec ->
                             part (fst (snd f v' c)) = part c) ->
             forall f v' x, In f fields_WixManifest ->
                            part (Choco (fst (snd f v' x))) = part (Choco x)) as Hchoco.
  { intros B part Hpart f v' x Hin. simpl in Hin.
    repeat (destruct Hin as [<- | Hin]); try contradiction;
      try (apply (mk_field_frame _ _ _ _ (fun x => part (Choco x))); intros y;
           destruct x; reflexivity).
    unfold json.mk_field; cbn [fst snd].
    pose proof (into_struct_frame fields_ChocoSpec part "choco" v' (Choco x) Hpart) as Hp.
    destruct (json.into_struct fields_ChocoSpec "choco" v' (Choco x)) as [y e].
    simpl in Hp |- *. destruct x; simpl in *. exact Hp. }
  assert (forall doc,
             let w' := fst (json.into_struct fields_WixManifest "WixManifest" doc r) in
             VersionOk w' = VersionOk r
             /\ RelDirs w' = RelDirs r
             /\ ChocoSpec.MsiFile (Choco w') = ChocoSpec.MsiFile (Choco r)
             /\ ChocoSpec.BuildDir (Choco w') = ChocoSpec.BuildDir (Choco r)
             /\ ChocoSpec.ChangeLog (Choco w') = ChocoSpec.ChangeLog (Choco r)) as Hdoc.
  { intros doc w'. subst w'. repeat split.
    - apply (into_struct_frame fields_WixManifest VersionOk).
      intros f v' x Hin. each_field Hin.
    - apply (into_struct_frame fields_WixManifest RelDirs).
      intros f v' x Hin. each_field Hin.
    - apply (into_struct_frame fields_WixManifest (fun x => ChocoSpec.MsiFile (Choco x))).
      apply Hchoco. intros f v' c Hin. each_field Hin.
    - apply (into_struct_frame fields_WixManifest (fun x => ChocoSpec.BuildDir (Choco x))).
      apply Hchoco. intros f v' c Hin. each_field Hin.
    - apply (into_struct_frame fields_WixManifest (fun x => ChocoSpec.ChangeLog (Choco x))).
      apply Hchoco. intros f v' c Hin. each_field Hin. }
  unfold Load.
  destruct (IsNotExist _); [repeat split|].
  destruct (ReadFile sys _ fs) as [dat | e]; [|repeat split].
  destruct dat as [doc | raw]; simpl; [|repeat split].
  specialize (Hdoc doc).
  destruct (json.into_struct fields_WixManifest "WixManifest" doc r) as [w' [e|]];
    exact Hdoc.
Qed.

(** ** Identifiers and paths *)

Section IdentifierBlind.

Variable Abs : string -> string * option error.
Variable Rel : string -> string -> string * option error.
Variable out : string.

(** [k] is a change of the manifest that the three loops do not see: it
    leaves the lists they read alone and goes through their updates. *)
Variable k : WixManifest -> WixManifest.
Hypothesis k_items : forall x, WixFiles.Items (Files (k x)) = WixFiles.Items (Files x).
Hypothesis k_files :
  forall l x, k (set_Files (WixFiles.set_Items l (Files x)) x)
              = set_Files (WixFiles.set_Items l (Files (k x))) (k x).
Hypothesis k_dirs : forall x, Directories (k x) = Directories x.
Hypothesis k_rel : forall x, RelDirs (k x) = RelDirs x.
Hypothesis k_reldirs : forall l x, k (set_RelDirs l x) = set_RelDirs l (k x).
Hypothesis k_sitems :
  forall x, WixShortcuts.Items (Shortcuts (k x)) = WixShortcuts.Items (Shortcuts x).
Hypothesis k_shortcuts :
  forall l x, k (set_Shortcuts (WixShortcuts.set_Items l (Shortcuts x)) x)
              = set_Shortcuts (WixShortcuts.set_Items l (Shortcuts (k x))) (k x).

Lemma rewrite_files_blind (items : list string) :
  forall (i : nat) (w : WixManifest),
    rewrite_files Abs Rel out i items (k w)
    = (k (fst (rewrite_files Abs Rel out i items w)),
       snd (rewrite_files Abs Rel out i items w)).
Proof.
  induction items as [|file items IH]; intros i w; simpl; [reflexivity|].
  destruct (Abs file) as [a [e|]]; [reflexivity|].
  destruct (Rel out a) as [r [e|]]; rewrite k_items, <- k_files; [reflexivity|].
  apply IH.
Qed.

Lemma rewrite_dirs_blind (dirs : list string) :
  forall w : WixManifest,
    rewrite_dirs Abs Rel out dirs (k w)
    = (k (fst (rewrite_dirs Abs Rel out dirs w)),
       snd (rewrite_dirs Abs Rel out dirs w)).
Proof.
  induction dirs as [|d dirs IH]; intros w; simpl; [reflexivity|].
  destruct (Abs d) as [a [e|]]; [reflexivity|].
  destruct (Rel out a) as [r [e|]]; [reflexivity|].
  rewrite k_rel, <- k_reldirs. apply IH.
Qed.

Lemma rewrite_icons_blind (items : list WixShortcut.t) :
  forall (i : nat) (w : WixManifest),
    rewrite_icons Abs Rel out i items (k w)
    = (k (fst (rewrite_icons Abs Rel out i items w)),
       snd (rewrite_icons Abs Rel out i items w)).
Proof.
  induction items as [|s items IH]; intros i w; simpl; [reflexivity|].
  destruct (negb (WixShortcut.Icon s =? "")); [|apply IH].
  destruct (Abs (WixShortcut.Icon s)) as [a [e|]]; [reflexivity|].
  destruct (Rel out a) as [r [e|]]; rewrite k_sitems, <- k_shortcuts; [reflexivity|].
  apply IH.
Qed.

Lemma RewriteFilePaths_blind (w : WixManifest) :
  RewriteFilePaths Abs Rel out (k w)
  = (k (fst (RewriteFilePaths Abs Rel out w)), snd (RewriteFilePaths Abs Rel out w)).
Proof.
  unfold RewriteFilePaths.
  rewrite k_items, rewrite_files_blind.
  destruct (rewrite_files Abs Rel out 0 (WixFiles.Items (Files w)) w) as [w1 [e|]];
    simpl; [reflexivity|].
  rewrite k_dirs, rewrite_dirs_blind.
  destruct (rewrite_dirs Abs Rel out (Directories w1) w1) as [w2 [e|]];
    simpl; [reflexivity|].
  rewrite k_sitems, rewrite_icons_blind.
  destruct (rewrite_icons Abs Rel out 0 (WixShortcuts.Items (Shortcuts w2)) w2)
    as [w3 [e|]]; reflexivity.
Qed.

End IdentifierBlind.

Section ContentBlind.

Variable G : Type.
Variable Make : G -> (string * option error) * G.

(** [SetGuids] does not see what [RewriteFilePaths] changes. *)
Lemma SetGuids_content_blind
      (fs rd : list string) (ss : list WixShortcut.t) (w : WixManifest) (g : G) :
  length ss = length (WixShortcuts.Items (Shortcuts w)) ->
  SetGuids G Make
    (set_Files (WixFiles.set_Items fs (Files w))
       (set_RelDirs rd (set_Shortcuts (WixShortcuts.set_Items ss (Shortcuts w)) w))) g
  = let '(changed, err, w1, g1) := SetGuids G Make w g in
    (changed, err,
     set_Files (WixFiles.set_Items fs (Files w1))
       (set_RelDirs rd (set_Shortcuts (WixShortcuts.set_Items ss (Shortcuts w1)) w1)),
     g1).
Proof.
  destruct w as [? ? ? ? ? up [fg fi] ? ? [eg ev] [sg si] ?].
  simpl. intros Hlen. unfold SetGuids; simpl.
  destruct (up =? "") eqn:Hu;
    destruct (fg =? "") eqn:Hf;
    destruct ((eg =? "") && (0 <? length ev)%nat) eqn:He;
    destruct ((sg =? "") && (0 <? length si)%nat) eqn:Hs.
  all: do 5 (simpl; rewrite ?Hlen, ?Hu, ?Hf, ?He, ?Hs; simpl;
             try match goal with
                 | |- context [Make ?g] => destruct (Make g) as [[? [?|]] ?] eqn:?
                 end).
  all: reflexivity.
Qed.

End ContentBlind.

(** X18. [SetGuids] and [RewriteFilePaths] do not interfere: called in
    either order they leave the same manifest, and each returns what it
    returns when it is called first (the same [changed] and error, the same
    generator calls, the same path error). *)
Theorem SetGuids_RewriteFilePaths_commute
        (G : Type) (Make : G -> (string * option error) * G)
        (Abs : string -> string * option error)
        (Rel : string -> string -> string * option error)
        (out : string) (w : WixManifest) (g : G) :
  let '(changed, err, w1, g1) := SetGuids G Make w g in
  let '(w2, perr) := RewriteFilePaths Abs Rel out w1 in
  let '(w3, perr') := RewriteFilePaths Abs Rel out w in
  let '(changed', err', w4, g4) := SetGuids G Make w3 g in
  w2 = w4 /\ changed = changed' /\ err = err' /\ g1 = g4 /\ perr = perr'.
Proof.
  destruct (RewriteFilePaths_outcome Abs Rel out w) as (fs & rs & ss & _ & Hss & Hw3 & _).
  pose proof (SetGuids_content_blind G Make fs (RelDirs w ++ rs) ss w g Hss) as Hblind.
  pose proof (SetGuids_outcome G Make w g) as Hout.
  destruct (SetGuids G Make w g) as [[[changed err] w1] g1].
  destruct Hout as [Hclear _].
  remember (UpgradeCode w1) as u eqn:Eu.
  remember (WixFiles.Guid (Files w1)) as fg eqn:Ef.
  remember (WixEnvList.Guid (Env w1)) as eg eqn:Ee.
  remember (WixShortcuts.Guid (Shortcuts w1)) as sg eqn:Es.
  set (k := fun x =>
              set_UpgradeCode u
                (set_Files (WixFiles.set_Guid fg (Files x))
                   (set_Env (WixEnvList.set_Guid eg (Env x))
                      (set_Shortcuts (WixShortcuts.set_Guid sg (Shortcuts x)) x)))).
  assert (w1 = k w) as Hk.
  { subst k. clear - Hclear Eu Ef Ee Es.
    destruct w as [? ? ? ? ? ? [] ? ? [] [] ?], w1 as [? ? ? ? ? ? [] ? ? [] [] ?].
    unfold clear_slots in Hclear. simpl in *. injection Hclear as -> ->.
    subst. reflexivity. }
  clear Eu Ef Ee Es Hclear. subst w1.
  assert (RewriteFilePaths Abs Rel out (k w)
          = (k (fst (RewriteFilePaths Abs Rel out w)),
             snd (RewriteFilePaths Abs Rel out w))) as Hrfp.
  { apply RewriteFilePaths_blind; subst k; intros;
      repeat match goal with
        | x : WixManifest |- _ => destruct x as [? ? ? ? ? ? [] ? ? [] [] ?]
        end; reflexivity. }
  rewrite Hrfp.
  destruct (RewriteFilePaths Abs Rel out w) as [w3 perr']. simpl in Hw3 |- *.
  subst w3. rewrite Hblind.
  split; [|repeat split].
  subst k. clear.
  destruct w as [? ? ? ? ? ? [] ? ? [] [] ?]. reflexivity.
Qed.
